(** * MT3DMS example problems 1 and 2: the scenario pipeline

    A shallow embedding of [scripts/ex-gwt-mt3dms-p01.py] and
    [scripts/ex-gwt-mt3dms-p02.py].  Both scripts build simulation
    descriptions for MODFLOW-2005/MT3DMS and for MODFLOW 6 through the
    flopy library, write them to disk, run the external solvers and plot
    the results.

    - Python floats are IEEE binary64 numbers: Rocq's primitive [float].
    - Python ints are [Z], strings are [string], [None]-able keyword
      arguments are [option].
    - A flopy package is the name of its constructor together with the
      keyword arguments the script passes, in source order.
    - Effects (files, pyplot figures, console output, solver runs, file
      reads) are threaded through a state-and-exception monad over a
      [world].
    - flopy, numpy readers and the solver executables are collaborators:
      they enter as the fields of a record [collab]. *)

From Stdlib Require Import ZArith Floats Ascii String.
From stdpp Require Import gmap strings list.

Set Warnings "-inexact-float,-register-all".
Set Default Proof Using "Type".

Local Open Scope string_scope.
Local Open Scope list_scope.
Local Open Scope Z_scope.

Notation "x ⊘ y" := (PrimFloat.div x y) (at level 40, left associativity).
Notation "x ⊗ y" := (PrimFloat.mul x y) (at level 40, left associativity).
Notation "x ⊖ y" := (PrimFloat.sub x y) (at level 50, left associativity).

(** ** Python values *)

Inductive pyval : Type :=
| PyNone
| PyBool (b : bool)
| PyInt (z : Z)
| PyFloat (f : float)
| PyStr (s : string)
| PyTuple (items : list pyval)
| PyList (items : list pyval)
| PyDict (items : list (pyval * pyval))
| PyIntArray (a : list (list (list Z)))       (* numpy, dtype=int, 3-d *)
| PyFloatArray (a : list (list (list float))). (* numpy, dtype=float, 3-d *)

(** Keyword arguments, in the order the call site writes them. *)
Definition kwargs := list (string * pyval).

Fixpoint kwarg (k : string) (kw : kwargs) : option pyval :=
  match kw with
  | [] => None
  | (k', v) :: rest => if String.eqb k k' then Some v else kwarg k rest
  end.

(** [d[k]] on a dictionary kept in insertion order. *)
Fixpoint dict_get {A} (k : string) (d : list (string * A)) : option A :=
  match d with
  | [] => None
  | (k', v) :: rest => if String.eqb k k' then Some v else dict_get k rest
  end.

(** Python's [x == c] and [x != c] on floats: IEEE comparison. *)
Definition float_eq (x y : float) : bool := PrimFloat.eqb x y.
Definition float_ne (x y : float) : bool := negb (PrimFloat.eqb x y).
Definition float_gt (x y : float) : bool := PrimFloat.ltb y x.

(** [float(n)] for the small non-negative ints the scripts convert. *)
Definition float_of_Z (n : Z) : float := PrimFloat.of_uint63 (Uint63.of_Z n).

(** [int(x)] on a float: truncation toward zero.  The scripts apply it
    to finite values only; infinities and NaN, on which Python raises,
    are sent to 0 here. *)
Definition py_int (x : float) : Z :=
  match Prim2SF x with
  | S754_finite s m e =>
      let n := match e with
               | Z.neg k => Z.pos m / 2 ^ Z.pos k
               | _ => Z.pos m * 2 ^ e
               end in
      if s then - n else n
  | _ => 0
  end.

(** [None] or a float, as a keyword argument. *)
Definition py_opt_float (x : option float) : pyval :=
  match x with Some f => PyFloat f | None => PyNone end.
Definition py_opt_str (x : option string) : pyval :=
  match x with Some f => PyStr f | None => PyNone end.

(** [xs[::step]] *)
Fixpoint every {A} (fuel : nat) (step : nat) (xs : list A) : list A :=
  match fuel, xs with
  | S fuel', x :: _ => x :: every fuel' step (drop step xs)
  | _, _ => []
  end.
Definition slice_step {A} (step : nat) (xs : list A) : list A :=
  every (length xs) step xs.

(** [arr / c] on a numpy array and a Python float: elementwise. *)
Definition array_div (arr : list float) (c : float) : list float :=
  map (fun x => x ⊘ c) arr.

(** ** Strings and paths *)

(** [template.format(args...)] for templates whose fields are all [{}];
    every template of the scripts has exactly as many fields as
    arguments.  A field without an argument is left empty. *)
Fixpoint format (template : string) (args : list string) : string :=
  match template with
  | String "{"%char (String "}"%char rest) =>
      match args with
      | a :: args' => a +:+ format rest args'
      | [] => format rest []
      end
  | String c rest => String c (format rest args)
  | EmptyString => EmptyString
  end.

Definition startswith_sep (s : string) : bool :=
  match s with String "/"%char _ => true | _ => false end.

Fixpoint endswith_sep (s : string) : bool :=
  match s with
  | EmptyString => false
  | String c EmptyString => Ascii.eqb c "/"%char
  | String _ rest => endswith_sep rest
  end.

(** [os.path.join] (posixpath): an absolute component restarts the
    path, a separator is added unless the path so far is empty or
    already ends in one. *)
Definition join2 (path b : string) : string :=
  if startswith_sep b then b
  else if String.eqb path "" || endswith_sep path then path +:+ b
  else path +:+ "/" +:+ b.

Definition path_join (a : string) (p : list string) : string :=
  foldl join2 a p.

(** [os.path.split(p)[0]] and [os.path.basename]: the part before and
    after the last separator (the head loses its trailing separators
    unless it consists of separators only). *)
Fixpoint split_last (s : string) : option (string * string) :=
  match s with
  | EmptyString => None
  | String c rest =>
      match split_last rest with
      | Some (h, t) => Some (String c h, t)
      | None => if Ascii.eqb c "/"%char then Some (EmptyString, rest) else None
      end
  end.

Fixpoint all_sep (s : string) : bool :=
  match s with
  | EmptyString => true
  | String c rest => Ascii.eqb c "/"%char && all_sep rest
  end.

Fixpoint rstrip_sep (s : string) : string :=
  match s with
  | EmptyString => EmptyString
  | String c rest =>
      if all_sep (String c rest) then EmptyString else String c (rstrip_sep rest)
  end.

Definition path_split (p : string) : string * string :=
  match split_last p with
  | Some (h, t) =>
      let head := h +:+ "/" in
      (if all_sep head then head else rstrip_sep head, t)
  | None => ("", p)
  end.

Definition path_basename (p : string) : string := snd (path_split p).

(** ** numpy arrays of the scripts *)

(** Python index wrap-around: a negative index counts from the end. *)
Definition wrap_index (len : nat) (i : Z) : nat :=
  Z.to_nat (if i <? 0 then Z.of_nat len + i else i).

Definition full3 {A} (shape : nat * nat * nat) (x : A) : list (list (list A)) :=
  let '(nl, nr, nc) := shape in replicate nl (replicate nr (replicate nc x)).

(** [a[l, r, c] = x]; the scripts only use indices inside the array. *)
Definition setitem3 {A} (a : list (list (list A))) (l r c : Z) (x : A)
  : list (list (list A)) :=
  alter (fun rows =>
    alter (fun row => <[wrap_index (length row) c := x]> row)
          (wrap_index (length rows) r) rows)
    (wrap_index (length a) l) a.

(** [np.linspace(start, stop, num)]: [arange(num) * step + start] with
    the last point set to [stop] when there is more than one point. *)
Definition linspace (start stop : float) (num : nat) : list float :=
  let delta := stop ⊖ start in
  let step := delta ⊘ float_of_Z (Z.of_nat num - 1) in
  match num with
  | O => []
  | S O => [PrimFloat.add (float_of_Z 0 ⊗ delta) start]
  | S n =>
      map (fun i => PrimFloat.add (float_of_Z (Z.of_nat i) ⊗ step) start) (seq 0 n)
      ++ [stop]
  end.

(** ** flopy objects

    A package is a constructor call; a model or simulation owns the
    packages constructed with it as first argument, in source order. *)

Record package := Package { pkg_ctor : string; pkg_args : kwargs }.

(** [flopy.modflow.Modflow] *)
Record Modflow := MkModflow { mf_args : kwargs; mf_packages : list package }.

(** [flopy.mt3d.Mt3dms]; [modflowmodel] is the flow model it is linked to. *)
Record Mt3dms := MkMt3dms {
  mt_args : kwargs;
  mt_modflowmodel : Modflow;
  mt_packages : list package }.

(** A MODFLOW 6 model ([ModflowGwf], [ModflowGwt] or a bare [MFModel]);
    [mdl_name_file] holds the attributes set on [model.name_file]. *)
Record MFModel := MkMFModel {
  mdl_ctor : string;
  mdl_args : kwargs;
  mdl_name_file : kwargs;
  mdl_packages : list package }.

(** [flopy.mf6.MFSimulation]; [sim_ims] are the calls of
    [register_ims_package]: an IMS package and the model names it solves. *)
Record MFSimulation := MkMFSimulation {
  sim_args : kwargs;
  sim_packages : list package;
  sim_models : list MFModel;
  sim_ims : list (package * list string) }.

Fixpoint find_package (ctor : string) (ps : list package) : option package :=
  match ps with
  | [] => None
  | p :: rest => if String.eqb ctor (pkg_ctor p) then Some p else find_package ctor rest
  end.

(** The keyword argument [k] of the first package built by [ctor]. *)
Definition pkg_kwarg (ctor k : string) (ps : list package) : option pyval :=
  match find_package ctor ps with
  | Some p => kwarg k (pkg_args p)
  | None => None
  end.

Definition arg_str (k : string) (kw : kwargs) : string :=
  match kwarg k kw with Some (PyStr s) => s | _ => "" end.

(** ** The shared configuration module

    [common/config.py] is not part of the sources: its constants are the
    fields of this record. *)
Record config := Config {
  buildModel : bool;
  writeModel : bool;
  runModel : bool;
  plotModel : bool;
  plotSave : bool;
  base_ws : string;
  mf6_exe : string;
  mf2005_exe : string;
  mt3dms_exe : string;
  figure_ext : string }.

(** ** pyplot figures *)

Inductive axcmd :=
| AxPlot (x y : list float) (fmt : option string) (kw : kwargs)
| AxSetYlim (lo hi : pyval)
| AxSetXlim (lo hi : pyval)
| AxSetXlabel (s : string)
| AxSetYlabel (s : string)
| AxLegend
| AxHeading (letter heading : string).

(** A figure made by [plt.subplots(1, 1, ...)] under a [USGSFigure]
    style, and the calls made on its axes so far. *)
Record figure := Figure {
  fig_specs : kwargs;
  fig_kw : kwargs;
  fig_axes : list axcmd }.

(** ** The world, and what the collaborators do to it *)

Inductive target :=
| TModflow (m : Modflow)
| TMt3dms (m : Mt3dms)
| TSimulation (s : MFSimulation).

Record run_opts := RunOpts {
  ro_silent : bool;
  ro_report : option bool;
  ro_normal_msg : option string }.

Inductive event :=
| EPrint (v : pyval)                      (* print(v) *)
| EWrite (t : target)                     (* write_input / write_simulation *)
| ERun (t : target) (o : run_opts) (success : bool)
| ERead (path : string)                   (* an output file is opened *)
| ETimed (method : string)                (* config.timeit reports a duration *)
| ESaveFig (path : string) (fig : figure) (* fig.savefig(path) *).

Record world := World {
  files : gmap string string;    (* the file system: path to contents *)
  figures : list figure;         (* pyplot's open figures *)
  trace : list event }.

(** A record array: column name to column. *)
Abbreviation recarray := (gmap string (list float)).
Abbreviation array4 := (list (list (list (list float)))).

Record collab := Collab {
  abspath : string -> string;
  (* the input files a description is serialized to: path and contents *)
  write_input_modflow : Modflow -> list (string * string);
  write_input_mt3dms : Mt3dms -> list (string * string);
  write_simulation : MFSimulation -> bool -> list (string * string);
  (* a solver run: the success flag, the captured text and the files after *)
  run_modflow : Modflow -> run_opts -> gmap string string ->
                bool * list string * gmap string string;
  run_mt3dms : Mt3dms -> run_opts -> gmap string string ->
               bool * list string * gmap string string;
  run_simulation : MFSimulation -> run_opts -> gmap string string ->
                   bool * list string * gmap string string;
  (* readers of output files, from the contents of the file *)
  ucn_alldata : string -> array4;
  load_obs : string -> recarray;
  mf6obs_data : string -> recarray;
  (* str(x) of a float, as "{}".format(x) prints it *)
  str_float : float -> string }.

(** ** Exceptions and the monad of the scripts *)

Inductive exn :=
| TypeError (what : string)
| UnboundLocalError (name : string)
| IndexError
| KeyError (key : string)
| AttributeError (name : string)
| ValueError
| FileNotFoundError (path : string)
| PlainException.

Inductive result (A : Type) :=
| Ok (a : A)
| Raise (e : exn).
Arguments Ok {A} a.
Arguments Raise {A} e.

Definition M (A : Type) : Type := world -> result A * world.

Definition ret {A} (a : A) : M A := fun w => (Ok a, w).
Definition raise {A} (e : exn) : M A := fun w => (Raise e, w).
Definition bind {A B} (m : M A) (k : A -> M B) : M B :=
  fun w => match m w with
           | (Ok a, w') => k a w'
           | (Raise e, w') => (Raise e, w')
           end.
Definition lift {A} (r : result A) : M A := fun w => (r, w).

Notation "'let!' x ':=' m 'in' k" := (bind m (fun x => k))
  (at level 10, x name, m at level 100, k at level 200).
Notation "'let!' ' p ':=' m 'in' k" := (bind m (fun p => k))
  (at level 10, p pattern, m at level 100, k at level 200).
Notation "'do!' m 'in' k" := (bind m (fun _ => k))
  (at level 10, m at level 100, k at level 200).

Definition emit (e : event) : M unit :=
  fun w => (Ok tt, World (files w) (figures w) (trace w ++ [e])).

Definition print (v : pyval) : M unit := emit (EPrint v).

Definition store (fs : list (string * string)) (m : gmap string string)
  : gmap string string :=
  foldl (fun acc kv => <[kv.1 := kv.2]> acc) m fs.

Definition write_files (t : target) (fs : list (string * string)) : M unit :=
  fun w => (Ok tt, World (store fs (files w)) (figures w) (trace w ++ [EWrite t])).

(** Opening an output file for reading. *)
Definition open_file (path : string) : M string :=
  do! emit (ERead path) in
  fun w => match files w !! path with
           | Some contents => (Ok contents, w)
           | None => (Raise (FileNotFoundError path), w)
           end.

(** One solver run: the collaborator maps the files before to the
    outcome and the files after. *)
Definition run_solver (t : target) (o : run_opts)
    (solver : gmap string string -> bool * list string * gmap string string)
  : M (bool * list string) :=
  fun w => let '(success, buff, fs') := solver (files w) in
           (Ok (success, buff),
            World fs' (figures w) (trace w ++ [ERun t o success])).

Definition when (b : bool) (m : M unit) : M unit := if b then m else ret tt.

(** [plt.subplots]: a fresh figure; its handle is its position among
    pyplot's figures. *)
Definition subplots (specs kw : kwargs) : M nat :=
  fun w => (Ok (length (figures w)),
            World (files w) (figures w ++ [Figure specs kw []]) (trace w)).

(** A call on the axes of figure [ax]. *)
Definition ax_call (ax : nat) (c : axcmd) : M unit :=
  fun w => (Ok tt,
            World (files w)
                  (alter (fun f => Figure (fig_specs f) (fig_kw f) (fig_axes f ++ [c]))
                         ax (figures w))
                  (trace w)).

(** [fig.savefig(path)] *)
Definition savefig (fig : nat) (path : string) : M unit :=
  fun w => match figures w !! fig with
           | Some f => emit (ESaveFig path f) w
           | None => (Ok tt, w)
           end.

(** [seq[i]] with Python's negative indices. *)
Definition py_index {A} (xs : list A) (i : Z) : result A :=
  if (i <? - Z.of_nat (length xs)) || (Z.of_nat (length xs) <=? i) then Raise IndexError
  else match xs !! wrap_index (length xs) i with
       | Some x => Ok x
       | None => Raise IndexError
       end.

(** [chr(n)]; only one-byte code points arise in the scripts. *)
Definition py_chr (n : Z) : result string :=
  if (0 <=? n) && (n <? 256)
  then Ok (String (ascii_of_N (Z.to_N n)) EmptyString)
  else Raise ValueError.

(** [conc[0, 0, 0, :]] *)
Definition profile (conc : array4) : result (list float) :=
  match conc !! 0%nat with
  | Some a => match a !! 0%nat with
              | Some b => match b !! 0%nat with
                          | Some row => Ok row
                          | None => Raise IndexError
                          end
              | None => Raise IndexError
              end
  | None => Raise IndexError
  end.

(** [ra[name]] on a numpy record array: a field that is missing raises
    [ValueError]. *)
Definition column (ra : recarray) (name : string) : result (list float) :=
  match ra !! name with
  | Some c => Ok c
  | None => Raise ValueError
  end.

(** Modelled from the spec: the decorator [config.timeit] is defined in
    the shared configuration module, which is not among the sources.
    The Runner of the spec returns the success flag of the run, so the
    decorator is taken to run the function it wraps unchanged and to hand
    back its result, after reporting the duration on the console. *)
Definition timeit {A} (method : string) (body : M A) : M A :=
  let! r := body in
  do! emit (ETimed method) in
  ret r.

(** * Problem 1: one-dimensional transport in a uniform flow field
      ([ex-gwt-mt3dms-p01.py]) *)

Module P01.

(** ** Scenario parameters *)

Record params := Params {
  dispersivity : float;
  retardation : float;
  decay : float }.

(** The [parameters] dictionary, in insertion order. *)
Definition parameters : list (string * params) :=
  [ ("ex-gwt-mt3dms-p01a", Params 0.0 1.0 0.0);
    ("ex-gwt-mt3dms-p01b", Params 10.0 1.0 0.0);
    ("ex-gwt-mt3dms-p01c", Params 10.0 5.0 0.0);
    ("ex-gwt-mt3dms-p01d", Params 10.0 5.0 0.002) ]%float.

(** ** Module-level constants *)

Definition figure_size : pyval := PyTuple [PyInt 5; PyFloat 3.5].

Definition length_units := "meters".
Definition time_units := "days".

Definition nper : Z := 1.
Definition nlay : Z := 1.
Definition ncol : Z := 101.
Definition nrow : Z := 1.
Definition delr : float := 10.0.
Definition delc : float := 1.0.
Definition top : float := 0.0.
Definition botm : float := (-1.0)%float.
Definition prsity : float := 0.25.
Definition perlen : Z := 2000.
Definition k11 : float := 1.0.

Definition k33 : float := k11.
Definition laytyp : Z := 1.
Definition nstp : float := 100.0.
Definition dt0 : float := float_of_Z perlen ⊘ nstp.
Definition Lx : float := float_of_Z (ncol - 1) ⊗ delr.
Definition v : float := 0.24.
Definition q : float := v ⊗ prsity.
Definition h1 : float := q ⊗ Lx.
Definition shape : nat * nat * nat := (Z.to_nat nlay, Z.to_nat nrow, Z.to_nat ncol).
Definition strt : list (list (list float)) :=
  setitem3 (full3 shape 0.0%float) 0 0 0 h1.
Definition l : float := 1000.0.
Definition icelltype : Z := 1.
Definition ibound : list (list (list Z)) :=
  setitem3 (setitem3 (full3 shape 1) 0 0 0 (-1)) 0 0 (-1) (-1).

Definition rhob : float := 0.25.

Definition nouter : Z := 100.
Definition ninner : Z := 300.
Definition hclose : float := 1e-6.
Definition rclose : float := 1e-6.
Definition relax : float := 1.0.
Definition dceps : float := 1.0e-5.
Definition nplane : Z := 1.
Definition npl : Z := 0.
Definition nph : Z := 4.
Definition npmin : Z := 0.
Definition npmax : Z := 8.
Definition nlsink : Z := nplane.
Definition npsink : Z := nph.

Definition tdis_rc : list pyval :=
  [PyTuple [PyInt perlen; PyFloat nstp; PyFloat 1.0]].

(** Constant head cells are specified on both ends of the model. *)
Definition chdspd : list pyval :=
  [ PyList [PyTuple [PyInt 0; PyInt 0; PyInt 0]; PyFloat h1];
    PyList [PyTuple [PyInt 0; PyInt 0; PyInt (ncol - 1)]; PyFloat 0.0] ].
Definition c0 : float := 1.0.
Definition cncspd : list pyval :=
  [ PyList [PyTuple [PyInt 0; PyInt 0; PyInt 0]; PyFloat c0] ].

Section Scripts.
Context (cfg : config) (fl : collab).

Definition mf6exe : string := abspath fl (mf6_exe cfg).
Definition exe_name_mf : string := mf2005_exe cfg.
Definition exe_name_mt : string := mt3dms_exe cfg.
Definition ws : string := base_ws cfg.

(** ** [build_model]: the MODFLOW-2005 / MT3DMS pair *)

Definition build_mf (sim_name : string) : Modflow :=
  let mt3d_ws := path_join ws [sim_name; "mt3d"] in
  let modelname_mf := "p01-mf" in
  MkModflow
    [ ("modelname", PyStr modelname_mf); ("model_ws", PyStr mt3d_ws);
      ("exe_name", PyStr exe_name_mf) ]
    [ Package "ModflowDis"
        [ ("nlay", PyInt nlay); ("nrow", PyInt nrow); ("ncol", PyInt ncol);
          ("delr", PyFloat delr); ("delc", PyFloat delc); ("top", PyFloat top);
          ("nstp", PyFloat nstp); ("botm", PyFloat botm); ("perlen", PyInt perlen);
          ("itmuni", PyInt 4); ("lenuni", PyInt 2) ];
      Package "ModflowBas"
        [ ("ibound", PyIntArray ibound); ("strt", PyFloatArray strt) ];
      Package "ModflowLpf" [ ("hk", PyFloat k11); ("laytyp", PyInt laytyp) ];
      Package "ModflowPcg" [];
      Package "ModflowLmt" [] ].

Definition build_mt (sim_name : string) (mf : Modflow)
    (dispersivity retardation decay : float) (mixelm : Z) : Mt3dms :=
  let mt3d_ws := path_join ws [sim_name; "mt3d"] in
  let modelname_mt := "p01-mt" in
  let c0 := 1.0%float in
  let icbund := setitem3 (full3 shape 1) 0 0 0 (-1) in
  let sconc := setitem3 (full3 shape 0.0%float) 0 0 0 c0 in
  (* Set reactive variables *)
  let '(isothm, rc1) :=
    if float_eq retardation 1.0 then (PyFloat 0.0, Some 0.0%float)
    else (PyInt 1, None) in
  let '(ireact, rc1) :=
    if float_ne decay (float_of_Z 0) then (PyInt 1, decay)
    else (PyFloat 0.0, 0.0%float) in
  let kd := (retardation ⊖ 1.0) ⊗ prsity ⊘ rhob in
  MkMt3dms
    [ ("modelname", PyStr modelname_mt); ("model_ws", PyStr mt3d_ws);
      ("exe_name", PyStr exe_name_mt) ]
    mf
    [ Package "Mt3dBtn"
        [ ("laycon", PyInt laytyp); ("icbund", PyIntArray icbund);
          ("prsity", PyFloat prsity); ("sconc", PyFloatArray sconc);
          ("dt0", PyFloat dt0); ("ifmtcn", PyInt 1) ];
      Package "Mt3dAdv"
        [ ("mixelm", PyInt mixelm); ("dceps", PyFloat dceps);
          ("nplane", PyInt nplane); ("npl", PyInt npl); ("nph", PyInt nph);
          ("npmin", PyInt npmin); ("npmax", PyInt npmax);
          ("nlsink", PyInt nlsink); ("npsink", PyInt npsink);
          ("percel", PyFloat 0.5) ];
      Package "Mt3dDsp" [ ("al", PyFloat dispersivity) ];
      Package "Mt3dRct"
        [ ("isothm", isothm); ("ireact", ireact); ("igetsc", PyInt 0);
          ("rhob", PyFloat rhob); ("sp1", PyFloat kd);
          ("rc1", PyFloat rc1); ("rc2", PyFloat rc1) ];
      Package "Mt3dSsm" [];
      Package "Mt3dGcg" [ ("mxiter", PyInt 10) ] ].

(** ** [build_model]: the MODFLOW 6 simulation *)

Definition name := "p01-mf6".
Definition gwfname := "gwf-" +:+ name.
Definition gwtname := "gwt-" +:+ name.

Definition ims (linear_acceleration fname : string) : package :=
  Package "ModflowIms"
    [ ("print_option", PyStr "SUMMARY"); ("outer_dvclose", PyFloat hclose);
      ("outer_maximum", PyInt nouter); ("under_relaxation", PyStr "NONE");
      ("inner_maximum", PyInt ninner); ("inner_dvclose", PyFloat hclose);
      ("rcloserecord", PyFloat rclose);
      ("linear_acceleration", PyStr linear_acceleration);
      ("scaling_method", PyStr "NONE"); ("reordering_method", PyStr "NONE");
      ("relaxation_factor", PyFloat relax);
      ("filename", PyStr (format "{}.ims" [fname])) ].

Definition last_records (what : string) : pyval :=
  PyList [ PyTuple [PyStr what; PyStr "LAST"];
           PyTuple [PyStr "BUDGET"; PyStr "LAST"] ].

Definition print_format : pyval :=
  PyList [ PyTuple [ PyStr "COLUMNS"; PyInt 10; PyStr "WIDTH"; PyInt 15;
                     PyStr "DIGITS"; PyInt 6; PyStr "GENERAL" ] ].

Definition build_gwf : MFModel :=
  MkMFModel "ModflowGwf"
    [ ("modelname", PyStr gwfname); ("save_flows", PyBool true);
      ("model_nam_file", PyStr (format "{}.nam" [gwfname])) ]
    []
    [ Package "ModflowGwfdis"
        [ ("length_units", PyStr length_units);
          ("nlay", PyInt nlay); ("nrow", PyInt nrow); ("ncol", PyInt ncol);
          ("delr", PyFloat delr); ("delc", PyFloat delc);
          ("top", PyFloat top); ("botm", PyFloat botm);
          ("idomain", PyIntArray (full3 shape 1));
          ("filename", PyStr (format "{}.dis" [gwfname])) ];
      Package "ModflowGwfnpf"
        [ ("save_flows", PyBool false); ("icelltype", PyInt icelltype);
          ("k", PyFloat k11); ("k33", PyFloat k33);
          ("save_specific_discharge", PyBool true);
          ("filename", PyStr (format "{}.npf" [gwfname])) ];
      Package "ModflowGwfic"
        [ ("strt", PyFloatArray strt);
          ("filename", PyStr (format "{}.ic" [gwfname])) ];
      Package "ModflowGwfchd"
        [ ("maxbound", PyInt (Z.of_nat (length chdspd)));
          ("stress_period_data", PyList chdspd);
          ("save_flows", PyBool false); ("pname", PyStr "CHD-1");
          ("filename", PyStr (format "{}.chd" [gwfname])) ];
      Package "ModflowGwfoc"
        [ ("head_filerecord", PyStr (format "{}.hds" [gwfname]));
          ("budget_filerecord", PyStr (format "{}.cbc" [gwfname]));
          ("headprintrecord", print_format);
          ("saverecord", last_records "HEAD");
          ("printrecord", last_records "HEAD") ] ].

(** The transport model.  [scheme] is the advection scheme already
    selected from [mixelm]. *)
Definition build_gwt (dispersivity retardation decay : float) (scheme : string)
  : MFModel :=
  let c0 := 1.0%float in
  let sconc := setitem3 (full3 shape 0.0%float) 0 0 0 c0 in
  let '(sorption, kd) :=
    if float_ne retardation 1.0
    then (PyStr "linear", (retardation ⊖ 1.0) ⊗ prsity ⊘ rhob)
    else (PyNone, 1.0%float) in
  let first_order_decay := if float_ne decay 0.0 then true else false in
  MkMFModel "MFModel"
    [ ("model_type", PyStr "gwt6"); ("modelname", PyStr gwtname);
      ("model_nam_file", PyStr (format "{}.nam" [gwtname])) ]
    [ ("save_flows", PyBool true) ]
    ([ Package "ModflowGwtdis"
        [ ("nlay", PyInt nlay); ("nrow", PyInt nrow); ("ncol", PyInt ncol);
          ("delr", PyFloat delr); ("delc", PyFloat delc);
          ("top", PyFloat top); ("botm", PyFloat botm);
          ("idomain", PyInt 1);
          ("filename", PyStr (format "{}.dis" [gwtname])) ];
      Package "ModflowGwtic"
        [ ("strt", PyFloatArray sconc);
          ("filename", PyStr (format "{}.ic" [gwtname])) ];
      Package "ModflowGwtadv"
        [ ("scheme", PyStr scheme);
          ("filename", PyStr (format "{}.adv" [gwtname])) ] ]
     ++ (if float_ne dispersivity (float_of_Z 0)
         then [ Package "ModflowGwtdsp"
                  [ ("xt3d_off", PyBool true); ("alh", PyFloat dispersivity);
                    ("ath1", PyFloat dispersivity);
                    ("filename", PyStr (format "{}.dsp" [gwtname])) ] ]
         else [])
     ++ [ Package "ModflowGwtmst"
        [ ("porosity", PyFloat prsity); ("sorption", sorption);
          ("bulk_density", PyFloat rhob); ("distcoef", PyFloat kd);
          ("first_order_decay", PyBool first_order_decay);
          ("decay", PyFloat decay); ("decay_sorbed", PyFloat decay);
          ("filename", PyStr (format "{}.mst" [gwtname])) ];
      Package "ModflowGwtcnc"
        [ ("maxbound", PyInt (Z.of_nat (length cncspd)));
          ("stress_period_data", PyList cncspd);
          ("save_flows", PyBool false); ("pname", PyStr "CNC-1");
          ("filename", PyStr (format "{}.cnc" [gwtname])) ];
      Package "ModflowGwtssm"
        [ ("sources", PyList [PyList []]);
          ("filename", PyStr (format "{}.ssm" [gwtname])) ];
      Package "ModflowGwtoc"
        [ ("budget_filerecord", PyStr (format "{}.cbc" [gwtname]));
          ("concentration_filerecord", PyStr (format "{}.ucn" [gwtname]));
          ("concentrationprintrecord", print_format);
          ("saverecord", last_records "CONCENTRATION");
          ("printrecord", last_records "CONCENTRATION") ] ]).

Definition build_sim (sim_name : string) (gwt : MFModel) : MFSimulation :=
  let sim_ws := path_join ws [sim_name] in
  let imsgwf := ims "CG" gwfname in
  let imsgwt := ims "BICGSTAB" gwtname in
  MkMFSimulation
    [ ("sim_name", PyStr sim_name); ("sim_ws", PyStr sim_ws);
      ("exe_name", PyStr mf6exe) ]
    [ Package "ModflowTdis"
        [ ("nper", PyInt nper); ("perioddata", PyList tdis_rc);
          ("time_units", PyStr time_units) ];
      imsgwf;
      imsgwt;
      Package "ModflowGwfgwt"
        [ ("exgtype", PyStr "GWF6-GWT6"); ("exgmnamea", PyStr gwfname);
          ("exgmnameb", PyStr gwtname);
          ("filename", PyStr (format "{}.gwfgwt" [name])) ] ]
    [ build_gwf; gwt ]
    [ (imsgwf, [arg_str "modelname" (mdl_args build_gwf)]);
      (imsgwt, [arg_str "modelname" (mdl_args gwt)]) ].

(** [build_model]: [None] unless [config.buildModel].  The advection
    scheme is selected from [mixelm] once the MT3DMS model is complete;
    a value other than 0 and -1 raises. *)
Definition select_scheme (mixelm : Z) : result string :=
  if mixelm =? 0 then Ok "UPSTREAM"
  else if mixelm =? -1 then Ok "TVD"
  else Raise PlainException.

Definition build_model (sim_name : string)
    (dispersivity retardation decay : float) (mixelm : Z) (silent : bool)
  : result (option (Modflow * Mt3dms * MFSimulation)) :=
  if buildModel cfg then
    let mf := build_mf sim_name in
    let mt := build_mt sim_name mf dispersivity retardation decay mixelm in
    match select_scheme mixelm with
    | Ok scheme =>
        let gwt := build_gwt dispersivity retardation decay scheme in
        Ok (Some (mf, mt, build_sim sim_name gwt))
    | Raise e => Raise e
    end
  else Ok None.

(** ** [write_model] *)

Definition write_model (mf2k5 : Modflow) (mt3d : Mt3dms) (sim : MFSimulation)
    (silent : bool) : M unit :=
  if writeModel cfg then
    do! write_files (TModflow mf2k5) (write_input_modflow fl mf2k5) in
    do! write_files (TMt3dms mt3d) (write_input_mt3dms fl mt3d) in
    write_files (TSimulation sim) (write_simulation fl sim silent)
  else ret tt.

(** ** [run_model]: [True] is returned if the model runs successfully *)

Definition run_model (mf2k5 : Modflow) (mt3d : Mt3dms) (sim : MFSimulation)
    (silent : bool) : M bool :=
  timeit "run_model"
    (let success := true in
     let o := RunOpts silent None None in
     if runModel cfg then
       let! '(success, buff) := run_solver (TModflow mf2k5) o (run_modflow fl mf2k5 o) in
       let! '(success, buff) := run_solver (TMt3dms mt3d) o (run_mt3dms fl mt3d o) in
       let! '(success, buff) := run_solver (TSimulation sim) o (run_simulation fl sim o) in
       do! when (negb success) (print (PyList (map PyStr buff))) in
       ret success
     else ret success).

(** ** [plot_results] *)

(** [gwt.output.concentration()]: the file named by the output control
    package of the model, inside the simulation workspace. *)
Definition concentration_file (sim_path : string) (gwt : MFModel) : result string :=
  match pkg_kwarg "ModflowGwtoc" "concentration_filerecord" (mdl_packages gwt) with
  | Some (PyStr f) => Ok (path_join sim_path [f])
  | _ => Raise (AttributeError "concentration")
  end.

Definition plot_results (mt3d : Mt3dms) (mf6 : MFSimulation) (idx : Z)
    (ax : option nat) : M unit :=
  if plotModel cfg then
    let mt3d_out_path := arg_str "model_ws" (mt_args mt3d) in
    let mf6_out_path := arg_str "sim_ws" (sim_args mf6) in
    (* Get the MT3DMS concentration output *)
    let fname_mt3d := path_join mt3d_out_path ["MT3D001.UCN"] in
    let! ucnobj_mt3d := open_file fname_mt3d in
    let conc_mt3d := ucn_alldata fl ucnobj_mt3d in
    (* Get the MF6 concentration output *)
    let! gwt := lift (py_index (sim_models mf6) 1) in
    let! fname_mf6 := lift (concentration_file mf6_out_path gwt) in
    let! ucnobj_mf6 := open_file fname_mf6 in
    let conc_mf6 := ucn_alldata fl ucnobj_mf6 in
    (* Create figure for scenario *)
    let fs := [("figure_type", PyStr "graph"); ("verbose", PyBool false)] in
    let sim_name := arg_str "sim_name" (sim_args mf6) in
    let! '(fig, ax) :=
      match ax with
      | None =>
          let! f := subplots fs [ ("nrows", PyInt 1); ("ncols", PyInt 1);
                                  ("figsize", figure_size); ("dpi", PyInt 300);
                                  ("tight_layout", PyBool true) ] in
          ret (Some f, f)
      | Some a => ret (None, a)
      end in
    let! y_mt3d := lift (profile conc_mt3d) in
    do! ax_call ax
          (AxPlot (linspace (float_of_Z 0) l (Z.to_nat ncol)) y_mt3d None
             [ ("color", PyStr "k"); ("label", PyStr "MT3DMS");
               ("linewidth", PyFloat 0.5) ]) in
    let! y_mf6 := lift (profile conc_mf6) in
    do! ax_call ax
          (AxPlot (linspace (float_of_Z 0) l (Z.to_nat ncol)) y_mf6 (Some "^")
             [ ("markeredgewidth", PyFloat 0.5); ("color", PyStr "blue");
               ("fillstyle", PyStr "none"); ("label", PyStr "MF6");
               ("markersize", PyInt 3) ]) in
    do! ax_call ax (AxSetYlim (PyInt 0) (PyFloat 1.2)) in
    do! ax_call ax (AxSetXlim (PyInt 0) (PyInt 1000)) in
    do! ax_call ax (AxSetXlabel "Distance, in m") in
    do! ax_call ax (AxSetYlabel "Concentration") in
    let title := "Concentration Profile at Time = 2,000 " +:+ format "{}" [time_units] in
    do! ax_call ax AxLegend in
    let! letter := lift (py_chr (64 + idx + 1)) in
    do! ax_call ax (AxHeading letter title) in
    (* save figure *)
    if plotSave cfg then
      let fpth := path_join ".." ["figures"; format "{}{}" [sim_name; figure_ext cfg]] in
      match fig with
      | Some f => savefig f fpth
      | None => raise (UnboundLocalError "fig")
      end
    else ret tt
  else ret tt.

(** ** [scenario]: build, write, run and plot one entry of [parameters] *)

Definition unpack3 {A B C} (v : option (A * B * C)) : M (A * B * C) :=
  match v with
  | Some t => ret t
  | None => raise (TypeError "cannot unpack non-iterable NoneType object")
  end.

Definition scenario (idx : Z) (silent : bool) : M unit :=
  let! '(key, parameter_dict) := lift (py_index parameters idx) in
  let! built :=
    lift (build_model key (dispersivity parameter_dict) (retardation parameter_dict)
            (decay parameter_dict) 0 false) in
  let! '(mf2k5, mt3d, sim) := unpack3 built in
  do! write_model mf2k5 mt3d sim silent in
  let! success := run_model mf2k5 mt3d sim silent in
  if success then plot_results mt3d sim idx None else ret tt.

(** ** The tests and the body of the script *)

Definition test_01 : M unit := scenario 0 false.
Definition test_02 : M unit := scenario 1 false.
Definition test_03 : M unit := scenario 2 false.
Definition test_04 : M unit := scenario 3 false.

(** [if __name__ == "__main__":] the four scenarios, one after the
    other. *)
Definition main : M unit :=
  (* Advection only *)
  do! scenario 0 true in
  (* Advection and dispersion *)
  do! scenario 1 true in
  (* Advection, dispersion, and retardation *)
  do! scenario 2 true in
  (* Advection, dispersion, retardation, and decay *)
  scenario 3 true.

End Scripts.

End P01.

(** * Problem 2: one-dimensional steady flow with nonlinear or
      nonequilibrium sorption ([ex-gwt-mt3dms-p02.py]) *)

Module P02.

(** ** Scenario parameters: every keyword is optional *)

Record params := Params {
  sorption : option string;
  Kf : option float;
  a : option float;
  Kl : option float;
  S : option float;
  beta : option float }.

Definition parameters : list (string * params) :=
  [ ("ex-gwt-mt3dms-p02a",
     Params (Some "freundlich") (Some 0.3%float) (Some 0.7%float) None None None);
    ("ex-gwt-mt3dms-p02b",
     Params (Some "langmuir") None None (Some 100.0%float) (Some 0.003%float) None);
    ("ex-gwt-mt3dms-p02c", Params None None None None None (Some 0.0%float));
    ("ex-gwt-mt3dms-p02d", Params None None None None None (Some 0.002%float));
    ("ex-gwt-mt3dms-p02e", Params None None None None None (Some 0.01%float));
    ("ex-gwt-mt3dms-p02f", Params None None None None None (Some 20.0%float)) ].

(** ** Module-level constants *)

Definition figure_size : pyval := PyTuple [PyInt 5; PyInt 3].
Definition example_name := "ex-gwt-mt3dms-p02".

Definition length_units := "cm".
Definition time_units := "seconds".

Definition nper : Z := 2.
Definition nlay : Z := 1.
Definition nrow : Z := 1.
Definition ncol : Z := 101.
Definition period1 : Z := 160.
Definition period2 : Z := 1340.
Definition delta_time : float := 1.0.
Definition delr : float := 0.16.
Definition delc : float := 0.16.
Definition top : float := 1.0.
Definition botm : Z := 0.
Definition velocity : float := 0.1.
Definition hydraulic_conductivity : float := 0.01.
Definition porosity : float := 0.37.
Definition bulk_density : float := 1.587.
Definition distribution_coefficient : float := 0.933.
Definition dispersivity : float := 1.0.
Definition source_concentration : float := 0.05.
Definition initial_concentration : float := 0.0.

Definition specific_discharge : float := velocity ⊗ porosity.
Definition inflow_rate : float :=
  specific_discharge ⊗ delc ⊗ (top ⊖ float_of_Z botm).
Definition system_length : float := float_of_Z ncol ⊗ delr.

Definition tdis_ds : pyval :=
  PyTuple
    [ PyTuple [PyInt period1; PyInt (py_int (float_of_Z period1 ⊘ delta_time)); PyFloat 1.0];
      PyTuple [PyInt period2; PyInt (py_int (float_of_Z period2 ⊘ delta_time)); PyFloat 1.0] ].

Definition cell (l r c : Z) : pyval := PyTuple [PyInt l; PyInt r; PyInt c].

Section Scripts.
Context (cfg : config) (fl : collab).

Definition ws : string := base_ws cfg.

(** ** [build_mf6gwf] *)

Definition build_mf6gwf (sim_folder : string) : M MFSimulation :=
  do! print (PyStr (format "Building mf6gwf model...{}" [sim_folder])) in
  let name := "flow" in
  let sim_ws := path_join ws [sim_folder; "mf6gwf"] in
  let htol := 1.0e-8%float in
  let wel_spd :=
    PyDict
      [ (PyInt 0, PyList [PyList [cell 0 0 0; PyFloat inflow_rate;
                                  PyFloat source_concentration]]);
        (PyInt 1, PyList [PyList [cell 0 0 0; PyFloat inflow_rate; PyFloat 0.0]]) ] in
  let head_filerecord := format "{}.hds" [name] in
  let budget_filerecord := format "{}.bud" [name] in
  ret (MkMFSimulation
    [ ("sim_name", PyStr name); ("sim_ws", PyStr sim_ws);
      ("exe_name", PyStr (mf6_exe cfg)) ]
    [ Package "ModflowTdis"
        [ ("nper", PyInt nper); ("perioddata", tdis_ds);
          ("time_units", PyStr time_units) ];
      Package "ModflowIms"
        [ ("print_option", PyStr "summary"); ("outer_dvclose", PyFloat htol);
          ("inner_dvclose", PyFloat htol) ] ]
    [ MkMFModel "ModflowGwf"
        [ ("modelname", PyStr name); ("save_flows", PyBool true) ]
        []
        [ Package "ModflowGwfdis"
            [ ("length_units", PyStr length_units);
              ("nlay", PyInt nlay); ("nrow", PyInt nrow); ("ncol", PyInt ncol);
              ("delr", PyFloat delr); ("delc", PyFloat delc);
              ("top", PyFloat top); ("botm", PyInt botm) ];
          Package "ModflowGwfnpf"
            [ ("save_specific_discharge", PyBool true);
              ("save_saturation", PyBool true); ("icelltype", PyInt 0);
              ("k", PyFloat hydraulic_conductivity) ];
          Package "ModflowGwfic" [ ("strt", PyFloat 1.0) ];
          Package "ModflowGwfchd"
            [ ("stress_period_data",
               PyList [PyList [cell 0 0 (ncol - 1); PyFloat 1.0]]) ];
          Package "ModflowGwfwel"
            [ ("stress_period_data", wel_spd); ("pname", PyStr "WEL-1");
              ("auxiliary", PyList [PyStr "CONCENTRATION"]) ];
          Package "ModflowGwfoc"
            [ ("head_filerecord", PyStr head_filerecord);
              ("budget_filerecord", PyStr budget_filerecord);
              ("saverecord",
               PyList [ PyTuple [PyStr "HEAD"; PyStr "ALL"];
                        PyTuple [PyStr "BUDGET"; PyStr "ALL"] ]) ] ] ]
    []).

(** ** [build_mf6gwt] *)

Definition build_mf6gwt (sim_folder : string) (sorption : option string)
    (Kf a Kl S beta : option float) : M MFSimulation :=
  do! print (PyStr (format "Building mf6gwt model...{}" [sim_folder])) in
  let name := "trans" in
  let sim_ws := path_join ws [sim_folder; "mf6gwt"] in
  let ctol := 1.0e-8%float in
  let distcoef : option float := None in
  let distcoef := match Kf with Some _ => Kf | None => distcoef end in
  let distcoef := match Kl with Some _ => Kl | None => distcoef end in
  let sp2 : option float := None in
  let sp2 := match a with Some _ => a | None => sp2 end in
  let sp2 := match S with Some _ => S | None => sp2 end in
  let ist :=
    match beta with
    | Some b =>
        if float_gt b (float_of_Z 0) then
          let thetaim := bulk_density in
          [ Package "ModflowGwtist"
              [ ("thetaim", PyFloat thetaim); ("zetaim", PyFloat b) ] ]
        else []
    | None => []
    end in
  let pd :=
    PyList [ PyTuple [PyStr "GWFHEAD"; PyStr (format "../mf6gwf/flow.hds" []); PyNone];
             PyTuple [PyStr "GWFBUDGET"; PyStr "../mf6gwf/flow.bud"; PyNone] ] in
  let sourcerecarray := PyList [PyList [PyStr "WEL-1"; PyStr "AUX"; PyStr "CONCENTRATION"]] in
  let obs_data :=
    PyDict [ (PyStr (format "{}.obs.csv" [name]),
              PyList [PyTuple [PyStr "X008"; PyStr "CONCENTRATION"; cell 0 0 50]]) ] in
  ret (MkMFSimulation
    [ ("sim_name", PyStr name); ("sim_ws", PyStr sim_ws);
      ("exe_name", PyStr (mf6_exe cfg)) ]
    [ Package "ModflowTdis"
        [ ("nper", PyInt nper); ("perioddata", tdis_ds);
          ("time_units", PyStr time_units) ];
      Package "ModflowIms"
        [ ("linear_acceleration", PyStr "bicgstab");
          ("print_option", PyStr "summary"); ("outer_dvclose", PyFloat ctol);
          ("inner_dvclose", PyFloat ctol) ] ]
    [ MkMFModel "ModflowGwt"
        [ ("modelname", PyStr name); ("save_flows", PyBool true) ]
        []
        ([ Package "ModflowGwtdis"
            [ ("length_units", PyStr length_units);
              ("nlay", PyInt nlay); ("nrow", PyInt nrow); ("ncol", PyInt ncol);
              ("delr", PyFloat delr); ("delc", PyFloat delc);
              ("top", PyFloat top); ("botm", PyInt botm) ];
          Package "ModflowGwtic" [ ("strt", PyFloat initial_concentration) ];
          Package "ModflowGwtmst"
            [ ("porosity", PyFloat porosity); ("bulk_density", PyFloat bulk_density);
              ("sorption", py_opt_str sorption);
              ("distcoef", py_opt_float distcoef); ("sp2", py_opt_float sp2) ];
          Package "ModflowGwtadv" [ ("scheme", PyStr "UPSTREAM") ];
          Package "ModflowGwtdsp"
            [ ("xt3d_off", PyBool true); ("alh", PyFloat dispersivity);
              ("ath1", PyFloat dispersivity) ] ]
         ++ ist
         ++ [ Package "ModflowGwtfmi" [ ("packagedata", pd) ];
              Package "ModflowGwtssm" [ ("sources", sourcerecarray) ];
              Package "ModflowUtlobs"
                [ ("digits", PyInt 10); ("print_input", PyBool true);
                  ("continuous", obs_data) ];
              Package "ModflowGwtoc"
                [ ("budget_filerecord", PyStr (format "{}.cbc" [name]));
                  ("concentration_filerecord", PyStr (format "{}.ucn" [name]));
                  ("saverecord",
                   PyList [ PyTuple [PyStr "CONCENTRATION"; PyStr "ALL"];
                            PyTuple [PyStr "BUDGET"; PyStr "LAST"] ]);
                  ("printrecord",
                   PyList [ PyTuple [PyStr "CONCENTRATION"; PyStr "LAST"];
                            PyTuple [PyStr "BUDGET"; PyStr "LAST"] ]) ] ]) ]
    []).

(** ** [build_mf2005] *)

Definition build_mf2005 (sim_folder : string) : M Modflow :=
  do! print (PyStr (format "Building mf2005 model...{}" [sim_folder])) in
  let name := "flow" in
  let sim_ws := path_join ws [sim_folder; "mf2005"] in
  let perlen := PyList [PyInt period1; PyInt period2] in
  let chdspd := PyList [PyList [PyInt 0; PyInt 0; PyInt (ncol - 1); PyFloat 1.0; PyFloat 1.0]] in
  let q := inflow_rate in
  let welspd := PyList [PyList [PyInt 0; PyInt 0; PyInt 0; PyFloat q]] in
  ret (MkModflow
    [ ("modelname", PyStr name); ("model_ws", PyStr sim_ws);
      ("exe_name", PyStr (mf2005_exe cfg)) ]
    [ Package "ModflowDis"
        [ ("nlay", PyInt nlay); ("nrow", PyInt nrow); ("ncol", PyInt ncol);
          ("delr", PyFloat delr); ("delc", PyFloat delc);
          ("top", PyFloat top); ("botm", PyInt botm);
          ("nper", PyInt nper); ("perlen", perlen) ];
      Package "ModflowBas" [];
      Package "ModflowLpf" [ ("hk", PyFloat hydraulic_conductivity) ];
      Package "ModflowPcg" [];
      Package "ModflowLmt" [];
      Package "ModflowChd" [ ("stress_period_data", chdspd) ];
      Package "ModflowWel" [ ("stress_period_data", welspd) ] ]).

(** ** [build_mt3dms]

    [isothm], [sp1] and [sp2] are assigned by three independent [if]s, in
    the order [beta], [Kf], [Kl]; when none fires the names are unbound
    at the call of [Mt3dRct]. *)

Definition select_isotherm (Kf a Kl S beta : option float)
  : option (Z * float * option float) :=
  let sel : option (Z * float * option float) := None in
  let sel := match beta with
             | Some b => Some (4, distribution_coefficient, Some b)
             | None => sel
             end in
  let sel := match Kf with
             | Some kf => Some (2, kf, a)
             | None => sel
             end in
  let sel := match Kl with
             | Some kl => Some (3, kl, S)
             | None => sel
             end in
  sel.

Definition build_mt3dms (sim_folder : string) (modflowmodel : Modflow)
    (sorption : option string) (Kf a Kl S beta : option float) : M Mt3dms :=
  do! print (PyStr (format "Building mt3dms model...{}" [sim_folder])) in
  let name := "trans" in
  let sim_ws := path_join ws [sim_folder; "mt3d"] in
  let dt0 := delta_time in
  let! '(isothm, sp1, sp2) :=
    match select_isotherm Kf a Kl S beta with
    | Some sel => ret sel
    | None => raise (UnboundLocalError "isothm")
    end in
  let ssmspd :=
    PyDict
      [ (PyInt 0, PyList [PyList [PyInt 0; PyInt 0; PyInt 0;
                                  PyFloat source_concentration; PyInt 2]]);
        (PyInt 1, PyList [PyList [PyInt 0; PyInt 0; PyInt 0; PyFloat 0.0; PyInt 2]]) ] in
  ret (MkMt3dms
    [ ("modelname", PyStr name); ("model_ws", PyStr sim_ws);
      ("exe_name", PyStr (mt3dms_exe cfg));
      ("ftlfilename", PyStr "../mf2005/mt3d_link.ftl") ]
    modflowmodel
    [ Package "Mt3dBtn"
        [ ("laycon", PyInt 0); ("prsity", PyFloat porosity); ("dt0", PyFloat dt0);
          ("ifmtcn", PyInt 1); ("obs", PyList [cell 0 0 50]) ];
      Package "Mt3dAdv" [ ("mixelm", PyInt 0) ];
      Package "Mt3dDsp" [ ("al", PyFloat dispersivity) ];
      Package "Mt3dRct"
        [ ("isothm", PyInt isothm); ("igetsc", PyInt 0);
          ("rhob", PyFloat bulk_density); ("sp1", PyFloat sp1);
          ("sp2", py_opt_float sp2) ];
      Package "Mt3dSsm" [ ("mxss", PyInt 2); ("stress_period_data", ssmspd) ];
      Package "Mt3dGcg" [ ("cclose", PyFloat 1.0e-8) ] ]).

(** ** [build_model] *)

Definition sims_t : Type := MFSimulation * MFSimulation * Modflow * Mt3dms.

Definition build_model (sim_name : string) (kw : params) : M (option sims_t) :=
  let sims : option sims_t := None in
  if buildModel cfg then
    let! sim_mf6gwf := build_mf6gwf sim_name in
    let! sim_mf6gwt :=
      build_mf6gwt sim_name (sorption kw) (Kf kw) (a kw) (Kl kw) (S kw) (beta kw) in
    let! sim_mf2005 := build_mf2005 sim_name in
    let! sim_mt3dms :=
      build_mt3dms sim_name sim_mf2005
        (sorption kw) (Kf kw) (a kw) (Kl kw) (S kw) (beta kw) in
    ret (Some (sim_mf6gwf, sim_mf6gwt, sim_mf2005, sim_mt3dms))
  else ret sims.

(** [a, b, c, d = sims] *)
Definition unpack4 (sims : option sims_t) : M sims_t :=
  match sims with
  | Some t => ret t
  | None => raise (TypeError "cannot unpack non-iterable NoneType object")
  end.

(** ** [write_model] *)

Definition write_model (sims : option sims_t) (silent : bool) : M unit :=
  if writeModel cfg then
    let! '(sim_mf6gwf, sim_mf6gwt, sim_mf2005, sim_mt3dms) := unpack4 sims in
    do! write_files (TSimulation sim_mf6gwf) (write_simulation fl sim_mf6gwf silent) in
    do! write_files (TSimulation sim_mf6gwt) (write_simulation fl sim_mf6gwt silent) in
    do! write_files (TModflow sim_mf2005) (write_input_modflow fl sim_mf2005) in
    write_files (TMt3dms sim_mt3dms) (write_input_mt3dms fl sim_mt3dms)
  else ret tt.

(** ** [run_model]: [True] is returned if the model runs successfully *)

Definition run_model (sims : option sims_t) (silent : bool) : M bool :=
  timeit "run_model"
    (let success := true in
     let report := true in
     if runModel cfg then
       let success := false in
       let! '(sim_mf6gwf, sim_mf6gwt, sim_mf2005, sim_mt3dms) := unpack4 sims in
       let o := RunOpts silent (Some report) None in
       do! print (PyStr "Running mf6gwf...") in
       let! '(success, buff) :=
         run_solver (TSimulation sim_mf6gwf) o (run_simulation fl sim_mf6gwf o) in
       do! when (negb success) (print (PyList (map PyStr buff))) in
       do! print (PyStr "Running mf6gwt...") in
       let! '(success, buff) :=
         run_solver (TSimulation sim_mf6gwt) o (run_simulation fl sim_mf6gwt o) in
       do! when (negb success) (print (PyList (map PyStr buff))) in
       do! print (PyStr "Running mf2005...") in
       let! '(success, buff) :=
         run_solver (TModflow sim_mf2005) o (run_modflow fl sim_mf2005 o) in
       do! when (negb success) (print (PyList (map PyStr buff))) in
       do! print (PyStr "Running mt3dms...") in
       let o' := RunOpts silent (Some report) (Some "Program completed") in
       let! '(success, buff) :=
         run_solver (TMt3dms sim_mt3dms) o' (run_mt3dms fl sim_mt3dms o') in
       do! when (negb success) (print (PyList (map PyStr buff))) in
       ret success
     else ret success).

(** ** [plot_results_ct] *)

Fixpoint find_model (name : string) (ms : list MFModel) : option MFModel :=
  match ms with
  | [] => None
  | m :: rest =>
      if String.eqb name (arg_str "modelname" (mdl_args m)) then Some m
      else find_model name rest
  end.

(** [sim.get_model(name).obs.output.obs()]: the csv file named by the
    observation package of the model, inside the simulation workspace. *)
Definition obs_file (sim : MFSimulation) (name : string) : result string :=
  match find_model name (sim_models sim) with
  | Some m =>
      match pkg_kwarg "ModflowUtlobs" "continuous" (mdl_packages m) with
      | Some (PyDict ((PyStr f, _) :: _)) =>
          Ok (path_join (arg_str "sim_ws" (sim_args sim)) [f])
      | _ => Raise (AttributeError "obs")
      end
  | None => Raise (AttributeError "obs")
  end.

Definition usgs_graph : kwargs :=
  [("figure_type", PyStr "graph"); ("verbose", PyBool false)].

Definition subplots_kw : kwargs :=
  [ ("nrows", PyInt 1); ("ncols", PyInt 1); ("figsize", figure_size);
    ("dpi", PyInt 300); ("tight_layout", PyBool true) ].

Definition plot_results_ct (sims : option sims_t) (idx : Z) (kw : params) : M unit :=
  if plotModel cfg then
    do! print (PyStr "Plotting C versus t model results...") in
    let! '(sim_mf6gwf, sim_mf6gwt, sim_mf2005, sim_mt3dms) := unpack4 sims in
    let fs := usgs_graph in
    let sim_ws := arg_str "sim_ws" (sim_args sim_mf6gwt) in
    let! obs_path := lift (obs_file sim_mf6gwt "trans") in
    let! obs_csv := open_file obs_path in
    let mf6gwt_ra := mf6obs_data fl obs_csv in
    let! axs := subplots fs subplots_kw in
    let fig := axs in
    let sim_ws := arg_str "model_ws" (mt_args sim_mt3dms) in
    let fname := path_join sim_ws ["MT3D001.OBS"] in
    let! obs_mt := open_file fname in
    let mt_ra := load_obs fl obs_mt in
    let! mt_time := lift (column mt_ra "time") in
    let! mt_conc := lift (column mt_ra "(1, 1, 51)") in
    do! ax_call axs
          (AxPlot mt_time (array_div mt_conc source_concentration) None
             [ ("color", PyStr "k"); ("label", PyStr "MT3DMS") ]) in
    let! mf6_time := lift (column mf6gwt_ra "totim") in
    let! mf6_conc := lift (column mf6gwt_ra "X008") in
    do! ax_call axs
          (AxPlot mf6_time (array_div mf6_conc source_concentration) None
             [ ("ls", PyStr "--"); ("color", PyStr "blue");
               ("label", PyStr "MODFLOW 6") ]) in
    do! ax_call axs (AxSetYlim (PyFloat 0.0) (PyFloat 1.0)) in
    do! when (idx =? 0) (ax_call axs (AxSetYlim (PyInt 0) (PyFloat 0.5))) in
    do! when (idx =? 1) (ax_call axs (AxSetXlim (PyInt 0) (PyInt 500))) in
    do! ax_call axs (AxSetXlabel "Time (seconds)") in
    do! ax_call axs (AxSetYlabel "Normalized Concentration (unitless)") in
    do! ax_call axs AxLegend in
    (* save figure *)
    if plotSave cfg then
      let sim_folder := fst (path_split sim_ws) in
      let sim_folder := path_basename sim_folder in
      let fname := format "{}-ct{}" [sim_folder; figure_ext cfg] in
      let fpth := path_join ws [".."; "figures"; fname] in
      savefig fig fpth
    else ret tt
  else ret tt.

(** ** [plot_results]: all immobile-domain cases in one figure *)

Definition case_colors : list string := ["blue"; "green"; "red"; "yellow"].

(** The body of the loop over [enumerate(pkeys[2:])]. *)
Definition plot_case (axs : nat) (icase : nat) (sim_name : string) : M unit :=
  let sim_ws := path_join ws [sim_name] in
  let! kw :=
    match dict_get sim_name parameters with
    | Some e => ret e
    | None => raise (KeyError sim_name)
    end in
  let! beta :=
    match beta kw with
    | Some b => ret b
    | None => raise (KeyError "beta")
    end in
  let fname := path_join sim_ws ["mf6gwt"; "trans.obs.csv"] in
  let! obs_csv := open_file fname in
  let mf6gwt_ra := mf6obs_data fl obs_csv in
  let! x008 := lift (column mf6gwt_ra "X008") in
  let mf6conc := array_div x008 source_concentration in
  let iskip := 20%nat in
  let! totim := lift (column mf6gwt_ra "totim") in
  do! ax_call axs
        (AxPlot (slice_step iskip totim) (slice_step iskip mf6conc) None
           [ ("markerfacecolor", PyStr "None"); ("markeredgecolor", PyStr "k");
             ("marker", PyStr "o"); ("markersize", PyStr "3");
             ("linestyle", PyStr "None") ]) in
  let fname := path_join sim_ws ["mt3d"; "MT3D001.OBS"] in
  let! obs_mt := open_file fname in
  let mt3dms_ra := load_obs fl obs_mt in
  let! mt_time := lift (column mt3dms_ra "time") in
  let! mt_conc := lift (column mt3dms_ra "(1, 1, 51)") in
  let! color := lift (py_index case_colors (Z.of_nat icase)) in
  ax_call axs
    (AxPlot mt_time (array_div mt_conc source_concentration) None
       [ ("color", PyStr color);
         ("label", PyStr (format "beta {}" [str_float fl beta])) ]).

Fixpoint for_each (body : nat -> string -> M unit) (icase : nat)
    (names : list string) : M unit :=
  match names with
  | [] => ret tt
  | n :: rest => do! body icase n in for_each body (Datatypes.S icase) rest
  end.

Definition plot_results : M unit :=
  if plotModel cfg then
    do! print (PyStr "Plotting model results...") in
    let fs := usgs_graph in
    let! axs := subplots fs subplots_kw in
    let fig := axs in
    let pkeys := map fst parameters in
    do! for_each (plot_case axs) 0 (drop 2 pkeys) in
    do! ax_call axs (AxSetYlim (PyInt 0) (PyInt 1)) in
    do! ax_call axs (AxSetXlabel "Time (days)") in
    do! ax_call axs (AxSetYlabel "Normalized Concentration (unitless)") in
    do! ax_call axs AxLegend in
    (* save figure *)
    if plotSave cfg then
      let fname := format "{}{}" [example_name; figure_ext cfg] in
      let fpth := path_join ".." ["figures"; fname] in
      savefig fig fpth
    else ret tt
  else ret tt.

(** ** [scenario] *)

Definition scenario (idx : Z) (silent : bool) : M unit :=
  let! '(key, parameter_dict) := lift (py_index parameters idx) in
  let! sims := build_model key parameter_dict in
  do! write_model sims silent in
  let! success := run_model sims silent in
  if success then plot_results_ct sims idx parameter_dict else ret tt.

(** ** The tests and the body of the script *)

Definition test_01 : M unit := scenario 0 false.
Definition test_02 : M unit := scenario 1 false.
Definition test_03 : M unit := scenario 2 false.
Definition test_04 : M unit := scenario 3 false.
Definition test_05 : M unit := scenario 4 false.
Definition test_06 : M unit := scenario 5 false.
Definition test_plot_results : M unit := plot_results.

(** [if __name__ == "__main__":] the six scenarios, one after the other,
    then the plot of all results. *)
Definition main : M unit :=
  do! scenario 0 true in
  do! scenario 1 true in
  do! scenario 2 true in
  do! scenario 3 true in
  do! scenario 4 true in
  do! scenario 5 true in
  (* Plot All Results *)
  plot_results.

End Scripts.

End P02.

(** * Observations on descriptions and worlds *)

(** ** Reading a built description *)

(** An argument of the MT3DMS reaction package. *)
Definition rct_arg (k : string) (mt : Mt3dms) : option pyval :=
  pkg_kwarg "Mt3dRct" k (mt_packages mt).

(** An argument of a package of the [i]-th model of a simulation. *)
Definition model_arg (i : nat) (ctor k : string) (sim : MFSimulation) : option pyval :=
  match sim_models sim !! i with
  | Some m => pkg_kwarg ctor k (mdl_packages m)
  | None => None
  end.

(** An argument of the mass storage and transfer package of the
    transport model (the second model of the problem 1 simulation). *)
Definition mst_arg (k : string) (sim : MFSimulation) : option pyval :=
  model_arg 1 "ModflowGwtmst" k sim.

(** The three numbers of a structured grid, read from a discretization
    package. *)
Definition grid (get : string -> option pyval)
  : option pyval * option pyval * option pyval :=
  (get "nlay", get "nrow", get "ncol").

(** The distribution coefficient as the spec derives it. *)
Definition kd_formula (retardation porosity bulk_density : float) : float :=
  (retardation ⊖ 1.0) ⊗ porosity ⊘ bulk_density.

(** ** Erasing keyword arguments: the frame of a change *)

(** The flags and coefficients that depend on [decay], by package. *)
Definition decay_dependent : list (string * string) :=
  [ ("Mt3dRct", "ireact"); ("Mt3dRct", "rc1"); ("Mt3dRct", "rc2");
    ("ModflowGwtmst", "first_order_decay"); ("ModflowGwtmst", "decay");
    ("ModflowGwtmst", "decay_sorbed") ].

Definition listed (keys : list (string * string)) (ctor k : string) : bool :=
  existsb (fun ck => String.eqb ctor ck.1 && String.eqb k ck.2) keys.

Definition erase_package (keys : list (string * string)) (p : package) : package :=
  Package (pkg_ctor p)
          (filter (fun kv => listed keys (pkg_ctor p) kv.1 = false) (pkg_args p)).

Definition erase_model (keys : list (string * string)) (m : MFModel) : MFModel :=
  MkMFModel (mdl_ctor m) (mdl_args m) (mdl_name_file m)
            (map (erase_package keys) (mdl_packages m)).

Definition erase_mf (keys : list (string * string)) (m : Modflow) : Modflow :=
  MkModflow (mf_args m) (map (erase_package keys) (mf_packages m)).

Definition erase_mt (keys : list (string * string)) (m : Mt3dms) : Mt3dms :=
  MkMt3dms (mt_args m) (erase_mf keys (mt_modflowmodel m))
           (map (erase_package keys) (mt_packages m)).

Definition erase_sim (keys : list (string * string)) (s : MFSimulation) : MFSimulation :=
  MkMFSimulation (sim_args s) (map (erase_package keys) (sim_packages s))
                 (map (erase_model keys) (sim_models s))
                 (map (fun r => (erase_package keys r.1, r.2)) (sim_ims s)).

(** What is left of the outcome of [P01.build_model] once the listed
    arguments are erased. *)
Definition erase_built (keys : list (string * string))
    (r : result (option (Modflow * Mt3dms * MFSimulation)))
  : result (option (Modflow * Mt3dms * MFSimulation)) :=
  match r with
  | Ok (Some (mf, mt, sim)) =>
      Ok (Some (erase_mf keys mf, erase_mt keys mt, erase_sim keys sim))
  | other => other
  end.

(** ** Reading a trace *)

Definition is_write (e : event) : bool :=
  match e with EWrite _ => true | _ => false end.
Definition is_run (e : event) : bool :=
  match e with ERun _ _ _ => true | _ => false end.
Definition is_failed_run (e : event) : bool :=
  match e with ERun _ _ false => true | _ => false end.
Definition is_read (e : event) : bool :=
  match e with ERead _ => true | _ => false end.
Definition is_save (e : event) : bool :=
  match e with ESaveFig _ _ => true | _ => false end.
Definition is_print (e : event) : bool :=
  match e with EPrint _ => true | _ => false end.

(** The events only the plotting functions produce: an output file is
    opened, a figure is saved. *)
Definition is_plot (e : event) : bool := is_read e || is_save e.

Definition not_plot (e : event) : Prop := is_plot e = false.
Definition plot_only (e : event) : Prop := is_plot e = true.

(** The solvers run, the output files opened and the figures saved, in
    the order of the trace. *)
Definition runs_of (t : list event) : list target :=
  omap (fun e => match e with ERun tg _ _ => Some tg | _ => None end) t.

Definition reads_of (t : list event) : list string :=
  omap (fun e => match e with ERead path => Some path | _ => None end) t.

Definition saves_of (t : list event) : list string :=
  omap (fun e => match e with ESaveFig path _ => Some path | _ => None end) t.

(** The keyword arguments of the curves drawn on a figure, in the
    order drawn. *)
Definition plot_kwargs (f : figure) : list kwargs :=
  omap (fun c => match c with AxPlot _ _ _ kw => Some kw | _ => None end)
       (fig_axes f).

(** ** Effects of a computation

    [traces P m]: whatever the world, [m] only appends events that
    satisfy [P] to the trace.  [keeps_figures m] and [keeps_files m]: [m]
    leaves pyplot's figures, respectively the file system, as they were. *)

Definition traces {A} (P : event -> Prop) (m : M A) : Prop :=
  forall w, exists t, trace (snd (m w)) = trace w ++ t /\ Forall P t.

Definition keeps_figures {A} (m : M A) : Prop :=
  forall w, figures (snd (m w)) = figures w.

Definition keeps_files {A} (m : M A) : Prop :=
  forall w, files (snd (m w)) = files w.

(** [appends Q m]: whatever the world, the events [m] appends to the
    trace satisfy [Q]. *)
Definition appends {A} (Q : list event -> Prop) (m : M A) : Prop :=
  forall w, exists t, trace (snd (m w)) = trace w ++ t /\ Q t.

(** ** Exceptions of a computation

    [never_returns m]: whatever the world, [m] ends with an exception. *)

Definition never_returns {A} (m : M A) : Prop :=
  forall w, exists e, fst (m w) = Raise e.

(** The [TypeError] that unpacking [None] raises. *)
Definition unpack_none : exn :=
  TypeError "cannot unpack non-iterable NoneType object".

(** ** Normalized series *)






(** The exponent a binary64 number is stored with when its value lies
    below [2^e]: 53 bits of mantissa, and never below the exponent of the
    subnormal numbers. *)
Definition fexp64 (e : Z) : Z := Z.max (e - 53) (-1074).

(** ** Paths and written files *)

(** A path component: a string without separator. *)
Fixpoint no_sep (s : string) : bool :=
  match s with
  | EmptyString => true
  | String c rest => negb (Ascii.eqb c "/"%char) && no_sep rest
  end.

(** The contents the last writer leaves at [path], if any of the files
    written, in order, is [path]. *)
Definition last_written (path : string) (fs : list (string * string))
  : option string :=
  dict_get path (reverse fs).

(** ** Sample configurations, collaborators and worlds *)

Definition cfg_sample (build write run plot : bool) : config :=
  Config build write run plot true "../examples" "mf6" "mf2005" "mt3dms" ".png".

(** Every phase enabled; building disabled; plotting disabled. *)
Definition cfg_all : config := cfg_sample true true true true.
Definition cfg_no_build : config := cfg_sample false true true true.

(** A solver run that changes no file. *)
Definition outcome (r : bool * list string)
  : gmap string string -> bool * list string * gmap string string :=
  fun fs => (r.1, r.2, fs).

(** Collaborators that write nothing, whose three solvers end as given
    and whose concentration reader returns [conc] for every file. *)
Definition fl_sample (mf2005 mt3dms mf6 : bool * list string) (conc : array4)
  : collab :=
  Collab (fun p => p)
         (fun _ => []) (fun _ => []) (fun _ _ => [])
         (fun _ _ => outcome mf2005) (fun _ _ => outcome mt3dms)
         (fun _ _ => outcome mf6)
         (fun _ => conc) (fun _ => ∅) (fun _ => ∅) (fun _ => "").

(** Every solver succeeds. *)
Definition fl_quiet : collab := fl_sample (true, []) (true, []) (true, []) [].

(** The MODFLOW 6 runs fail, respectively the MODFLOW-2005 runs fail,
    with a diagnostic text; the other solvers succeed. *)
Definition fl_mf6_fails : collab :=
  fl_sample (true, []) (true, []) (false, ["mf6 failed"]) [].
Definition fl_mf2005_fails : collab :=
  fl_sample (false, ["mf2005 failed"]) (true, []) (true, []) [].

(** Every solver succeeds and every concentration file holds one record
    with a two-cell profile. *)
Definition fl_profiles : collab :=
  fl_sample (true, []) (true, []) (true, []) [[[[1.0; 0.5]]]]%float.

(** The MT3DMS runs fail with a diagnostic text; the other solvers
    succeed. *)
Definition fl_mt3dms_fails : collab :=
  fl_sample (true, []) (false, ["mt3dms failed"]) (true, []) [].

(** Collaborators whose MODFLOW-2005 and MT3DMS writers both write a
    file [model.nam] and whose MODFLOW 6 writer writes [mfsim.nam]. *)
Definition fl_name_files : collab :=
  Collab (fun p => p)
         (fun _ => [("model.nam", "mf2005")]) (fun _ => [("model.nam", "mt3dms")])
         (fun _ _ => [("mfsim.nam", "mf6")])
         (fun _ _ => outcome (true, [])) (fun _ _ => outcome (true, []))
         (fun _ _ => outcome (true, []))
         (fun _ => []) (fun _ => ∅) (fun _ => ∅) (fun _ => "").

(** Every solver succeeds; every MODFLOW 6 observation file holds the
    columns [totim] and [X008], every MT3DMS observation file the
    columns [time] and [(1, 1, 51)]. *)
Definition fl_observations : collab :=
  Collab (fun p => p)
         (fun _ => []) (fun _ => []) (fun _ _ => [])
         (fun _ _ => outcome (true, [])) (fun _ _ => outcome (true, []))
         (fun _ _ => outcome (true, []))
         (fun _ => [])
         (fun _ => <["time" := [1.0; 2.0]%float]>
                     (<["(1, 1, 51)" := [0.05; 0.025]%float]> ∅))
         (fun _ => <["totim" := [1.0; 2.0]%float]>
                     (<["X008" := [0.05; 0.025]%float]> ∅))
         (fun _ => "").

(** The empty world, and a world in which the two solvers of scenario
    p01a have left their concentration files. *)
Definition world0 : world := World ∅ [] [].
Definition world_p01a : world :=
  World (<["../examples/ex-gwt-mt3dms-p01a/mt3d/MT3D001.UCN" := "mt3dms"]>
           (<["../examples/ex-gwt-mt3dms-p01a/gwt-p01-mf6.ucn" := "mf6"]> ∅))
        [] [].

(** A world in which the runs of the four scenarios with an immobile
    domain have left their observation files. *)
Definition world_p02_outputs : world :=
  World (list_to_map
           [ ("../examples/ex-gwt-mt3dms-p02c/mf6gwt/trans.obs.csv", "mf6");
             ("../examples/ex-gwt-mt3dms-p02c/mt3d/MT3D001.OBS", "mt3dms");
             ("../examples/ex-gwt-mt3dms-p02d/mf6gwt/trans.obs.csv", "mf6");
             ("../examples/ex-gwt-mt3dms-p02d/mt3d/MT3D001.OBS", "mt3dms");
             ("../examples/ex-gwt-mt3dms-p02e/mf6gwt/trans.obs.csv", "mf6");
             ("../examples/ex-gwt-mt3dms-p02e/mt3d/MT3D001.OBS", "mt3dms");
             ("../examples/ex-gwt-mt3dms-p02f/mf6gwt/trans.obs.csv", "mf6");
             ("../examples/ex-gwt-mt3dms-p02f/mt3d/MT3D001.OBS", "mt3dms") ])
        [] [].

(** * Theorems *)

(** ** The builder of problem 1 *)

Lemma build_model_cases cfg fl sim_name disp ret dec mixelm silent :
  P01.build_model cfg fl sim_name disp ret dec mixelm silent =
  if buildModel cfg then
    match P01.select_scheme mixelm with
    | Ok scheme =>
        Ok (Some (P01.build_mf cfg sim_name,
                  P01.build_mt cfg sim_name (P01.build_mf cfg sim_name) disp ret dec mixelm,
                  P01.build_sim cfg fl sim_name (P01.build_gwt disp ret dec scheme)))
    | Raise e => Raise e
    end
  else Ok None.
Proof. reflexivity. Qed.

(** C6.  Two calls of [build_model] that differ only in [decay] agree on
    everything but the arguments [ireact], [rc1], [rc2] of the reaction
    package and [first_order_decay], [decay], [decay_sorbed] of the mass
    storage package: whether a description is built or an exception
    raised, every package and every other argument are the same, and so
    is the distribution coefficient handed to either solver. *)
Theorem decay_changes_only_decay_arguments
    cfg fl sim_name disp ret mixelm silent (decay1 decay2 : float) :
  erase_built decay_dependent
    (P01.build_model cfg fl sim_name disp ret decay1 mixelm silent) =
  erase_built decay_dependent
    (P01.build_model cfg fl sim_name disp ret decay2 mixelm silent)
  /\ (forall mf1 mt1 sim1 mf2 mt2 sim2,
        P01.build_model cfg fl sim_name disp ret decay1 mixelm silent
          = Ok (Some (mf1, mt1, sim1)) ->
        P01.build_model cfg fl sim_name disp ret decay2 mixelm silent
          = Ok (Some (mf2, mt2, sim2)) ->
        rct_arg "sp1" mt1 = rct_arg "sp1" mt2
        /\ rct_arg "isothm" mt1 = rct_arg "isothm" mt2
        /\ mst_arg "distcoef" sim1 = mst_arg "distcoef" sim2
        /\ mst_arg "sorption" sim1 = mst_arg "sorption" sim2).
Proof.
  rewrite !build_model_cases.
  destruct (buildModel cfg); [ | split; [reflexivity | discriminate ] ].
  destruct (P01.select_scheme mixelm) as [scheme|e];
    [ | split; [reflexivity | discriminate ] ].
  split.
  - unfold erase_built, erase_sim, erase_mt, erase_mf, P01.build_sim,
      P01.build_gwt, P01.build_mt, P01.build_mf, float_ne, float_eq.
    change (float_of_Z 0) with 0%float.
    destruct (PrimFloat.eqb ret 1), (PrimFloat.eqb disp 0),
      (PrimFloat.eqb decay1 0), (PrimFloat.eqb decay2 0);
      vm_compute; reflexivity.
  - intros mf1 mt1 sim1 mf2 mt2 sim2 H1 H2.
    injection H1 as <- <- <-. injection H2 as <- <- <-.
    unfold rct_arg, mst_arg, model_arg, P01.build_sim, P01.build_gwt,
      P01.build_mt, float_ne, float_eq.
    change (float_of_Z 0) with 0%float.
    destruct (PrimFloat.eqb ret 1), (PrimFloat.eqb disp 0),
      (PrimFloat.eqb decay1 0), (PrimFloat.eqb decay2 0);
      vm_compute; repeat split; reflexivity.
Qed.

(** C1, as stated, fails at the first scenario of the table
    (retardation 1, which is at least 1): the MODFLOW 6 description
    carries the distribution coefficient 1.0, whereas
    [(retardation - 1) * porosity / bulk_density] is 0; and the MT3DMS
    description does carry a computed coefficient, namely that 0. *)
Lemma kd_formula_fails_at_retardation_one :
  exists mf mt sim,
    P01.build_model cfg_all fl_quiet "ex-gwt-mt3dms-p01a" 0.0 1.0 0.0 0 false
      = Ok (Some (mf, mt, sim))
    /\ PrimFloat.leb 1.0 1.0 = true
    /\ mst_arg "distcoef" sim = Some (PyFloat 1.0)
    /\ mst_arg "distcoef" sim
       <> Some (PyFloat (kd_formula 1.0 P01.prsity P01.rhob))
    /\ rct_arg "sp1" mt = Some (PyFloat (kd_formula 1.0 P01.prsity P01.rhob)).
Proof.
  eexists _, _, _. split; [reflexivity | ].
  split; [reflexivity | ]. split; [reflexivity | ].
  split; [ | reflexivity ].
  intros H.
  apply (f_equal (fun v => match v with
                           | Some (PyFloat f) => PrimFloat.eqb f 1.0
                           | _ => false
                           end)) in H.
  vm_compute in H. discriminate H.
Qed.

(** C1, amended.  Whenever [build_model] builds its descriptions, the
    MT3DMS reaction package receives
    [sp1 = (retardation - 1) * porosity / bulk_density] for every
    retardation.  If retardation differs from 1, sorption is enabled in
    both descriptions ([isothm = 1], [sorption = "linear"]) and the
    MODFLOW 6 mass storage package receives the same coefficient.  If
    retardation equals 1, sorption is disabled in both ([isothm = 0.0],
    [sorption = None]) and the MODFLOW 6 package receives the
    placeholder coefficient 1.0. *)
Theorem kd_by_retardation cfg fl sim_name disp ret dec mixelm silent mf mt sim :
  P01.build_model cfg fl sim_name disp ret dec mixelm silent = Ok (Some (mf, mt, sim)) ->
  rct_arg "sp1" mt = Some (PyFloat (kd_formula ret P01.prsity P01.rhob))
  /\ rct_arg "rhob" mt = Some (PyFloat P01.rhob)
  /\ mst_arg "porosity" sim = Some (PyFloat P01.prsity)
  /\ mst_arg "bulk_density" sim = Some (PyFloat P01.rhob)
  /\ (float_eq ret 1.0 = false ->
        rct_arg "isothm" mt = Some (PyInt 1)
        /\ mst_arg "sorption" sim = Some (PyStr "linear")
        /\ mst_arg "distcoef" sim = Some (PyFloat (kd_formula ret P01.prsity P01.rhob)))
  /\ (float_eq ret 1.0 = true ->
        rct_arg "isothm" mt = Some (PyFloat 0.0)
        /\ mst_arg "sorption" sim = Some PyNone
        /\ mst_arg "distcoef" sim = Some (PyFloat 1.0)).
Proof.
  rewrite build_model_cases.
  destruct (buildModel cfg); [ | discriminate ].
  destruct (P01.select_scheme mixelm) as [scheme|e]; [ | discriminate ].
  intros H. injection H as <- <- <-.
  unfold rct_arg, mst_arg, model_arg, kd_formula, P01.build_sim, P01.build_gwt,
    P01.build_mt, float_ne, float_eq.
  change (float_of_Z 0) with 0%float.
  destruct (PrimFloat.eqb ret 1), (PrimFloat.eqb disp 0), (PrimFloat.eqb dec 0);
    cbn; repeat split; intros; first [ reflexivity | discriminate ].
Qed.

Lemma kd_by_retardation_witness :
  let built := (P01.build_mf cfg_all "ex-gwt-mt3dms-p01c",
                P01.build_mt cfg_all "ex-gwt-mt3dms-p01c"
                  (P01.build_mf cfg_all "ex-gwt-mt3dms-p01c") 10.0 5.0 0.0 0,
                P01.build_sim cfg_all fl_quiet "ex-gwt-mt3dms-p01c"
                  (P01.build_gwt 10.0 5.0 0.0 "UPSTREAM")) in
  P01.build_model cfg_all fl_quiet "ex-gwt-mt3dms-p01c" 10.0 5.0 0.0 0 false
    = Ok (Some built)
  /\ rct_arg "sp1" built.1.2 = Some (PyFloat 4.0)
  /\ mst_arg "distcoef" built.2 = Some (PyFloat 4.0).
Proof.
  pose proof (kd_by_retardation cfg_all fl_quiet "ex-gwt-mt3dms-p01c"
                10.0 5.0 0.0 0 false _ _ _ eq_refl) as (H1 & _ & _ & _ & H2 & _).
  split; [reflexivity | ].
  split; [exact H1 | ].
  exact (proj2 (proj2 (H2 eq_refl))).
Defined.

(** C10.  With building enabled, [build_model] raises exactly when
    [mixelm] is neither 0 nor -1 (and then it raises the bare
    [Exception]); [mixelm = 0] gives the transport model the advection
    scheme "UPSTREAM" and [mixelm = -1] gives it "TVD"; every scenario of
    the parameter table, built with the default [mixelm = 0] as
    [scenario] does, yields its three descriptions. *)
Theorem advection_scheme_by_mixelm cfg fl sim_name disp ret dec mixelm silent :
  buildModel cfg = true ->
  ((exists e, P01.build_model cfg fl sim_name disp ret dec mixelm silent = Raise e)
     <-> (mixelm <> 0 /\ mixelm <> -1))
  /\ (mixelm <> 0 -> mixelm <> -1 ->
        P01.build_model cfg fl sim_name disp ret dec mixelm silent = Raise PlainException)
  /\ (mixelm = 0 ->
        exists mf mt sim,
          P01.build_model cfg fl sim_name disp ret dec mixelm silent = Ok (Some (mf, mt, sim))
          /\ model_arg 1 "ModflowGwtadv" "scheme" sim = Some (PyStr "UPSTREAM"))
  /\ (mixelm = -1 ->
        exists mf mt sim,
          P01.build_model cfg fl sim_name disp ret dec mixelm silent = Ok (Some (mf, mt, sim))
          /\ model_arg 1 "ModflowGwtadv" "scheme" sim = Some (PyStr "TVD"))
  /\ (forall key p, (key, p) ∈ P01.parameters ->
        exists built,
          P01.build_model cfg fl key (P01.dispersivity p) (P01.retardation p)
            (P01.decay p) 0 false = Ok (Some built)).
Proof.
  intros Hb. rewrite build_model_cases, Hb. unfold P01.select_scheme.
  split; [split | split; [ | split; [ | split ] ] ].
  - intros [e He]. split; intros ->; discriminate He.
  - intros [H0 H1].
    destruct (Z.eqb_spec mixelm 0); [contradiction | ].
    destruct (Z.eqb_spec mixelm (-1)); [contradiction | ].
    eexists; reflexivity.
  - intros H0 H1.
    destruct (Z.eqb_spec mixelm 0); [contradiction | ].
    destruct (Z.eqb_spec mixelm (-1)); [contradiction | ].
    reflexivity.
  - intros ->. eexists _, _, _. split; [reflexivity | ].
    unfold model_arg, P01.build_sim, P01.build_gwt.
    destruct (float_ne ret 1), (float_ne disp (float_of_Z 0)); reflexivity.
  - intros ->. eexists _, _, _. split; [reflexivity | ].
    unfold model_arg, P01.build_sim, P01.build_gwt.
    destruct (float_ne ret 1), (float_ne disp (float_of_Z 0)); reflexivity.
  - intros key p _. rewrite build_model_cases, Hb. eexists. reflexivity.
Qed.

Lemma advection_scheme_by_mixelm_witness :
  buildModel cfg_all = true
  /\ P01.build_model cfg_all fl_quiet "ex-gwt-mt3dms-p01b" 10.0 1.0 0.0 7 false
     = Raise PlainException
  /\ exists mf mt sim,
       P01.build_model cfg_all fl_quiet "ex-gwt-mt3dms-p01b" 10.0 1.0 0.0 (-1) false
         = Ok (Some (mf, mt, sim))
       /\ model_arg 1 "ModflowGwtadv" "scheme" sim = Some (PyStr "TVD").
Proof.
  split; [reflexivity | ]. split.
  - refine (proj1 (proj2 (advection_scheme_by_mixelm cfg_all fl_quiet
              "ex-gwt-mt3dms-p01b" 10.0 1.0 0.0 7 false eq_refl)) _ _); lia.
  - exact (proj1 (proj2 (proj2 (proj2 (advection_scheme_by_mixelm cfg_all fl_quiet
              "ex-gwt-mt3dms-p01b" 10.0 1.0 0.0 (-1) false eq_refl)))) eq_refl).
Defined.

(** ** Effects of the primitive computations *)

Section Effects.
Context {A B : Type}.

Lemma bind_ok (m : M A) (k : A -> M B) w a w' :
  m w = (Ok a, w') -> bind m k w = k a w'.
Proof. unfold bind. now intros ->. Qed.

Lemma bind_raise (m : M A) (k : A -> M B) w e w' :
  m w = (Raise e, w') -> bind m k w = (Raise e, w').
Proof. unfold bind. now intros ->. Qed.

Lemma bind_lift_ok (a : A) (k : A -> M B) w : bind (lift (Ok a)) k w = k a w.
Proof. reflexivity. Qed.

Lemma bind_ret (a : A) (k : A -> M B) w : bind (ret a) k w = k a w.
Proof. reflexivity. Qed.

Lemma traces_ret P (a : A) : traces P (ret a).
Proof. intros w. exists []. now rewrite app_nil_r. Qed.

Lemma traces_raise P e : traces P (raise e : M A).
Proof. intros w. exists []. now rewrite app_nil_r. Qed.

Lemma traces_lift P (r : result A) : traces P (lift r).
Proof. intros w. exists []. now rewrite app_nil_r. Qed.

Lemma traces_bind P (m : M A) (k : A -> M B) :
  traces P m -> (forall a, traces P (k a)) -> traces P (bind m k).
Proof.
  intros Hm Hk w. unfold bind. destruct (Hm w) as (t1 & E1 & F1).
  destruct (m w) as [[a|e] w1]; cbn [snd] in *.
  - destruct (Hk a w1) as (t2 & E2 & F2). exists (t1 ++ t2).
    rewrite E2, E1, app_assoc. split; [reflexivity | ]. rewrite Forall_app. auto.
  - now exists t1.
Qed.

Lemma traces_weaken (P Q : event -> Prop) (m : M A) :
  (forall e, P e -> Q e) -> traces P m -> traces Q m.
Proof.
  intros HPQ Hm w. destruct (Hm w) as (t & E & F). exists t.
  split; [exact E | ]. eapply Forall_impl; eauto.
Qed.

Lemma keeps_figures_ret (a : A) : keeps_figures (ret a).
Proof. now intros w. Qed.
Lemma keeps_figures_raise e : keeps_figures (raise e : M A).
Proof. now intros w. Qed.
Lemma keeps_figures_lift (r : result A) : keeps_figures (lift r).
Proof. now intros w. Qed.
Lemma keeps_figures_bind (m : M A) (k : A -> M B) :
  keeps_figures m -> (forall a, keeps_figures (k a)) -> keeps_figures (bind m k).
Proof.
  intros Hm Hk w. unfold bind. pose proof (Hm w) as E1.
  destruct (m w) as [[a|e] w1]; cbn [snd] in *; [ | exact E1 ].
  now rewrite Hk.
Qed.

Lemma keeps_files_ret (a : A) : keeps_files (ret a).
Proof. now intros w. Qed.
Lemma keeps_files_raise e : keeps_files (raise e : M A).
Proof. now intros w. Qed.
Lemma keeps_files_lift (r : result A) : keeps_files (lift r).
Proof. now intros w. Qed.
Lemma keeps_files_bind (m : M A) (k : A -> M B) :
  keeps_files m -> (forall a, keeps_files (k a)) -> keeps_files (bind m k).
Proof.
  intros Hm Hk w. unfold bind. pose proof (Hm w) as E1.
  destruct (m w) as [[a|e] w1]; cbn [snd] in *; [ | exact E1 ].
  now rewrite Hk.
Qed.

End Effects.

Lemma traces_emit (P : event -> Prop) e : P e -> traces P (emit e).
Proof. intros He w. exists [e]. split; [reflexivity | now constructor]. Qed.
Lemma keeps_figures_emit e : keeps_figures (emit e).
Proof. now intros w. Qed.
Lemma keeps_files_emit e : keeps_files (emit e).
Proof. now intros w. Qed.

Lemma traces_write_files (P : event -> Prop) t fs :
  P (EWrite t) -> traces P (write_files t fs).
Proof. intros He w. exists [EWrite t]. split; [reflexivity | now constructor]. Qed.
Lemma keeps_figures_write_files t fs : keeps_figures (write_files t fs).
Proof. now intros w. Qed.

Lemma traces_run_solver (P : event -> Prop) t o solver :
  (forall b, P (ERun t o b)) -> traces P (run_solver t o solver).
Proof.
  intros He w. unfold run_solver. destruct (solver (files w)) as [[b buff] fs'].
  exists [ERun t o b]. split; [reflexivity | now constructor].
Qed.
Lemma keeps_figures_run_solver t o solver : keeps_figures (run_solver t o solver).
Proof.
  intros w. unfold run_solver. now destruct (solver (files w)) as [[b buff] fs'].
Qed.

Lemma traces_open_file (P : event -> Prop) path :
  P (ERead path) -> traces P (open_file path).
Proof.
  intros He w. exists [ERead path]. unfold open_file, bind, emit. cbn.
  destruct (files w !! path); (split; [reflexivity | now constructor]).
Qed.
Lemma keeps_figures_open_file path : keeps_figures (open_file path).
Proof.
  intros w. unfold open_file, bind, emit. cbn. now destruct (files w !! path).
Qed.
Lemma keeps_files_open_file path : keeps_files (open_file path).
Proof.
  intros w. unfold open_file, bind, emit. cbn. now destruct (files w !! path).
Qed.

Lemma traces_subplots P specs kw : traces P (subplots specs kw).
Proof. intros w. exists []. now rewrite app_nil_r. Qed.
Lemma keeps_files_subplots specs kw : keeps_files (subplots specs kw).
Proof. now intros w. Qed.

Lemma traces_ax_call P ax c : traces P (ax_call ax c).
Proof. intros w. exists []. now rewrite app_nil_r. Qed.
Lemma keeps_files_ax_call ax c : keeps_files (ax_call ax c).
Proof. now intros w. Qed.

Lemma traces_savefig (P : event -> Prop) fig path :
  (forall f, P (ESaveFig path f)) -> traces P (savefig fig path).
Proof.
  intros He w. unfold savefig. destruct (figures w !! fig) as [f|].
  - exists [ESaveFig path f]. split; [reflexivity | now constructor].
  - exists []. now rewrite app_nil_r.
Qed.
Lemma keeps_files_savefig fig path : keeps_files (savefig fig path).
Proof. intros w. unfold savefig. now destruct (figures w !! fig). Qed.

(** A computation is taken apart along its binds and branches; what is
    left are the events themselves. *)
Ltac effects_step :=
  lazymatch goal with
  | |- traces _ (bind _ _) => apply traces_bind; [ | intros ? ]
  | |- traces _ (ret _) => apply traces_ret
  | |- traces _ (raise _) => apply traces_raise
  | |- traces _ (lift _) => apply traces_lift
  | |- traces _ (emit _) => apply traces_emit
  | |- traces _ (print _) => apply traces_emit
  | |- traces _ (write_files _ _) => apply traces_write_files
  | |- traces _ (run_solver _ _ _) => apply traces_run_solver; intros ?
  | |- traces _ (open_file _) => apply traces_open_file
  | |- traces _ (subplots _ _) => apply traces_subplots
  | |- traces _ (ax_call _ _) => apply traces_ax_call
  | |- traces _ (savefig _ _) => apply traces_savefig; intros ?
  | |- keeps_figures (bind _ _) => apply keeps_figures_bind; [ | intros ? ]
  | |- keeps_figures (ret _) => apply keeps_figures_ret
  | |- keeps_figures (raise _) => apply keeps_figures_raise
  | |- keeps_figures (lift _) => apply keeps_figures_lift
  | |- keeps_figures (emit _) => apply keeps_figures_emit
  | |- keeps_figures (print _) => apply keeps_figures_emit
  | |- keeps_figures (write_files _ _) => apply keeps_figures_write_files
  | |- keeps_figures (run_solver _ _ _) => apply keeps_figures_run_solver
  | |- keeps_figures (open_file _) => apply keeps_figures_open_file
  | |- keeps_files (bind _ _) => apply keeps_files_bind; [ | intros ? ]
  | |- keeps_files (ret _) => apply keeps_files_ret
  | |- keeps_files (raise _) => apply keeps_files_raise
  | |- keeps_files (lift _) => apply keeps_files_lift
  | |- keeps_files (emit _) => apply keeps_files_emit
  | |- keeps_files (print _) => apply keeps_files_emit
  | |- keeps_files (open_file _) => apply keeps_files_open_file
  | |- keeps_files (subplots _ _) => apply keeps_files_subplots
  | |- keeps_files (ax_call _ _) => apply keeps_files_ax_call
  | |- keeps_files (savefig _ _) => apply keeps_files_savefig
  | |- _ (when ?b _) => unfold when; destruct b
  | |- _ (timeit _ _) => unfold timeit
  | |- _ (if ?b then _ else _) => destruct b
  | |- _ (match ?x with _ => _ end) => destruct x
  | |- _ (let _ := _ in _) => cbv zeta
  end.

Ltac effects := repeat effects_step; try reflexivity; try (split; reflexivity).

Section Scripts01.
Context (cfg : config) (fl : collab).

Lemma p01_write_model_traces mf mt sim silent :
  traces not_plot (P01.write_model cfg fl mf mt sim silent).
Proof. unfold P01.write_model. effects. Qed.

Lemma p01_write_model_figures mf mt sim silent :
  keeps_figures (P01.write_model cfg fl mf mt sim silent).
Proof. unfold P01.write_model. effects. Qed.

Lemma p01_run_model_traces mf mt sim silent :
  traces not_plot (P01.run_model cfg fl mf mt sim silent).
Proof. unfold P01.run_model. effects. Qed.

Lemma p01_run_model_figures mf mt sim silent :
  keeps_figures (P01.run_model cfg fl mf mt sim silent).
Proof. unfold P01.run_model. effects. Qed.

End Scripts01.

Section Scripts02.
Context (cfg : config) (fl : collab).

Lemma p02_build_model_traces key p :
  traces not_plot (P02.build_model cfg key p).
Proof.
  unfold P02.build_model, P02.build_mf6gwf, P02.build_mf6gwt, P02.build_mf2005,
    P02.build_mt3dms. effects.
Qed.

Lemma p02_build_model_figures key p :
  keeps_figures (P02.build_model cfg key p).
Proof.
  unfold P02.build_model, P02.build_mf6gwf, P02.build_mf6gwt, P02.build_mf2005,
    P02.build_mt3dms. effects.
Qed.

Lemma p02_write_model_traces sims silent :
  traces not_plot (P02.write_model cfg fl sims silent).
Proof. unfold P02.write_model, P02.unpack4. effects. Qed.

Lemma p02_write_model_figures sims silent :
  keeps_figures (P02.write_model cfg fl sims silent).
Proof. unfold P02.write_model, P02.unpack4. effects. Qed.

Lemma p02_run_model_traces sims silent :
  traces not_plot (P02.run_model cfg fl sims silent).
Proof. unfold P02.run_model, P02.unpack4. effects. Qed.

Lemma p02_run_model_figures sims silent :
  keeps_figures (P02.run_model cfg fl sims silent).
Proof. unfold P02.run_model, P02.unpack4. effects. Qed.

End Scripts02.

(** ** [scenario], phase by phase *)

Lemma p01_scenario_steps cfg fl idx silent w :
  P01.scenario cfg fl idx silent w =
  match py_index P01.parameters idx with
  | Ok (key, p) =>
      match P01.build_model cfg fl key (P01.dispersivity p) (P01.retardation p)
              (P01.decay p) 0 false with
      | Ok (Some (mf, mt, sim)) =>
          match P01.write_model cfg fl mf mt sim silent w with
          | (Ok _, w1) =>
              match P01.run_model cfg fl mf mt sim silent w1 with
              | (Ok success, w2) =>
                  if success then P01.plot_results cfg fl mt sim idx None w2
                  else (Ok tt, w2)
              | (Raise e, w2) => (Raise e, w2)
              end
          | (Raise e, w1) => (Raise e, w1)
          end
      | Ok None => (Raise (TypeError "cannot unpack non-iterable NoneType object"), w)
      | Raise e => (Raise e, w)
      end
  | Raise e => (Raise e, w)
  end.
Proof.
  unfold P01.scenario, P01.unpack3, bind, lift, ret, raise.
  destruct (py_index P01.parameters idx) as [[key p]|e]; [ | reflexivity ].
  destruct (P01.build_model cfg fl key (P01.dispersivity p) (P01.retardation p)
              (P01.decay p) 0 false) as [[[[mf mt] sim]|]|e]; try reflexivity.
  destruct (P01.write_model cfg fl mf mt sim silent w) as [[[]|e] w1];
    [ | reflexivity ].
  destruct (P01.run_model cfg fl mf mt sim silent w1) as [[[|]|e] w2];
    reflexivity.
Qed.

Lemma p02_scenario_steps cfg fl idx silent w :
  P02.scenario cfg fl idx silent w =
  match py_index P02.parameters idx with
  | Ok (key, p) =>
      match P02.build_model cfg key p w with
      | (Ok sims, w0) =>
          match P02.write_model cfg fl sims silent w0 with
          | (Ok _, w1) =>
              match P02.run_model cfg fl sims silent w1 with
              | (Ok success, w2) =>
                  if success then P02.plot_results_ct cfg fl sims idx p w2
                  else (Ok tt, w2)
              | (Raise e, w2) => (Raise e, w2)
              end
          | (Raise e, w1) => (Raise e, w1)
          end
      | (Raise e, w0) => (Raise e, w0)
      end
  | Raise e => (Raise e, w)
  end.
Proof.
  unfold P02.scenario, bind, lift, ret.
  destruct (py_index P02.parameters idx) as [[key p]|e]; [ | reflexivity ].
  destruct (P02.build_model cfg key p w) as [[sims|e] w0]; [ | reflexivity ].
  destruct (P02.write_model cfg fl sims silent w0) as [[[]|e] w1];
    [ | reflexivity ].
  destruct (P02.run_model cfg fl sims silent w1) as [[[|]|e] w2];
    reflexivity.
Qed.

(** ** A failed run is not plotted *)

(** C3.  In either script, when the [run_model] call of a scenario
    returns [False], [scenario] ends with the world [run_model] left:
    the plotting function is not entered.  Since building, writing and
    running open no output file, save no figure and leave pyplot's
    figures alone, the scenario as a whole has no plotting effect. *)
Theorem failed_run_is_not_plotted cfg fl idx silent w :
  (forall key p mf mt sim w1 w2,
     py_index P01.parameters idx = Ok (key, p) ->
     P01.build_model cfg fl key (P01.dispersivity p) (P01.retardation p)
       (P01.decay p) 0 false = Ok (Some (mf, mt, sim)) ->
     P01.write_model cfg fl mf mt sim silent w = (Ok tt, w1) ->
     P01.run_model cfg fl mf mt sim silent w1 = (Ok false, w2) ->
     P01.scenario cfg fl idx silent w = (Ok tt, w2)
     /\ figures w2 = figures w
     /\ exists t, trace w2 = trace w ++ t /\ Forall not_plot t)
  /\ (forall key p sims w0 w1 w2,
     py_index P02.parameters idx = Ok (key, p) ->
     P02.build_model cfg key p w = (Ok sims, w0) ->
     P02.write_model cfg fl sims silent w0 = (Ok tt, w1) ->
     P02.run_model cfg fl sims silent w1 = (Ok false, w2) ->
     P02.scenario cfg fl idx silent w = (Ok tt, w2)
     /\ figures w2 = figures w
     /\ exists t, trace w2 = trace w ++ t /\ Forall not_plot t).
Proof.
  split.
  - intros key p mf mt sim w1 w2 Hidx Hbuild Hwrite Hrun. split; [ | split ].
    + now rewrite p01_scenario_steps, Hidx, Hbuild, Hwrite, Hrun.
    + pose proof (p01_write_model_figures cfg fl mf mt sim silent w) as F1.
      pose proof (p01_run_model_figures cfg fl mf mt sim silent w1) as F2.
      rewrite Hwrite in F1. rewrite Hrun in F2. cbn [snd] in *. congruence.
    + destruct (p01_write_model_traces cfg fl mf mt sim silent w) as (t1 & E1 & F1).
      destruct (p01_run_model_traces cfg fl mf mt sim silent w1) as (t2 & E2 & F2).
      rewrite Hwrite in E1. rewrite Hrun in E2. cbn [snd] in *.
      exists (t1 ++ t2). rewrite E2, E1, app_assoc.
      split; [reflexivity | ]. rewrite Forall_app. auto.
  - intros key p sims w0 w1 w2 Hidx Hbuild Hwrite Hrun. split; [ | split ].
    + now rewrite p02_scenario_steps, Hidx, Hbuild, Hwrite, Hrun.
    + pose proof (p02_build_model_figures cfg key p w) as F0.
      pose proof (p02_write_model_figures cfg fl sims silent w0) as F1.
      pose proof (p02_run_model_figures cfg fl sims silent w1) as F2.
      rewrite Hbuild in F0. rewrite Hwrite in F1. rewrite Hrun in F2.
      cbn [snd] in *. congruence.
    + destruct (p02_build_model_traces cfg key p w) as (t0 & E0 & F0).
      destruct (p02_write_model_traces cfg fl sims silent w0) as (t1 & E1 & F1).
      destruct (p02_run_model_traces cfg fl sims silent w1) as (t2 & E2 & F2).
      rewrite Hbuild in E0. rewrite Hwrite in E1. rewrite Hrun in E2.
      cbn [snd] in *.
      exists (t0 ++ t1 ++ t2). rewrite E2, E1, E0, !app_assoc.
      split; [reflexivity | ]. rewrite !Forall_app. auto.
Qed.

Lemma failed_run_is_not_plotted_witness :
  P01.run_model cfg_all fl_mf6_fails
    (P01.build_mf cfg_all "ex-gwt-mt3dms-p01a")
    (P01.build_mt cfg_all "ex-gwt-mt3dms-p01a"
       (P01.build_mf cfg_all "ex-gwt-mt3dms-p01a") 0.0 1.0 0.0 0)
    (P01.build_sim cfg_all fl_mf6_fails "ex-gwt-mt3dms-p01a"
       (P01.build_gwt 0.0 1.0 0.0 "UPSTREAM"))
    true
    (snd (P01.write_model cfg_all fl_mf6_fails
            (P01.build_mf cfg_all "ex-gwt-mt3dms-p01a")
            (P01.build_mt cfg_all "ex-gwt-mt3dms-p01a"
               (P01.build_mf cfg_all "ex-gwt-mt3dms-p01a") 0.0 1.0 0.0 0)
            (P01.build_sim cfg_all fl_mf6_fails "ex-gwt-mt3dms-p01a"
               (P01.build_gwt 0.0 1.0 0.0 "UPSTREAM"))
            true world0))
  = (Ok false,
     snd (P01.scenario cfg_all fl_mf6_fails 0 true world0))
  /\ fst (P01.scenario cfg_all fl_mf6_fails 0 true world0) = Ok tt
  /\ figures (snd (P01.scenario cfg_all fl_mf6_fails 0 true world0)) = [].
Proof.
  assert (Hrun :
    P01.run_model cfg_all fl_mf6_fails
      (P01.build_mf cfg_all "ex-gwt-mt3dms-p01a")
      (P01.build_mt cfg_all "ex-gwt-mt3dms-p01a"
         (P01.build_mf cfg_all "ex-gwt-mt3dms-p01a") 0.0 1.0 0.0 0)
      (P01.build_sim cfg_all fl_mf6_fails "ex-gwt-mt3dms-p01a"
         (P01.build_gwt 0.0 1.0 0.0 "UPSTREAM"))
      true
      (snd (P01.write_model cfg_all fl_mf6_fails
              (P01.build_mf cfg_all "ex-gwt-mt3dms-p01a")
              (P01.build_mt cfg_all "ex-gwt-mt3dms-p01a"
                 (P01.build_mf cfg_all "ex-gwt-mt3dms-p01a") 0.0 1.0 0.0 0)
              (P01.build_sim cfg_all fl_mf6_fails "ex-gwt-mt3dms-p01a"
                 (P01.build_gwt 0.0 1.0 0.0 "UPSTREAM"))
              true world0))
    = (Ok false, snd (P01.scenario cfg_all fl_mf6_fails 0 true world0)))
    by (vm_compute; reflexivity).
  destruct (proj1 (failed_run_is_not_plotted cfg_all fl_mf6_fails 0 true world0)
              "ex-gwt-mt3dms-p01a" (P01.Params 0.0 1.0 0.0) _ _ _ _ _
              eq_refl eq_refl eq_refl Hrun) as (Hs & Hf & _).
  split; [exact Hrun | ]. split.
  - now rewrite Hs.
  - exact Hf.
Defined.

(** ** What writing and running do, exactly *)

Lemma p01_write_model_outcome cfg fl mf mt sim silent w :
  P01.write_model cfg fl mf mt sim silent w =
  (Ok tt,
   if writeModel cfg then
     World (store (write_simulation fl sim silent)
              (store (write_input_mt3dms fl mt)
                 (store (write_input_modflow fl mf) (files w))))
           (figures w)
           (trace w ++ [EWrite (TModflow mf); EWrite (TMt3dms mt);
                        EWrite (TSimulation sim)])
   else w).
Proof.
  unfold P01.write_model. destruct (writeModel cfg); [ | reflexivity ].
  unfold bind, write_files. cbn. now rewrite <- !app_assoc.
Qed.

(** [run_model] of problem 1 hands back the flag of the last solver
    only, and prints the text of the last solver only. *)
Lemma p01_run_model_outcome cfg fl mf mt sim silent w :
  P01.run_model cfg fl mf mt sim silent w =
  if runModel cfg then
    let o := RunOpts silent None None in
    let '(s1, b1, f1) := run_modflow fl mf o (files w) in
    let '(s2, b2, f2) := run_mt3dms fl mt o f1 in
    let '(s3, b3, f3) := run_simulation fl sim o f2 in
    (Ok s3,
     World f3 (figures w)
       (trace w
        ++ [ERun (TModflow mf) o s1; ERun (TMt3dms mt) o s2;
            ERun (TSimulation sim) o s3]
        ++ (if s3 then [] else [EPrint (PyList (map PyStr b3))])
        ++ [ETimed "run_model"]))
  else (Ok true, World (files w) (figures w) (trace w ++ [ETimed "run_model"])).
Proof.
  unfold P01.run_model, timeit. destruct (runModel cfg); [ | reflexivity ].
  unfold bind, run_solver, when, print, emit, ret. cbn.
  destruct (run_modflow fl mf _ (files w)) as [[s1 b1] f1]. cbn.
  destruct (run_mt3dms fl mt _ f1) as [[s2 b2] f2]. cbn.
  destruct (run_simulation fl sim _ f2) as [[[|] b3] f3]; cbn;
    now rewrite <- !app_assoc.
Qed.

Lemma open_file_then {B} (P : event -> Prop) path (k : string -> M B) :
  (forall c, traces P (k c)) ->
  forall w, exists t,
    trace (snd (bind (open_file path) k w)) = trace w ++ ERead path :: t
    /\ Forall P t.
Proof.
  intros Hk w. unfold bind at 1, open_file, bind, emit. cbn.
  destruct (files w !! path) as [c|].
  - destruct (Hk c (World (files w) (figures w) (trace w ++ [ERead path])))
      as (t & E & F).
    exists t. rewrite E. cbn. now rewrite <- app_assoc.
  - exists []. now split.
Qed.

Lemma p01_plot_results_reads cfg fl mt sim idx ax w :
  plotModel cfg = true ->
  exists path t,
    trace (snd (P01.plot_results cfg fl mt sim idx ax w))
      = trace w ++ ERead path :: t
    /\ Forall plot_only t.
Proof.
  intros Hp. unfold P01.plot_results. rewrite Hp. cbv zeta.
  eexists. apply open_file_then. intros c. effects.
Qed.

Lemma existsb_Forall_false {A} (f : A -> bool) (P : A -> Prop) l :
  (forall x, P x -> f x = false) -> Forall P l -> existsb f l = false.
Proof.
  intros H. induction 1 as [|x l Hx _ IH]; [reflexivity | ].
  cbn. now rewrite (H x Hx), IH.
Qed.

Lemma plot_only_not_write e : plot_only e -> is_write e = false.
Proof. now destruct e. Qed.
Lemma plot_only_not_run e : plot_only e -> is_run e = false.
Proof. now destruct e. Qed.

(** ** The phases and their flags *)

(** C5, as stated, fails: with every flag true and a failing MODFLOW 6
    run, the solvers run but nothing is plotted (no output file is
    opened, no figure made); and with only [buildModel] false the
    scenario stops at the unpacking of [None] before anything is
    written or run, although those flags are true. *)
Lemma flags_alone_do_not_decide_the_phases :
  (plotModel cfg_all = true
   /\ fst (P01.scenario cfg_all fl_mf6_fails 0 true world0) = Ok tt
   /\ existsb is_run (trace (snd (P01.scenario cfg_all fl_mf6_fails 0 true world0))) = true
   /\ existsb is_plot (trace (snd (P01.scenario cfg_all fl_mf6_fails 0 true world0))) = false
   /\ figures (snd (P01.scenario cfg_all fl_mf6_fails 0 true world0)) = [])
  /\ (writeModel cfg_no_build = true /\ runModel cfg_no_build = true
      /\ P01.scenario cfg_no_build fl_quiet 0 true world0
         = (Raise (TypeError "cannot unpack non-iterable NoneType object"), world0)).
Proof. vm_compute. repeat split; reflexivity. Qed.

(** C5, amended.  [build_model] builds exactly when [buildModel] is
    true.  For a scenario that has been built: writing happens exactly
    when [writeModel] is true, the solvers run exactly when [runModel] is
    true, and the plotting function opens the output files exactly when
    [plotModel] is true and [run_model] returned [True], which it does
    by default when the run is skipped.  A skipped write leaves the world
    as it was, a skipped run leaves files and figures as they were, and
    without plotting the scenario ends with the world [run_model] left. *)
Theorem phases_follow_flags_and_success cfg fl idx silent w key p :
  py_index P01.parameters idx = Ok (key, p) ->
  (buildModel cfg = false ->
     P01.build_model cfg fl key (P01.dispersivity p) (P01.retardation p)
       (P01.decay p) 0 false = Ok None)
  /\ (buildModel cfg = true ->
      exists mf mt sim w1 success w2 r w3 t,
        P01.build_model cfg fl key (P01.dispersivity p) (P01.retardation p)
          (P01.decay p) 0 false = Ok (Some (mf, mt, sim))
        /\ P01.write_model cfg fl mf mt sim silent w = (Ok tt, w1)
        /\ P01.run_model cfg fl mf mt sim silent w1 = (Ok success, w2)
        /\ P01.scenario cfg fl idx silent w = (r, w3)
        /\ trace w3 = trace w ++ t
        /\ existsb is_write t = writeModel cfg
        /\ existsb is_run t = runModel cfg
        /\ existsb is_read t = plotModel cfg && success
        /\ (writeModel cfg = false -> w1 = w)
        /\ (runModel cfg = false ->
              success = true /\ files w2 = files w1 /\ figures w2 = figures w1)
        /\ (plotModel cfg && success = false -> r = Ok tt /\ w3 = w2)).
Proof.
  intros Hidx. split.
  { intros Hb. rewrite build_model_cases. now rewrite Hb. }
  intros Hb.
  pose proof (build_model_cases cfg fl key (P01.dispersivity p) (P01.retardation p)
                (P01.decay p) 0 false) as Hbuild.
  rewrite Hb in Hbuild. cbn [P01.select_scheme Z.eqb] in Hbuild.
  set (mf := P01.build_mf cfg key) in *.
  set (mt := P01.build_mt cfg key mf _ _ _ 0) in *.
  set (sim := P01.build_sim cfg fl key _) in *.
  pose proof (p01_write_model_outcome cfg fl mf mt sim silent w) as Hw.
  set (w1 := if writeModel cfg then _ else w) in Hw.
  pose proof (p01_run_model_outcome cfg fl mf mt sim silent w1) as Hr.
  assert (exists success w2 tr,
            P01.run_model cfg fl mf mt sim silent w1 = (Ok success, w2)
            /\ trace w2 = trace w1 ++ tr
            /\ existsb is_run tr = runModel cfg
            /\ existsb is_write tr = false /\ existsb is_read tr = false
            /\ (runModel cfg = false ->
                  success = true /\ files w2 = files w1 /\ figures w2 = figures w1))
    as (success & w2 & tr & Hrun & Etr & Rtr & Wtr & Dtr & Skip).
  { rewrite Hr. destruct (runModel cfg).
    - cbv zeta.
      destruct (run_modflow fl mf _ (files w1)) as [[s1 b1] f1].
      destruct (run_mt3dms fl mt _ f1) as [[s2 b2] f2].
      destruct (run_simulation fl sim _ f2) as [[s3 b3] f3].
      eexists _, _, _. split; [reflexivity | ]. split; [reflexivity | ].
      destruct s3; repeat split; try reflexivity; discriminate.
    - eexists _, _, _. split; [reflexivity | ]. split; [reflexivity | ].
      repeat split; reflexivity. }
  assert (exists tw, trace w1 = trace w ++ tw
                     /\ existsb is_write tw = writeModel cfg
                     /\ existsb is_run tw = false /\ existsb is_read tw = false)
    as (tw & Etw & Wtw & Rtw & Dtw).
  { subst w1. destruct (writeModel cfg).
    - eexists. split; [reflexivity | ]. repeat split; reflexivity.
    - exists []. rewrite app_nil_r. repeat split; reflexivity. }
  pose proof (p01_scenario_steps cfg fl idx silent w) as Hs.
  rewrite Hidx, Hbuild, Hw, Hrun in Hs.
  destruct (plotModel cfg) eqn:Hp; destruct success.
  - destruct (p01_plot_results_reads cfg fl mt sim idx None w2 Hp)
      as (path & tp & Etp & Ftp).
    destruct (P01.plot_results cfg fl mt sim idx None w2) as [r w3] eqn:Hplot.
    cbn [snd] in Etp.
    exists mf, mt, sim, w1, true, w2, r, w3, (tw ++ tr ++ ERead path :: tp).
    rewrite Etp, Etr, Etw, <- !app_assoc, !existsb_app. cbn [existsb is_write is_run is_read].
    rewrite Wtw, Rtw, Wtr, Rtr,
      (existsb_Forall_false is_write _ _ plot_only_not_write Ftp),
      (existsb_Forall_false is_run _ _ plot_only_not_run Ftp), Dtw, Dtr.
    cbn [orb andb].
    rewrite ?orb_false_r.
    repeat split;
      first [ assumption | reflexivity | discriminate | (now apply Skip)
            | (intros E; subst w1; now rewrite E)
            | match goal with
              | E : writeModel cfg = false |- _ => subst w1; now rewrite E
              end ].
  - exists mf, mt, sim, w1, false, w2, (Ok tt), w2, (tw ++ tr).
    rewrite Etr, Etw, <- !app_assoc, !existsb_app, Wtw, Rtw, Wtr, Rtr, Dtw, Dtr.
    cbn [orb andb].
    rewrite ?orb_false_r.
    repeat split;
      first [ assumption | reflexivity | discriminate | (now apply Skip)
            | (intros E; subst w1; now rewrite E)
            | match goal with
              | E : writeModel cfg = false |- _ => subst w1; now rewrite E
              end ].
  - assert (Hplot : P01.plot_results cfg fl mt sim idx None w2 = (Ok tt, w2)).
    { unfold P01.plot_results. now rewrite Hp. }
    rewrite Hplot in Hs.
    exists mf, mt, sim, w1, true, w2, (Ok tt), w2, (tw ++ tr).
    rewrite Etr, Etw, <- !app_assoc, !existsb_app, Wtw, Rtw, Wtr, Rtr, Dtw, Dtr.
    cbn [orb andb].
    rewrite ?orb_false_r.
    repeat split;
      first [ assumption | reflexivity | discriminate | (now apply Skip)
            | (intros E; subst w1; now rewrite E)
            | match goal with
              | E : writeModel cfg = false |- _ => subst w1; now rewrite E
              end ].
  - exists mf, mt, sim, w1, false, w2, (Ok tt), w2, (tw ++ tr).
    rewrite Etr, Etw, <- !app_assoc, !existsb_app, Wtw, Rtw, Wtr, Rtr, Dtw, Dtr.
    cbn [orb andb].
    rewrite ?orb_false_r.
    repeat split;
      first [ assumption | reflexivity | discriminate | (now apply Skip)
            | (intros E; subst w1; now rewrite E)
            | match goal with
              | E : writeModel cfg = false |- _ => subst w1; now rewrite E
              end ].
Qed.

Lemma phases_follow_flags_and_success_witness :
  py_index P01.parameters 0 = Ok ("ex-gwt-mt3dms-p01a", P01.Params 0.0 1.0 0.0)
  /\ exists r w3 t,
       P01.scenario cfg_all fl_quiet 0 true world0 = (r, w3)
       /\ trace w3 = trace world0 ++ t
       /\ existsb is_write t = true /\ existsb is_run t = true.
Proof.
  split; [reflexivity | ].
  destruct (proj2 (phases_follow_flags_and_success cfg_all fl_quiet 0 true world0
                     _ _ eq_refl) eq_refl)
    as (mf & mt & sim & w1 & success & w2 & r & w3 & t
        & _ & _ & _ & Hs & Ht & Hw & Hr & _).
  exists r, w3, t. auto.
Defined.

(** ** The success flag of [run_model] *)

(** C2 (the code departs from the claim).  In problem 1, when the
    MODFLOW-2005 run fails and the two later runs succeed, [run_model]
    returns [True] and prints nothing: the flag and the text of each run
    are overwritten by the next.  In problem 2 the text of each failed
    run is printed, but the flag returned is still that of the last run
    alone. *)
Theorem run_model_reports_the_last_run_only :
  (let mf := P01.build_mf cfg_all "ex-gwt-mt3dms-p01a" in
   let mt := P01.build_mt cfg_all "ex-gwt-mt3dms-p01a" mf 0.0 1.0 0.0 0 in
   let sim := P01.build_sim cfg_all fl_mf2005_fails "ex-gwt-mt3dms-p01a"
                (P01.build_gwt 0.0 1.0 0.0 "UPSTREAM") in
   let r := P01.run_model cfg_all fl_mf2005_fails mf mt sim true world0 in
   existsb is_failed_run (trace (snd r)) = true
   /\ fst r = Ok true
   /\ existsb is_print (trace (snd r)) = false)
  /\ (let built := P02.build_model cfg_all "ex-gwt-mt3dms-p02a"
                     (P02.Params (Some "freundlich") (Some 0.3%float)
                        (Some 0.7%float) None None None) world0 in
      match fst built with
      | Ok sims =>
          let r := P02.run_model cfg_all fl_mf2005_fails sims true world0 in
          existsb is_failed_run (trace (snd r)) = true
          /\ fst r = Ok true
          /\ In (EPrint (PyList [PyStr "mf2005 failed"])) (trace (snd r))
      | Raise _ => False
      end).
Proof. vm_compute. repeat split; auto 10. Qed.

(** ** Selecting the sorption model in problem 2 *)

(** C4, as stated, fails for [build_mf6gwt]: given the parameters of
    both isotherms, the last branch checked (Langmuir's [Kl] and [S])
    supplies the coefficients, but the model selected is the [sorption]
    string as passed, here "freundlich"; [build_mt3dms] selects Langmuir
    ([isothm = 3]) from the same arguments.  With [Kl] but no [S], the
    MODFLOW 6 package mixes [Kl] with Freundlich's exponent [a]. *)
Lemma mf6gwt_model_is_not_the_last_branch :
  (exists gwt mt w1 w2,
     P02.build_mf6gwt cfg_all "s" (Some "freundlich") (Some 0.3%float)
       (Some 0.7%float) (Some 100.0%float) (Some 0.003%float) None world0
       = (Ok gwt, w1)
     /\ P02.build_mt3dms cfg_all "s" (MkModflow [] []) (Some "freundlich")
          (Some 0.3%float) (Some 0.7%float) (Some 100.0%float)
          (Some 0.003%float) None world0
        = (Ok mt, w2)
     /\ model_arg 0 "ModflowGwtmst" "sorption" gwt = Some (PyStr "freundlich")
     /\ model_arg 0 "ModflowGwtmst" "distcoef" gwt = Some (PyFloat 100.0)
     /\ model_arg 0 "ModflowGwtmst" "sp2" gwt = Some (PyFloat 0.003)
     /\ rct_arg "isothm" mt = Some (PyInt 3))
  /\ (exists gwt w1,
        P02.build_mf6gwt cfg_all "s" (Some "freundlich") (Some 0.3%float)
          (Some 0.7%float) (Some 100.0%float) None None world0
          = (Ok gwt, w1)
        /\ model_arg 0 "ModflowGwtmst" "distcoef" gwt = Some (PyFloat 100.0)
        /\ model_arg 0 "ModflowGwtmst" "sp2" gwt = Some (PyFloat 0.7)).
Proof.
  split.
  - eexists _, _, _, _. repeat split; reflexivity.
  - eexists _, _. repeat split; reflexivity.
Qed.

(** C4, amended.  Neither builder checks that the parameters of one
    model only are given, and [build_mf6gwt] never raises.  In
    [build_mf6gwt] the model is the [sorption] argument as passed,
    [distcoef] is [Kl] if given and else [Kf], [sp2] is [S] if given and
    else [a], each chosen on its own, and a positive [beta] adds the
    immobile domain package beside them.  In [build_mt3dms] the last of
    the branches [beta], [Kf], [Kl] that is given sets [isothm], [sp1]
    and [sp2] together (3 with [Kl] and [S]; else 2 with [Kf] and [a];
    else 4 with the distribution coefficient and [beta]); with none of
    the three the call of the reaction package finds [isothm] unbound. *)
Theorem sorption_parameters_by_precedence
    cfg folder mfm (sorption : option string) (Kf a Kl S beta : option float) w :
  (exists gwt,
     P02.build_mf6gwt cfg folder sorption Kf a Kl S beta w
       = (Ok gwt,
          World (files w) (figures w)
            (trace w ++ [EPrint (PyStr (format "Building mf6gwt model...{}" [folder]))]))
     /\ model_arg 0 "ModflowGwtmst" "sorption" gwt = Some (py_opt_str sorption)
     /\ model_arg 0 "ModflowGwtmst" "distcoef" gwt
        = Some (py_opt_float (match Kl with Some _ => Kl | None => Kf end))
     /\ model_arg 0 "ModflowGwtmst" "sp2" gwt
        = Some (py_opt_float (match S with Some _ => S | None => a end))
     /\ model_arg 0 "ModflowGwtist" "zetaim" gwt
        = match beta with
          | Some b => if float_gt b (float_of_Z 0) then Some (PyFloat b) else None
          | None => None
          end)
  /\ match Kl, Kf, beta with
     | Some kl, _, _ =>
         exists mt,
           fst (P02.build_mt3dms cfg folder mfm sorption Kf a Kl S beta w) = Ok mt
           /\ rct_arg "isothm" mt = Some (PyInt 3)
           /\ rct_arg "sp1" mt = Some (PyFloat kl)
           /\ rct_arg "sp2" mt = Some (py_opt_float S)
     | None, Some kf, _ =>
         exists mt,
           fst (P02.build_mt3dms cfg folder mfm sorption Kf a Kl S beta w) = Ok mt
           /\ rct_arg "isothm" mt = Some (PyInt 2)
           /\ rct_arg "sp1" mt = Some (PyFloat kf)
           /\ rct_arg "sp2" mt = Some (py_opt_float a)
     | None, None, Some b =>
         exists mt,
           fst (P02.build_mt3dms cfg folder mfm sorption Kf a Kl S beta w) = Ok mt
           /\ rct_arg "isothm" mt = Some (PyInt 4)
           /\ rct_arg "sp1" mt = Some (PyFloat P02.distribution_coefficient)
           /\ rct_arg "sp2" mt = Some (PyFloat b)
     | None, None, None =>
         fst (P02.build_mt3dms cfg folder mfm sorption Kf a Kl S beta w)
           = Raise (UnboundLocalError "isothm")
     end.
Proof.
  split.
  - eexists. split; [reflexivity | ].
    unfold model_arg. cbn [sim_models lookup list_lookup].
    destruct Kf, Kl, a, S, beta as [b|];
      try destruct (float_gt b (float_of_Z 0)); repeat split; reflexivity.
  - destruct Kl as [kl|], Kf as [kf|], beta as [b|];
      try (eexists; repeat split; reflexivity); reflexivity.
Qed.

(** ** Writing files one after the other *)

Lemma store_app fs1 fs2 (m : gmap string string) :
  store (fs1 ++ fs2) m = store fs2 (store fs1 m).
Proof. unfold store. apply foldl_app. Qed.

(** ** Dividing a binary64 number by 1.0 gives the number back *)

Lemma fexp_fexp64 e : fexp prec emax e = fexp64 e.
Proof. reflexivity. Qed.

Lemma div_core_unfold m e :
  SFdiv_core_binary prec emax (Z.pos m) e 4503599627370496 (-52) =
  let e' := Z.min (fexp64 (Z.pos (digits2_pos m) + e - 1)) (e + 52) in
  let s := e + 52 - e' in
  let m' := match s with
            | Z.pos _ => Z.shiftl (Z.pos m) s
            | 0 => Z.pos m
            | Z.neg _ => 0
            end in
  let '(q, r) := Z.div_eucl m' 4503599627370496 in
  (q, e', new_location 4503599627370496 r).
Proof.
  unfold SFdiv_core_binary.
  change (Zdigits2 4503599627370496 + -52) with 1.
  change (Zdigits2 (Z.pos m)) with (Z.pos (digits2_pos m)).
  replace (e - -52) with (e + 52) by lia.
  reflexivity.
Qed.

Lemma div_core_subnormal m :
  Z.pos (digits2_pos m) <= 53 ->
  SFdiv_core_binary prec emax (Z.pos m) (-1074) 4503599627370496 (-52) =
  (Z.pos m, -1074, loc_Exact).
Proof.
  intros Hd. rewrite div_core_unfold. unfold fexp64.
  replace (Z.min (Z.max (Z.pos (digits2_pos m) + -1074 - 1 - 53) (-1074)) (-1074 + 52))
    with (-1074) by lia.
  cbv zeta. change (-1074 + 52 - -1074) with 52. cbv iota beta.
  rewrite Z.shiftl_mul_pow2 by lia.
  change (2 ^ 52) with 4503599627370496.
  pose proof (Z.div_eucl_eq (Z.pos m * 4503599627370496) 4503599627370496) as E.
  pose proof (Z.mod_pos_bound (Z.pos m * 4503599627370496) 4503599627370496) as B.
  unfold Z.modulo in B.
  destruct (Z.div_eucl (Z.pos m * 4503599627370496) 4503599627370496) as [q r].
  assert (r = 0 /\ q = Z.pos m) as [-> ->] by lia.
  reflexivity.
Qed.

Lemma div_core_normal m e :
  Z.pos (digits2_pos m) = 53 -> -1074 < e ->
  SFdiv_core_binary prec emax (Z.pos m) e 4503599627370496 (-52) =
  (Z.pos m~0, e - 1, loc_Exact).
Proof.
  intros Hd He. rewrite div_core_unfold. unfold fexp64. rewrite Hd.
  replace (Z.min (Z.max (53 + e - 1 - 53) (-1074)) (e + 52)) with (e - 1) by lia.
  cbv zeta. replace (e + 52 - (e - 1)) with 53 by lia. cbv iota beta.
  rewrite Z.shiftl_mul_pow2 by lia.
  change (2 ^ 53) with (2 * 4503599627370496).
  pose proof (Z.div_eucl_eq (Z.pos m * (2 * 4503599627370496)) 4503599627370496) as E.
  pose proof (Z.mod_pos_bound (Z.pos m * (2 * 4503599627370496)) 4503599627370496) as B.
  unfold Z.modulo in B.
  destruct (Z.div_eucl (Z.pos m * (2 * 4503599627370496)) 4503599627370496) as [q r].
  assert (r = 0 /\ q = Z.pos m~0) as [-> ->] by lia.
  reflexivity.
Qed.

Lemma round_aux_canonical s m e :
  fexp64 (Z.pos (digits2_pos m) + e) = e -> e <= 971 ->
  binary_round_aux prec emax s (Z.pos m) e loc_Exact = S754_finite s m e.
Proof.
  intros Hc He. unfold binary_round_aux, shr_fexp.
  change (Zdigits2 (Z.pos m)) with (Z.pos (digits2_pos m)).
  rewrite fexp_fexp64, Hc.
  replace (e - e)%Z with 0 by lia.
  cbn [shr shr_record_of_loc shr_m loc_of_shr_record round_nearest_even].
  change (Zdigits2 (Z.pos m)) with (Z.pos (digits2_pos m)).
  rewrite fexp_fexp64, Hc.
  replace (e - e)%Z with 0 by lia.
  cbn [shr shr_record_of_loc shr_m].
  change (emax - prec) with 971.
  destruct (Z.leb_spec e 971); [reflexivity | lia].
Qed.

Lemma round_aux_doubled s m e :
  Z.pos (digits2_pos m) = 53 -> -1074 < e -> e <= 971 ->
  binary_round_aux prec emax s (Z.pos m~0) (e - 1) loc_Exact = S754_finite s m e.
Proof.
  intros Hd Hlo Hhi. unfold binary_round_aux, shr_fexp.
  change (Zdigits2 (Z.pos m~0)) with (Z.pos (Pos.succ (digits2_pos m))).
  rewrite Pos2Z.inj_succ, Hd, fexp_fexp64. unfold fexp64.
  replace (Z.max (Z.succ 53 + (e - 1) - 53) (-1074) - (e - 1)) with 1 by lia.
  cbn [shr shr_record_of_loc SpecFloat.iter_pos shr_1 shr_m loc_of_shr_record round_nearest_even].
  cbn [orb].
  change (round_nearest_even (Z.pos m) loc_Exact) with (Z.pos m).
  change (Zdigits2 (Z.pos m)) with (Z.pos (digits2_pos m)).
  rewrite Hd, fexp_fexp64. unfold fexp64.
  replace (Z.max (53 + (e - 1 + 1) - 53) (-1074) - (e - 1 + 1)) with 0 by lia.
  cbn [shr shr_record_of_loc shr_m].
  change (emax - prec) with 971.
  destruct (Z.leb_spec (e - 1 + 1) 971); [f_equal; lia | lia].
Qed.

Lemma SFdiv_one (x : spec_float) :
  valid_binary x = true ->
  SF64div x (S754_finite false 4503599627370496 (-52)) = x.
Proof.
  destruct x as [s|s| |s m e]; intros Hv; cbn [SF64div SFdiv].
  - now destruct s.
  - now destruct s.
  - reflexivity.
  - cbn [valid_binary] in Hv. unfold bounded, canonical_mantissa in Hv.
    apply andb_prop in Hv. destruct Hv as [Hc He].
    apply Z.eqb_eq in Hc. apply Z.leb_le in He.
    rewrite fexp_fexp64 in Hc. change (emax - prec) with 971 in He.
    replace (xorb s false) with s by now destruct s.
    assert ((e = -1074 /\ Z.pos (digits2_pos m) <= 53) \/
            (Z.pos (digits2_pos m) = 53 /\ -1074 < e)) as [[-> Hd]|[Hd Hlo]]
      by (unfold fexp64 in Hc; lia).
    + rewrite div_core_subnormal by assumption.
      now apply round_aux_canonical.
    + rewrite div_core_normal by assumption.
      now apply round_aux_doubled.
Qed.

Lemma float_div_one (x : float) : (x / 1)%float = x.
Proof.
  apply Prim2SF_inj. rewrite div_spec.
  change (Prim2SF 1) with (S754_finite false 4503599627370496 (-52)).
  apply SFdiv_one, Prim2SF_valid.
Qed.

(** ** Plotting: every series drawn is normalized *)

Section Plots.
Context (fl : collab) (c0 : float) (fs : gmap string string).











End Plots.

Lemma array_div_one (y : list float) : array_div y 1.0 = y.
Proof.
  unfold array_div. induction y as [|x y IH]; [reflexivity | ].
  cbn. now rewrite float_div_one, IH.
Qed.





Section PlotFunctions.
Context (cfg : config) (fl : collab).






End PlotFunctions.

(** ** Plotting: what a successful plot has drawn *)

Lemma bind_Ok_inv {A B} (m : M A) (k : A -> M B) w b w' :
  bind m k w = (Ok b, w') ->
  exists a w1, m w = (Ok a, w1) /\ k a w1 = (Ok b, w').
Proof.
  unfold bind. destruct (m w) as [[a|e] w1]; [eauto | discriminate].
Qed.

Lemma open_file_Ok_inv path w c w1 :
  open_file path w = (Ok c, w1) ->
  files w !! path = Some c
  /\ w1 = World (files w) (figures w) (trace w ++ [ERead path]).
Proof.
  unfold open_file, bind, emit. cbn.
  destruct (files w !! path); [ | discriminate ]. now intros [= <- <-].
Qed.

Lemma lift_Ok_inv {A} (r : result A) w a w1 :
  lift r w = (Ok a, w1) -> r = Ok a /\ w1 = w.
Proof. unfold lift. now intros [= -> ->]. Qed.

Lemma alter_last {A} (f : A -> A) (l : list A) x :
  alter f (length l) (l ++ [x]) = l ++ [f x].
Proof. induction l as [|y l IH]; [reflexivity | ]. cbn. now rewrite IH. Qed.

(** The computation [H] is taken apart at its leading bind. *)
Ltac bind_inv H :=
  let a := fresh "a" in
  let w := fresh "w" in
  let Hm := fresh "Hm" in
  apply bind_Ok_inv in H as (a & w & Hm & H);
  first
    [ apply open_file_Ok_inv in Hm as (Hm & ->)
    | apply lift_Ok_inv in Hm as (Hm & ->)
    | (injection Hm as <- <-) ].

Lemma ax_call_Ok_inv ax c w u w1 :
  ax_call ax c w = (Ok u, w1) ->
  w1 = World (files w)
         (alter (fun f => Figure (fig_specs f) (fig_kw f) (fig_axes f ++ [c]))
                ax (figures w))
         (trace w).
Proof. unfold ax_call. now intros [= <-]. Qed.

(** A call on the axes of the figure made last. *)
Ltac ax_inv H :=
  let w := fresh "w" in
  let Hm := fresh "Hm" in
  apply bind_Ok_inv in H as ([] & w & Hm & H);
  apply ax_call_Ok_inv in Hm as ->;
  cbn [files figures trace] in H;
  rewrite alter_last in H;
  cbn [fig_specs fig_kw fig_axes app] in H.

Lemma p01_plot_results_drawn cfg fl mt sim idx w w' :
  plotModel cfg = true ->
  P01.plot_results cfg fl mt sim idx None w = (Ok tt, w') ->
  exists c_mt c_mf gwt path_mf y_mt y_mf letter,
    files w !! path_join (arg_str "model_ws" (mt_args mt)) ["MT3D001.UCN"] = Some c_mt
    /\ profile (ucn_alldata fl c_mt) = Ok y_mt
    /\ py_index (sim_models sim) 1 = Ok gwt
    /\ P01.concentration_file (arg_str "sim_ws" (sim_args sim)) gwt = Ok path_mf
    /\ files w !! path_mf = Some c_mf
    /\ profile (ucn_alldata fl c_mf) = Ok y_mf
    /\ py_chr (64 + idx + 1) = Ok letter
    /\ figures w' =
       figures w ++
       [ Figure [("figure_type", PyStr "graph"); ("verbose", PyBool false)]
           [ ("nrows", PyInt 1); ("ncols", PyInt 1); ("figsize", P01.figure_size);
             ("dpi", PyInt 300); ("tight_layout", PyBool true) ]
           [ AxPlot (linspace (float_of_Z 0) P01.l (Z.to_nat P01.ncol))
                    (array_div y_mt P01.c0) None
                    [ ("color", PyStr "k"); ("label", PyStr "MT3DMS");
                      ("linewidth", PyFloat 0.5) ];
             AxPlot (linspace (float_of_Z 0) P01.l (Z.to_nat P01.ncol))
                    (array_div y_mf P01.c0) (Some "^")
                    [ ("markeredgewidth", PyFloat 0.5); ("color", PyStr "blue");
                      ("fillstyle", PyStr "none"); ("label", PyStr "MF6");
                      ("markersize", PyInt 3) ];
             AxSetYlim (PyInt 0) (PyFloat 1.2);
             AxSetXlim (PyInt 0) (PyInt 1000);
             AxSetXlabel "Distance, in m";
             AxSetYlabel "Concentration";
             AxLegend;
             AxHeading letter "Concentration Profile at Time = 2,000 days" ] ].
Proof.
  intros Hp H. unfold P01.plot_results in H. rewrite Hp in H. cbv zeta in H.
  set (x := linspace _ _ _) in *.
  do 4 bind_inv H.
  apply bind_Ok_inv in H as ([fig ax] & w1 & Hfig & H).
  apply bind_Ok_inv in Hfig as (f & w2 & Hsub & Hret).
  unfold subplots in Hsub. injection Hsub as <- <-.
  unfold ret in Hret. injection Hret as <- <- <-.
  bind_inv H. ax_inv H. bind_inv H. do 6 ax_inv H. bind_inv H. ax_inv H.
  eexists _, _, _, _, _, _, _.
  repeat (split; [eassumption | ]).
  unfold P01.c0. rewrite !array_div_one.
  destruct (plotSave cfg).
  - unfold savefig in H. cbn [files figures trace] in H.
    rewrite lookup_app_r, Nat.sub_diag in H by reflexivity.
    cbn [lookup list_lookup] in H. unfold emit in H.
    injection H as <-. reflexivity.
  - injection H as <-. reflexivity.
Qed.




(** ** The first scenario, end to end *)

(** C8.  For the first scenario of problem 1 (dispersivity 0,
    retardation 1, decay 0) [build_model] selects no sorption, no decay
    and no dispersion package; the three discretizations have 1 layer, 1
    row and 101 columns; the constant head package has exactly two
    cells, the first and the last column, and [ibound] marks those two
    cells and no other; the single stress period lasts 2000 days and
    MODFLOW 6 saves the concentration of its last step.  [write_model]
    writes these three descriptions.  A plot that completes holds one
    figure with the MT3DMS profile and the MODFLOW 6 profile over the
    same 101 abscissae from 0 to 1000, headed "Concentration Profile at
    Time = 2,000 days". *)
Theorem p01a_grid_boundaries_and_plot cfg fl :
  buildModel cfg = true ->
  exists mf mt sim,
    dict_get "ex-gwt-mt3dms-p01a" P01.parameters = Some (P01.Params 0.0 1.0 0.0)
    /\ P01.build_model cfg fl "ex-gwt-mt3dms-p01a" 0.0 1.0 0.0 0 false
       = Ok (Some (mf, mt, sim))
    (* no sorption, no decay, no dispersion *)
    /\ (rct_arg "isothm" mt = Some (PyFloat 0.0)
        /\ rct_arg "ireact" mt = Some (PyFloat 0.0)
        /\ mst_arg "sorption" sim = Some PyNone
        /\ mst_arg "first_order_decay" sim = Some (PyBool false)
        /\ model_arg 1 "ModflowGwtdsp" "alh" sim = None)
    (* the grid *)
    /\ (grid (fun k => pkg_kwarg "ModflowDis" k (mf_packages mf))
          = (Some (PyInt 1), Some (PyInt 1), Some (PyInt 101))
        /\ grid (fun k => model_arg 0 "ModflowGwfdis" k sim)
           = (Some (PyInt 1), Some (PyInt 1), Some (PyInt 101))
        /\ grid (fun k => model_arg 1 "ModflowGwtdis" k sim)
           = (Some (PyInt 1), Some (PyInt 1), Some (PyInt 101)))
    (* one constant head cell at each end *)
    /\ (model_arg 0 "ModflowGwfchd" "stress_period_data" sim
        = Some (PyList [ PyList [PyTuple [PyInt 0; PyInt 0; PyInt 0]; PyFloat 60.0];
                         PyList [PyTuple [PyInt 0; PyInt 0; PyInt 100]; PyFloat 0.0] ])
        /\ model_arg 0 "ModflowGwfchd" "maxbound" sim = Some (PyInt 2)
        /\ pkg_kwarg "ModflowBas" "ibound" (mf_packages mf)
           = Some (PyIntArray [[ [-1] ++ replicate 99 1 ++ [-1] ]]))
    (* the simulated time *)
    /\ (pkg_kwarg "ModflowTdis" "nper" (sim_packages sim) = Some (PyInt 1)
        /\ pkg_kwarg "ModflowTdis" "perioddata" (sim_packages sim)
           = Some (PyList [PyTuple [PyInt 2000; PyFloat 100.0; PyFloat 1.0]])
        /\ pkg_kwarg "ModflowDis" "perlen" (mf_packages mf) = Some (PyInt 2000)
        /\ model_arg 1 "ModflowGwtoc" "saverecord" sim
           = Some (PyList [ PyTuple [PyStr "CONCENTRATION"; PyStr "LAST"];
                            PyTuple [PyStr "BUDGET"; PyStr "LAST"] ]))
    (* written *)
    /\ (forall silent w,
          writeModel cfg = true ->
          exists w1,
            P01.write_model cfg fl mf mt sim silent w = (Ok tt, w1)
            /\ trace w1 = trace w ++ [ EWrite (TModflow mf); EWrite (TMt3dms mt);
                                       EWrite (TSimulation sim) ]
            /\ files w1 = store (write_input_modflow fl mf ++ write_input_mt3dms fl mt
                                 ++ write_simulation fl sim silent) (files w))
    (* plotted *)
    /\ (forall w w',
          plotModel cfg = true ->
          P01.plot_results cfg fl mt sim 0 None w = (Ok tt, w') ->
          exists c_mt c_mf y_mt y_mf x,
            files w !! path_join (path_join (base_ws cfg) ["ex-gwt-mt3dms-p01a"; "mt3d"])
                         ["MT3D001.UCN"] = Some c_mt
            /\ profile (ucn_alldata fl c_mt) = Ok y_mt
            /\ files w !! path_join (path_join (base_ws cfg) ["ex-gwt-mt3dms-p01a"])
                            ["gwt-p01-mf6.ucn"] = Some c_mf
            /\ profile (ucn_alldata fl c_mf) = Ok y_mf
            /\ length x = 101%nat /\ head x = Some 0.0%float
            /\ last x = Some 1000.0%float
            /\ exists f,
                 figures w' = figures w ++ [f]
                 /\ fig_axes f =
                    [ AxPlot x y_mt None
                        [ ("color", PyStr "k"); ("label", PyStr "MT3DMS");
                          ("linewidth", PyFloat 0.5) ];
                      AxPlot x y_mf (Some "^")
                        [ ("markeredgewidth", PyFloat 0.5); ("color", PyStr "blue");
                          ("fillstyle", PyStr "none"); ("label", PyStr "MF6");
                          ("markersize", PyInt 3) ];
                      AxSetYlim (PyInt 0) (PyFloat 1.2);
                      AxSetXlim (PyInt 0) (PyInt 1000);
                      AxSetXlabel "Distance, in m";
                      AxSetYlabel "Concentration";
                      AxLegend;
                      AxHeading "A" "Concentration Profile at Time = 2,000 days" ]).
Proof.
  intros Hb.
  pose proof (build_model_cases cfg fl "ex-gwt-mt3dms-p01a" 0.0 1.0 0.0 0 false)
    as Hbuild.
  rewrite Hb in Hbuild. cbn [P01.select_scheme Z.eqb] in Hbuild.
  eexists _, _, _. split; [reflexivity | ]. split; [exact Hbuild | ].
  split; [repeat split; vm_compute; reflexivity | ].
  split; [repeat split; vm_compute; reflexivity | ].
  split; [repeat split; vm_compute; reflexivity | ].
  split; [repeat split; vm_compute; reflexivity | ].
  split.
  { intros silent w Hw. eexists. rewrite p01_write_model_outcome, Hw.
    split; [reflexivity | ]. split; [reflexivity | ].
    cbn [files]. now rewrite !store_app. }
  intros w w' Hp H.
  destruct (p01_plot_results_drawn cfg fl _ _ 0 w w' Hp H)
    as (c_mt & c_mf & gwt & path_mf & y_mt & y_mf & letter
        & H1 & H2 & H3 & H4 & H5 & H6 & H7 & H8).
  injection H7 as <-. injection H3 as <-. injection H4 as <-.
  unfold P01.c0 in H8. rewrite !array_div_one in H8.
  exists c_mt, c_mf, y_mt, y_mf, (linspace (float_of_Z 0) P01.l (Z.to_nat P01.ncol)).
  split; [exact H1 | ]. split; [exact H2 | ].
  split; [exact H5 | ]. split; [exact H6 | ].
  split; [vm_compute; reflexivity | ].
  split; [vm_compute; reflexivity | ].
  split; [vm_compute; reflexivity | ].
  eexists. split; [exact H8 | reflexivity].
Qed.

Lemma p01a_grid_boundaries_and_plot_witness :
  buildModel cfg_all = true
  /\ exists mf mt sim,
       P01.build_model cfg_all fl_profiles "ex-gwt-mt3dms-p01a" 0.0 1.0 0.0 0 false
         = Ok (Some (mf, mt, sim))
       /\ grid (fun k => model_arg 0 "ModflowGwfdis" k sim)
          = (Some (PyInt 1), Some (PyInt 1), Some (PyInt 101))
       /\ exists f,
            figures (snd (P01.plot_results cfg_all fl_profiles mt sim 0 None world_p01a))
              = [f]
            /\ length (fig_axes f) = 8%nat.
Proof.
  split; [reflexivity | ].
  destruct (p01a_grid_boundaries_and_plot cfg_all fl_profiles eq_refl)
    as (mf & mt & sim & _ & Hbuild & _ & (_ & Hgrid & _) & _ & _ & _ & Hplot).
  exists mf, mt, sim. split; [exact Hbuild | ]. split; [exact Hgrid | ].
  injection Hbuild as <- <- <-.
  match type of Hplot with
  | forall w w', _ -> ?plot _ = _ -> _ =>
      assert (Hrun : plot world_p01a = (Ok tt, snd (plot world_p01a)))
        by (vm_compute; reflexivity)
  end.
  destruct (Hplot world_p01a _ eq_refl Hrun)
    as (c_mt & c_mf & y_mt & y_mf & x & _ & _ & _ & _ & _ & _ & _ & f & Hf & Hax).
  exists f. split; [exact Hf | ]. now rewrite Hax.
Defined.

(** * Further properties of the scripts *)

(** ** Indexing the parameter table *)

Lemma py_index_out_of_range {A} (xs : list A) i :
  i < - Z.of_nat (length xs) \/ Z.of_nat (length xs) <= i ->
  py_index xs i = Raise IndexError.
Proof.
  intros H. unfold py_index.
  destruct (Z.ltb_spec i (- Z.of_nat (length xs))); [reflexivity | ].
  destruct (Z.leb_spec (Z.of_nat (length xs)) i); [reflexivity | lia].
Qed.

Lemma py_index_Ok {A} (xs : list A) i x :
  py_index xs i = Ok x ->
  - Z.of_nat (length xs) <= i < Z.of_nat (length xs) /\ In x xs.
Proof.
  unfold py_index.
  destruct (Z.ltb_spec i (- Z.of_nat (length xs))); [discriminate | ].
  destruct (Z.leb_spec (Z.of_nat (length xs)) i); [discriminate | ].
  cbn [orb].
  destruct (xs !! wrap_index (length xs) i) as [y|] eqn:E; [ | discriminate ].
  intros [= ->]. split; [lia | ].
  apply list_elem_of_In. eapply list_elem_of_lookup_2. exact E.
Qed.

Lemma py_index_in_range {A} (xs : list A) i :
  - Z.of_nat (length xs) <= i < Z.of_nat (length xs) ->
  exists x, py_index xs i = Ok x.
Proof.
  intros H. unfold py_index.
  destruct (Z.ltb_spec i (- Z.of_nat (length xs))); [lia | ].
  destruct (Z.leb_spec (Z.of_nat (length xs)) i); [lia | ].
  cbn [orb].
  destruct (xs !! wrap_index (length xs) i) as [y|] eqn:E; [eauto | ].
  apply lookup_ge_None in E. unfold wrap_index in E.
  destruct (Z.ltb_spec i 0); lia.
Qed.

(** X1.  [scenario] looks its parameters up by position in the
    parameter table: an index past either end of the table (four
    entries in problem 1, six in problem 2; negative indices count from
    the end) raises [IndexError] before anything is built, written or
    run, and the world is left as it was. *)
Theorem scenario_index_out_of_range cfg fl idx silent w :
  (idx < -4 \/ 4 <= idx ->
     P01.scenario cfg fl idx silent w = (Raise IndexError, w))
  /\ (idx < -6 \/ 6 <= idx ->
        P02.scenario cfg fl idx silent w = (Raise IndexError, w)).
Proof.
  split; intros H.
  - rewrite p01_scenario_steps, py_index_out_of_range; [reflexivity | exact H].
  - rewrite p02_scenario_steps, py_index_out_of_range; [reflexivity | exact H].
Qed.

Lemma scenario_index_out_of_range_witness :
  P01.scenario cfg_all fl_quiet 4 true world0 = (Raise IndexError, world0)
  /\ P02.scenario cfg_all fl_quiet (-7) true world0 = (Raise IndexError, world0).
Proof.
  split.
  - apply (proj1 (scenario_index_out_of_range cfg_all fl_quiet 4 true world0)). lia.
  - apply (proj2 (scenario_index_out_of_range cfg_all fl_quiet (-7) true world0)). lia.
Defined.

(** ** A scenario that was not built *)

(** X2.  With [buildModel] false the two scripts differ.  In problem 1
    [scenario] unpacks the [None] that [build_model] returns and raises
    [TypeError] at once, whatever the other flags.  In problem 2 the
    tuple is unpacked inside the phases: the first enabled phase among
    writing, running and plotting raises the [TypeError]; with all of
    them disabled the scenario returns normally, and only the timing of
    [run_model] was reported. *)
Theorem scenario_without_build cfg fl silent w :
  buildModel cfg = false ->
  (forall idx, -4 <= idx < 4 ->
     P01.scenario cfg fl idx silent w = (Raise unpack_none, w))
  /\ (forall idx, -6 <= idx < 6 ->
        P02.scenario cfg fl idx silent w =
        if writeModel cfg || runModel cfg then (Raise unpack_none, w)
        else if plotModel cfg then
          (Raise unpack_none,
           World (files w) (figures w)
             (trace w ++ [ETimed "run_model";
                          EPrint (PyStr "Plotting C versus t model results...")]))
        else (Ok tt, World (files w) (figures w) (trace w ++ [ETimed "run_model"]))).
Proof.
  intros Hb. split; intros idx Hidx.
  - destruct (py_index_in_range P01.parameters idx) as [[key p] Hk]; [exact Hidx | ].
    rewrite p01_scenario_steps, Hk, build_model_cases, Hb. reflexivity.
  - destruct (py_index_in_range P02.parameters idx) as [[key p] Hk]; [exact Hidx | ].
    rewrite p02_scenario_steps, Hk.
    unfold P02.build_model, P02.write_model, P02.run_model, P02.plot_results_ct,
      timeit, P02.unpack4.
    rewrite Hb.
    destruct (writeModel cfg), (runModel cfg), (plotModel cfg); cbn;
      rewrite <- ?app_assoc; reflexivity.
Qed.

Lemma scenario_without_build_witness :
  P01.scenario cfg_no_build fl_quiet 0 true world0 = (Raise unpack_none, world0)
  /\ P02.scenario cfg_no_build fl_quiet 0 true world0 = (Raise unpack_none, world0).
Proof.
  pose proof (scenario_without_build cfg_no_build fl_quiet true world0 eq_refl)
    as [H1 H2].
  split; [apply H1; lia | apply (H2 0); lia].
Defined.

(** ** The dispersion package of problem 1 *)

(** X3.  Whenever [build_model] of problem 1 builds its descriptions,
    MT3DMS receives a dispersion package with [al = dispersivity], also
    for a zero dispersivity.  The MODFLOW 6 transport model receives a
    dispersion package only when [dispersivity != 0], and then with
    [alh] and [ath1] both equal to the dispersivity and XT3D switched
    off; for a zero dispersivity it has no dispersion package at all. *)
Theorem dispersion_package_by_dispersivity
    cfg fl sim_name disp ret dec mixelm silent mf mt sim :
  P01.build_model cfg fl sim_name disp ret dec mixelm silent = Ok (Some (mf, mt, sim)) ->
  pkg_kwarg "Mt3dDsp" "al" (mt_packages mt) = Some (PyFloat disp)
  /\ (float_ne disp 0 = true ->
        model_arg 1 "ModflowGwtdsp" "alh" sim = Some (PyFloat disp)
        /\ model_arg 1 "ModflowGwtdsp" "ath1" sim = Some (PyFloat disp)
        /\ model_arg 1 "ModflowGwtdsp" "xt3d_off" sim = Some (PyBool true))
  /\ (float_ne disp 0 = false ->
        forall gwt, sim_models sim !! 1%nat = Some gwt ->
                    find_package "ModflowGwtdsp" (mdl_packages gwt) = None).
Proof.
  rewrite build_model_cases.
  destruct (buildModel cfg); [ | discriminate ].
  destruct (P01.select_scheme mixelm) as [scheme|e]; [ | discriminate ].
  intros H. injection H as <- <- <-.
  unfold model_arg, P01.build_sim, P01.build_gwt, P01.build_mt, float_ne, float_eq.
  change (float_of_Z 0) with 0%float.
  destruct (PrimFloat.eqb ret 1), (PrimFloat.eqb disp 0), (PrimFloat.eqb dec 0);
    cbn; repeat split; intros;
    first [ reflexivity | discriminate
          | match goal with H : Some _ = Some _ |- _ => injection H as <- end;
            reflexivity ].
Qed.

Lemma dispersion_package_by_dispersivity_witness :
  (exists mf mt sim,
     P01.build_model cfg_all fl_quiet "ex-gwt-mt3dms-p01b" 10.0 1.0 0.0 0 false
       = Ok (Some (mf, mt, sim))
     /\ model_arg 1 "ModflowGwtdsp" "alh" sim = Some (PyFloat 10.0))
  /\ (exists mf mt sim,
        P01.build_model cfg_all fl_quiet "ex-gwt-mt3dms-p01a" 0.0 1.0 0.0 0 false
          = Ok (Some (mf, mt, sim))
        /\ model_arg 1 "ModflowGwtdsp" "alh" sim = None).
Proof.
  split.
  - eexists _, _, _. split; [reflexivity | ].
    exact (proj1 (proj1 (proj2 (dispersion_package_by_dispersivity cfg_all fl_quiet
             "ex-gwt-mt3dms-p01b" 10.0 1.0 0.0 0 false _ _ _ eq_refl)) eq_refl)).
  - eexists _, _, _. split; [reflexivity | ].
    unfold model_arg, pkg_kwarg. cbn [sim_models P01.build_sim lookup list_lookup].
    now rewrite (proj2 (proj2 (dispersion_package_by_dispersivity cfg_all fl_quiet
                   "ex-gwt-mt3dms-p01a" 0.0 1.0 0.0 0 false _ _ _ eq_refl))
                   eq_refl _ eq_refl).
Defined.

(** ** Plotting on axes of the caller *)

Lemma never_returns_bind {A B} (m : M A) (k : A -> M B) :
  (forall a, never_returns (k a)) -> never_returns (bind m k).
Proof.
  intros Hk w. unfold bind. destruct (m w) as [[a|e] w1]; [apply Hk | eauto].
Qed.

Lemma never_returns_raise {A} e : never_returns (raise e : M A).
Proof. intros w. eauto. Qed.

Lemma open_file_found path w c :
  files w !! path = Some c ->
  open_file path w
  = (Ok c, World (files w) (figures w) (trace w ++ [ERead path])).
Proof. intros H. unfold open_file, bind, emit. cbn. now rewrite H. Qed.

Lemma open_file_missing path w :
  files w !! path = None ->
  open_file path w
  = (Raise (FileNotFoundError path),
     World (files w) (figures w) (trace w ++ [ERead path])).
Proof. intros H. unfold open_file, bind, emit. cbn. now rewrite H. Qed.

Lemma lift_found {A} (r : result A) a w : r = Ok a -> lift r w = (Ok a, w).
Proof. now intros ->. Qed.

Lemma bind_fst {A B} (m : M A) (k : A -> M B) w a w' r :
  m w = (Ok a, w') -> fst (k a w') = r -> fst (bind m k w) = r.
Proof. intros Hm Hk. now rewrite (bind_ok _ _ _ _ _ Hm). Qed.

(** One step of a run whose leading computation succeeds. *)
Ltac run_step :=
  eapply bind_fst;
  [ first [ apply open_file_found; eassumption
          | apply lift_found; eassumption
          | reflexivity ]
  | cbv beta iota; cbn [files figures trace] ].

Lemma traces_bind_ret {A B} P (a : A) (k : A -> M B) :
  traces P (k a) -> traces P (bind (ret a) k).
Proof. intros Hk w. rewrite bind_ret. apply Hk. Qed.

Lemma never_returns_bind_ret {A B} (a : A) (k : A -> M B) :
  never_returns (k a) -> never_returns (bind (ret a) k).
Proof. intros Hk w. rewrite bind_ret. apply Hk. Qed.

(** X4.  [plot_results] of problem 1 makes its own figure only when no
    axes are passed.  Called with axes of the caller while both
    [plotModel] and [plotSave] are set, it never returns normally: when
    both output files are there and everything is drawn, saving finds
    [fig] unbound.  No figure is saved on the way. *)
Theorem plot_results_on_given_axes_cannot_save cfg fl mt sim idx ax :
  plotModel cfg = true -> plotSave cfg = true ->
  never_returns (P01.plot_results cfg fl mt sim idx (Some ax))
  /\ traces (fun e => is_save e = false)
       (P01.plot_results cfg fl mt sim idx (Some ax))
  /\ forall w c_mt gwt path c_mf y_mt y_mf letter,
       files w !! path_join (arg_str "model_ws" (mt_args mt)) ["MT3D001.UCN"]
         = Some c_mt ->
       py_index (sim_models sim) 1 = Ok gwt ->
       P01.concentration_file (arg_str "sim_ws" (sim_args sim)) gwt = Ok path ->
       files w !! path = Some c_mf ->
       profile (ucn_alldata fl c_mt) = Ok y_mt ->
       profile (ucn_alldata fl c_mf) = Ok y_mf ->
       py_chr (64 + idx + 1) = Ok letter ->
       fst (P01.plot_results cfg fl mt sim idx (Some ax) w)
       = Raise (UnboundLocalError "fig").
Proof.
  intros Hp Hs. unfold P01.plot_results. rewrite Hp, Hs. cbv zeta.
  split; [ | split ].
  - do 4 (apply never_returns_bind; intros ?).
    apply never_returns_bind_ret.
    repeat (apply never_returns_bind; intros ?).
    apply never_returns_raise.
  - do 4 (apply traces_bind; [effects | intros ?]).
    apply traces_bind_ret. effects.
  - intros w c_mt gwt path c_mf y_mt y_mf letter H1 H2 H3 H4 H5 H6 H7.
    run_step. run_step. run_step. run_step. run_step.
    run_step. run_step. run_step. run_step.
    do 5 run_step. run_step. run_step. reflexivity.
Qed.

Lemma plot_results_on_given_axes_cannot_save_witness :
  fst (P01.plot_results cfg_all fl_profiles
         (P01.build_mt cfg_all "ex-gwt-mt3dms-p01a"
            (P01.build_mf cfg_all "ex-gwt-mt3dms-p01a") 0.0 1.0 0.0 0)
         (P01.build_sim cfg_all fl_profiles "ex-gwt-mt3dms-p01a"
            (P01.build_gwt 0.0 1.0 0.0 "UPSTREAM"))
         0 (Some 0%nat) world_p01a)
  = Raise (UnboundLocalError "fig").
Proof.
  apply (proj2 (proj2 (plot_results_on_given_axes_cannot_save cfg_all fl_profiles
                         _ _ 0 0%nat eq_refl eq_refl))
           world_p01a "mt3dms" (P01.build_gwt 0.0 1.0 0.0 "UPSTREAM")
           "../examples/ex-gwt-mt3dms-p01a/gwt-p01-mf6.ucn" "mf6"
           [1.0; 0.5]%float [1.0; 0.5]%float "A");
    vm_compute; reflexivity.
Defined.

(** ** What [build_model] of problem 2 hands to the later phases *)

Lemma p02_build_model_built cfg key kw w sims w' :
  P02.build_model cfg key kw w = (Ok (Some sims), w') ->
  exists gwf gwt mf mt t,
    sims = (gwf, gwt, mf, mt)
    /\ w' = World (files w) (figures w) (trace w ++ t)
    /\ Forall (fun e => is_print e = true) t
    /\ P02.obs_file gwt "trans"
       = Ok (path_join (base_ws cfg) [key; "mf6gwt"; "trans.obs.csv"])
    /\ arg_str "sim_ws" (sim_args gwf) = path_join (base_ws cfg) [key; "mf6gwf"]
    /\ arg_str "sim_ws" (sim_args gwt) = path_join (base_ws cfg) [key; "mf6gwt"]
    /\ arg_str "model_ws" (mf_args mf) = path_join (base_ws cfg) [key; "mf2005"]
    /\ arg_str "model_ws" (mt_args mt) = path_join (base_ws cfg) [key; "mt3d"].
Proof.
  unfold P02.build_model. destruct (buildModel cfg); [ | discriminate ].
  unfold P02.build_mt3dms.
  destruct (P02.select_isotherm (P02.Kf kw) (P02.a kw) (P02.Kl kw) (P02.S kw)
              (P02.beta kw)) as [[[isothm sp1] sp2]|]; [ | discriminate ].
  unfold P02.build_mf6gwf, P02.build_mf6gwt, P02.build_mf2005, bind, print, emit, ret.
  cbn [files figures trace]. intros H. injection H as <- <-.
  eexists _, _, _, _, _. split; [reflexivity | ].
  split; [now rewrite <- !app_assoc | ].
  split; [repeat constructor | ].
  split; [ | repeat split; reflexivity ].
  unfold P02.obs_file. cbn [sim_models P02.find_model mdl_args arg_str kwarg].
  destruct (P02.beta kw) as [b|]; [destruct (float_gt b (float_of_Z 0)) | ];
    reflexivity.
Qed.

Lemma p02_table_builds cfg idx key kw w :
  buildModel cfg = true ->
  py_index P02.parameters idx = Ok (key, kw) ->
  exists sims w', P02.build_model cfg key kw w = (Ok (Some sims), w').
Proof.
  intros Hb H. apply py_index_Ok in H as [_ H].
  unfold P02.build_model. rewrite Hb.
  cbn in H. repeat (destruct H as [[= <- <-]|H]; [eexists _, _; reflexivity | ]).
  destruct H.
Qed.

(** ** What [build_model] of problem 1 hands to the later phases *)

Lemma p01_build_mt_args cfg key mf disp ret dec mixelm :
  mt_args (P01.build_mt cfg key mf disp ret dec mixelm)
  = [ ("modelname", PyStr "p01-mt");
      ("model_ws", PyStr (path_join (base_ws cfg) [key; "mt3d"]));
      ("exe_name", PyStr (mt3dms_exe cfg)) ].
Proof.
  unfold P01.build_mt.
  destruct (float_eq ret 1), (float_ne dec (float_of_Z 0)); reflexivity.
Qed.

Lemma p01_build_gwt_concentration_file disp ret dec scheme sim_path :
  P01.concentration_file sim_path (P01.build_gwt disp ret dec scheme)
  = Ok (path_join sim_path ["gwt-p01-mf6.ucn"]).
Proof.
  unfold P01.build_gwt, P01.concentration_file.
  destruct (float_ne ret 1), (float_ne disp (float_of_Z 0)); reflexivity.
Qed.

(** ** Plotting without a run *)

(** X5.  A skipped run counts as a successful one.  With building and
    plotting enabled and writing and running disabled, [run_model]
    returns [True] without running a solver and the scenario goes on to
    plot; when the first output file the plot needs is not there (the
    MT3DMS concentration file in problem 1, the MODFLOW 6 observation
    file in problem 2), the scenario ends with [FileNotFoundError] for
    that file.  Files and figures are as before. *)
Theorem plot_without_run_needs_the_output cfg fl idx silent w :
  buildModel cfg = true -> writeModel cfg = false ->
  runModel cfg = false -> plotModel cfg = true ->
  (forall key p,
     py_index P01.parameters idx = Ok (key, p) ->
     files w !! path_join (base_ws cfg) [key; "mt3d"; "MT3D001.UCN"] = None ->
     fst (P01.scenario cfg fl idx silent w)
       = Raise (FileNotFoundError
                  (path_join (base_ws cfg) [key; "mt3d"; "MT3D001.UCN"]))
     /\ runs_of (trace (snd (P01.scenario cfg fl idx silent w))) = runs_of (trace w)
     /\ files (snd (P01.scenario cfg fl idx silent w)) = files w
     /\ figures (snd (P01.scenario cfg fl idx silent w)) = figures w)
  /\ (forall key p,
        py_index P02.parameters idx = Ok (key, p) ->
        files w !! path_join (base_ws cfg) [key; "mf6gwt"; "trans.obs.csv"] = None ->
        fst (P02.scenario cfg fl idx silent w)
          = Raise (FileNotFoundError
                     (path_join (base_ws cfg) [key; "mf6gwt"; "trans.obs.csv"]))
        /\ runs_of (trace (snd (P02.scenario cfg fl idx silent w))) = runs_of (trace w)
        /\ files (snd (P02.scenario cfg fl idx silent w)) = files w
        /\ figures (snd (P02.scenario cfg fl idx silent w)) = figures w).
Proof.
  intros Hb Hw Hr Hp. split; intros key p Hidx Hfile.
  - assert (exists t,
              P01.scenario cfg fl idx silent w
              = (Raise (FileNotFoundError
                          (path_join (base_ws cfg) [key; "mt3d"; "MT3D001.UCN"])),
                 World (files w) (figures w) (trace w ++ t))
              /\ runs_of t = []) as (t & -> & Ht).
    { eexists. split.
      - rewrite p01_scenario_steps, Hidx, build_model_cases, Hb.
        cbn [P01.select_scheme Z.eqb].
        rewrite p01_write_model_outcome, Hw, p01_run_model_outcome, Hr.
        unfold P01.plot_results. rewrite Hp. cbv zeta.
        rewrite p01_build_mt_args. cbn [arg_str kwarg String.eqb Ascii.eqb Bool.eqb].
        erewrite bind_raise by (apply open_file_missing; exact Hfile).
        cbn [files figures trace]. rewrite <- app_assoc. reflexivity.
      - reflexivity. }
    cbn [fst snd files figures trace]. repeat split.
    unfold runs_of in *. now rewrite omap_app, Ht, app_nil_r.
  - destruct (p02_table_builds cfg idx key p w Hb Hidx) as (sims & w0 & Hbuild).
    destruct (p02_build_model_built _ _ _ _ _ _ Hbuild)
      as (gwf & gwt & mf & mt & t & -> & -> & Ht & Hobs & _).
    assert (exists t',
              P02.scenario cfg fl idx silent w
              = (Raise (FileNotFoundError
                          (path_join (base_ws cfg) [key; "mf6gwt"; "trans.obs.csv"])),
                 World (files w) (figures w) (trace w ++ t ++ t'))
              /\ runs_of t' = []) as (t' & -> & Ht').
    { eexists. split.
      - rewrite p02_scenario_steps, Hidx, Hbuild.
        unfold P02.write_model, P02.run_model, timeit. rewrite Hw, Hr.
        cbn [ret bind emit files figures trace].
        unfold P02.plot_results_ct. rewrite Hp. cbv zeta.
        unfold bind at 1, print, emit. cbn [files figures trace].
        unfold P02.unpack4. rewrite bind_ret, Hobs, bind_lift_ok.
        erewrite bind_raise by (apply open_file_missing; exact Hfile).
        cbn [files figures trace]. rewrite <- !app_assoc. reflexivity.
      - reflexivity. }
    cbn [fst snd files figures trace]. repeat split.
    unfold runs_of in *. rewrite !omap_app, Ht', app_nil_r.
    replace (omap _ t) with (@nil target); [now rewrite app_nil_r | ].
    clear -Ht. induction Ht as [|e t He _ IH]; [reflexivity | ].
    destruct e; try discriminate He; exact IH.
Qed.

Lemma plot_without_run_needs_the_output_witness :
  fst (P01.scenario (cfg_sample true false false true) fl_quiet 0 true world0)
  = Raise (FileNotFoundError "../examples/ex-gwt-mt3dms-p01a/mt3d/MT3D001.UCN")
  /\ fst (P02.scenario (cfg_sample true false false true) fl_quiet 0 true world0)
     = Raise (FileNotFoundError
                "../examples/ex-gwt-mt3dms-p02a/mf6gwt/trans.obs.csv").
Proof.
  pose proof (plot_without_run_needs_the_output
                (cfg_sample true false false true) fl_quiet 0 true world0
                eq_refl eq_refl eq_refl eq_refl) as [H1 H2].
  split.
  - exact (proj1 (H1 _ _ eq_refl eq_refl)).
  - exact (proj1 (H2 _ _ eq_refl eq_refl)).
Defined.

(** ** The solver runs of [run_model] and of the script *)

Lemma runs_of_app t1 t2 : runs_of (t1 ++ t2) = runs_of t1 ++ runs_of t2.
Proof. apply omap_app. Qed.
Lemma reads_of_app t1 t2 : reads_of (t1 ++ t2) = reads_of t1 ++ reads_of t2.
Proof. apply omap_app. Qed.
Lemma saves_of_app t1 t2 : saves_of (t1 ++ t2) = saves_of t1 ++ saves_of t2.
Proof. apply omap_app. Qed.

Lemma prints_run_nothing t :
  Forall (fun e => is_print e = true) t ->
  runs_of t = [] /\ reads_of t = [] /\ saves_of t = [].
Proof.
  induction 1 as [|e t He _ IH]; [now repeat split | ].
  destruct e; try discriminate He. exact IH.
Qed.

Lemma p02_run_model_runs cfg fl gwf gwt mf mt silent w :
  runModel cfg = true ->
  exists success w' t,
    P02.run_model cfg fl (Some (gwf, gwt, mf, mt)) silent w = (Ok success, w')
    /\ figures w' = figures w
    /\ trace w' = trace w ++ t
    /\ runs_of t = [TSimulation gwf; TSimulation gwt; TModflow mf; TMt3dms mt]
    /\ reads_of t = [] /\ saves_of t = []
    /\ exists o fs, success = (run_mt3dms fl mt o fs).1.1.
Proof.
  intros Hr.
  unfold P02.run_model, timeit, P02.unpack4. rewrite Hr. cbv zeta.
  unfold bind, run_solver, when, print, emit, ret. cbn [files figures trace].
  destruct (run_simulation fl gwf _ (files w)) as [[[|] b1] f1];
    cbn [negb files figures trace];
    (destruct (run_simulation fl gwt _ f1) as [[[|] b2] f2]);
    cbn [negb files figures trace];
    (destruct (run_modflow fl mf _ f2) as [[[|] b3] f3]);
    cbn [negb files figures trace];
    (destruct (run_mt3dms fl mt _ f3) as [[s4 b4] f4] eqn:E4);
    (assert (exists o fs, s4 = (run_mt3dms fl mt o fs).1.1) as Hs4
       by (eexists _, _; rewrite E4; reflexivity));
    clear E4; destruct s4;
    cbn [negb files figures trace];
    eexists _, _, _;
    (split; [reflexivity | ]); (split; [reflexivity | ]);
    (split; [cbn [trace]; rewrite <- !app_assoc; reflexivity | ]);
    repeat split; first [ reflexivity | exact Hs4 ].
Qed.

(** X9.  With [runModel] set, [run_model] runs every solver of the
    scenario exactly once and in a fixed order (MODFLOW-2005, MT3DMS,
    MODFLOW 6 in problem 1; the two MODFLOW 6 simulations, MODFLOW-2005,
    MT3DMS in problem 2), whatever the outcome of the earlier runs: a
    failed run stops nothing.  It never raises, opens no output file,
    saves no figure and leaves pyplot's figures alone. *)
Theorem run_model_runs_every_solver cfg fl silent w :
  runModel cfg = true ->
  (forall mf mt sim, exists success w' t,
     P01.run_model cfg fl mf mt sim silent w = (Ok success, w')
     /\ figures w' = figures w
     /\ trace w' = trace w ++ t
     /\ runs_of t = [TModflow mf; TMt3dms mt; TSimulation sim]
     /\ reads_of t = [] /\ saves_of t = [])
  /\ (forall gwf gwt mf mt, exists success w' t,
        P02.run_model cfg fl (Some (gwf, gwt, mf, mt)) silent w = (Ok success, w')
        /\ figures w' = figures w
        /\ trace w' = trace w ++ t
        /\ runs_of t = [TSimulation gwf; TSimulation gwt; TModflow mf; TMt3dms mt]
        /\ reads_of t = [] /\ saves_of t = []).
Proof.
  intros Hr. split.
  - intros mf mt sim. rewrite p01_run_model_outcome, Hr. cbv zeta.
    destruct (run_modflow fl mf _ (files w)) as [[s1 b1] f1].
    destruct (run_mt3dms fl mt _ f1) as [[s2 b2] f2].
    destruct (run_simulation fl sim _ f2) as [[[|] b3] f3];
      eexists _, _, _; repeat split; reflexivity.
  - intros gwf gwt mf mt.
    destruct (p02_run_model_runs cfg fl gwf gwt mf mt silent w Hr)
      as (success & w' & t & H1 & H2 & H3 & H4 & H5 & H6 & _).
    exists success, w', t. repeat split; assumption.
Qed.

Lemma run_model_runs_every_solver_witness :
  exists success w' t,
    P01.run_model cfg_all fl_mf2005_fails
      (P01.build_mf cfg_all "s") (P01.build_mt cfg_all "s" (P01.build_mf cfg_all "s")
                                    0.0 1.0 0.0 0)
      (P01.build_sim cfg_all fl_mf2005_fails "s" (P01.build_gwt 0.0 1.0 0.0 "UPSTREAM"))
      true world0 = (Ok success, w')
    /\ trace w' = trace world0 ++ t
    /\ length (runs_of t) = 3%nat.
Proof.
  destruct (proj1 (run_model_runs_every_solver cfg_all fl_mf2005_fails true world0
                     eq_refl)
              (P01.build_mf cfg_all "s")
              (P01.build_mt cfg_all "s" (P01.build_mf cfg_all "s") 0.0 1.0 0.0 0)
              (P01.build_sim cfg_all fl_mf2005_fails "s"
                 (P01.build_gwt 0.0 1.0 0.0 "UPSTREAM")))
    as (success & w' & t & H1 & _ & H2 & H3 & _).
  exists success, w', t. split; [exact H1 | ]. split; [exact H2 | ].
  now rewrite H3.
Defined.

(** ** The script as a whole *)

Lemma p01_scenario_failed_run cfg fl idx silent w :
  buildModel cfg = true -> runModel cfg = true ->
  (forall sim o fs, (run_simulation fl sim o fs).1.1 = false) ->
  -4 <= idx < 4 ->
  exists w' t,
    P01.scenario cfg fl idx silent w = (Ok tt, w')
    /\ figures w' = figures w
    /\ trace w' = trace w ++ t
    /\ length (runs_of t) = 3%nat
    /\ reads_of t = [] /\ saves_of t = [].
Proof.
  intros Hb Hr Hfail Hidx.
  destruct (py_index_in_range P01.parameters idx) as [[key p] Hk]; [exact Hidx | ].
  rewrite p01_scenario_steps, Hk, build_model_cases, Hb.
  cbn [P01.select_scheme Z.eqb].
  rewrite p01_write_model_outcome, p01_run_model_outcome, Hr. cbv zeta.
  set (w1 := if writeModel cfg then _ else w).
  assert (exists tw, trace w1 = trace w ++ tw /\ figures w1 = figures w
                     /\ runs_of tw = [] /\ reads_of tw = [] /\ saves_of tw = [])
    as (tw & Etw & Fw & Rw & Dw & Sw).
  { subst w1. destruct (writeModel cfg).
    - eexists. repeat split; reflexivity.
    - exists []. rewrite app_nil_r. repeat split; reflexivity. }
  destruct (run_modflow fl _ _ (files w1)) as [[s1 b1] f1].
  destruct (run_mt3dms fl _ _ f1) as [[s2 b2] f2].
  match goal with
  | |- context [run_simulation fl ?sim ?o f2] =>
      pose proof (Hfail sim o f2) as Hs;
      destruct (run_simulation fl sim o f2) as [[s3 b3] f3]
  end.
  cbn in Hs. subst s3.
  eexists _, _. split; [reflexivity | ]. cbn [figures trace].
  split; [exact Fw | ]. rewrite Etw, <- app_assoc.
  split; [reflexivity | ].
  rewrite runs_of_app, reads_of_app, saves_of_app, Rw, Dw, Sw.
  repeat split; reflexivity.
Qed.

(** X10.  The body of the script of problem 1 runs the four scenarios
    one after the other, and a failed solver run stops none of them:
    when building and running are enabled and every MODFLOW 6 run
    fails, the script still ends normally after twelve solver runs,
    three per scenario; no output file was opened, no figure made or
    saved. *)
Theorem p01_main_survives_failed_runs cfg fl w :
  buildModel cfg = true -> runModel cfg = true ->
  (forall sim o fs, (run_simulation fl sim o fs).1.1 = false) ->
  exists w' t,
    P01.main cfg fl w = (Ok tt, w')
    /\ figures w' = figures w
    /\ trace w' = trace w ++ t
    /\ length (runs_of t) = 12%nat
    /\ reads_of t = [] /\ saves_of t = [].
Proof.
  intros Hb Hr Hfail. unfold P01.main.
  destruct (p01_scenario_failed_run cfg fl 0 true w Hb Hr Hfail)
    as (w1 & t1 & E1 & F1 & T1 & R1 & D1 & S1); [lia | ].
  destruct (p01_scenario_failed_run cfg fl 1 true w1 Hb Hr Hfail)
    as (w2 & t2 & E2 & F2 & T2 & R2 & D2 & S2); [lia | ].
  destruct (p01_scenario_failed_run cfg fl 2 true w2 Hb Hr Hfail)
    as (w3 & t3 & E3 & F3 & T3 & R3 & D3 & S3); [lia | ].
  destruct (p01_scenario_failed_run cfg fl 3 true w3 Hb Hr Hfail)
    as (w4 & t4 & E4 & F4 & T4 & R4 & D4 & S4); [lia | ].
  exists w4, (t1 ++ t2 ++ t3 ++ t4).
  rewrite (bind_ok _ _ _ _ _ E1), (bind_ok _ _ _ _ _ E2), (bind_ok _ _ _ _ _ E3).
  split; [exact E4 | ].
  split; [congruence | ].
  split; [rewrite T4, T3, T2, T1, <- !app_assoc; reflexivity | ].
  rewrite !runs_of_app, !reads_of_app, !saves_of_app, !length_app,
    R1, R2, R3, R4, D1, D2, D3, D4, S1, S2, S3, S4.
  repeat split; reflexivity.
Qed.

Lemma p01_main_survives_failed_runs_witness :
  exists w' t,
    P01.main cfg_all fl_mf6_fails world0 = (Ok tt, w')
    /\ figures w' = []
    /\ trace w' = t
    /\ length (runs_of t) = 12%nat.
Proof.
  destruct (p01_main_survives_failed_runs cfg_all fl_mf6_fails world0
              eq_refl eq_refl (fun _ _ _ => eq_refl))
    as (w' & t & H1 & H2 & H3 & H4 & _).
  exists w', t. repeat split; assumption.
Defined.

Lemma p02_scenario_failed_run cfg fl idx silent w :
  buildModel cfg = true -> runModel cfg = true ->
  (forall mt o fs, (run_mt3dms fl mt o fs).1.1 = false) ->
  -6 <= idx < 6 ->
  exists w' t,
    P02.scenario cfg fl idx silent w = (Ok tt, w')
    /\ figures w' = figures w
    /\ trace w' = trace w ++ t
    /\ length (runs_of t) = 4%nat
    /\ reads_of t = [] /\ saves_of t = [].
Proof.
  intros Hb Hr Hfail Hidx.
  destruct (py_index_in_range P02.parameters idx) as [[key p] Hk]; [exact Hidx | ].
  destruct (p02_table_builds cfg idx key p w Hb Hk) as (sims & w0 & Hbuild).
  destruct (p02_build_model_built _ _ _ _ _ _ Hbuild)
    as (gwf & gwt & mf & mt & t0 & -> & -> & Ht0 & _).
  apply prints_run_nothing in Ht0 as (R0 & D0 & S0).
  rewrite p02_scenario_steps, Hk, Hbuild. cbv beta iota.
  assert (exists w1 tw,
            P02.write_model cfg fl (Some (gwf, gwt, mf, mt)) silent
              (World (files w) (figures w) (trace w ++ t0)) = (Ok tt, w1)
            /\ figures w1 = figures w /\ trace w1 = (trace w ++ t0) ++ tw
            /\ runs_of tw = [] /\ reads_of tw = [] /\ saves_of tw = [])
    as (w1 & tw & Ew & Fw & Tw & Rw & Dw & Sw).
  { unfold P02.write_model, P02.unpack4. destruct (writeModel cfg).
    - unfold bind, ret, write_files. cbn [files figures trace].
      eexists _, _. split; [reflexivity | ]. split; [reflexivity | ].
      split; [cbn [trace]; rewrite <- !app_assoc; reflexivity | ].
      repeat split; reflexivity.
    - eexists _, []. split; [reflexivity | ]. rewrite app_nil_r.
      repeat split; reflexivity. }
  match goal with
  | |- context [P02.write_model ?c ?f ?s ?b ?w0] =>
      change (P02.write_model c f s b w0) with
        (P02.write_model cfg fl (Some (gwf, gwt, mf, mt)) silent
           (World (files w) (figures w) (trace w ++ t0)))
  end.
  rewrite Ew.
  destruct (p02_run_model_runs cfg fl gwf gwt mf mt silent w1 Hr)
    as (success & w2 & tr & Er & Fr & Tr & Rr & Dr & Sr & o & fs & Es).
  rewrite Hfail in Es. subst success.
  match goal with
  | |- context [P02.run_model ?c ?f ?s ?b ?w0] =>
      change (P02.run_model c f s b w0) with
        (P02.run_model cfg fl (Some (gwf, gwt, mf, mt)) silent w1)
  end.
  rewrite Er.
  exists w2, (t0 ++ tw ++ tr). split; [reflexivity | ].
  split; [congruence | ].
  split; [rewrite Tr, Tw, <- !app_assoc; reflexivity | ].
  rewrite !runs_of_app, !reads_of_app, !saves_of_app, R0, D0, S0, Rw, Dw, Sw,
    Rr, Dr, Sr.
  repeat split; reflexivity.
Qed.

(** X11.  The body of the script of problem 2 runs the six scenarios
    and then the plot of all results, and that last plot is not gated
    by the outcome of any run: when building and running are enabled
    and every MT3DMS run fails, none of the scenarios is plotted, and
    after twenty-four solver runs, four per scenario, the script still
    enters [plot_results], on a world in which no output file was
    opened and no figure made or saved. *)
Theorem p02_main_plots_after_failed_runs cfg fl w :
  buildModel cfg = true -> runModel cfg = true ->
  (forall mt o fs, (run_mt3dms fl mt o fs).1.1 = false) ->
  exists w' t,
    P02.main cfg fl w = P02.plot_results cfg fl w'
    /\ figures w' = figures w
    /\ trace w' = trace w ++ t
    /\ length (runs_of t) = 24%nat
    /\ reads_of t = [] /\ saves_of t = [].
Proof.
  intros Hb Hr Hfail. unfold P02.main.
  destruct (p02_scenario_failed_run cfg fl 0 true w Hb Hr Hfail)
    as (w1 & t1 & E1 & F1 & T1 & R1 & D1 & S1); [lia | ].
  destruct (p02_scenario_failed_run cfg fl 1 true w1 Hb Hr Hfail)
    as (w2 & t2 & E2 & F2 & T2 & R2 & D2 & S2); [lia | ].
  destruct (p02_scenario_failed_run cfg fl 2 true w2 Hb Hr Hfail)
    as (w3 & t3 & E3 & F3 & T3 & R3 & D3 & S3); [lia | ].
  destruct (p02_scenario_failed_run cfg fl 3 true w3 Hb Hr Hfail)
    as (w4 & t4 & E4 & F4 & T4 & R4 & D4 & S4); [lia | ].
  destruct (p02_scenario_failed_run cfg fl 4 true w4 Hb Hr Hfail)
    as (w5 & t5 & E5 & F5 & T5 & R5 & D5 & S5); [lia | ].
  destruct (p02_scenario_failed_run cfg fl 5 true w5 Hb Hr Hfail)
    as (w6 & t6 & E6 & F6 & T6 & R6 & D6 & S6); [lia | ].
  exists w6, (t1 ++ t2 ++ t3 ++ t4 ++ t5 ++ t6).
  rewrite (bind_ok _ _ _ _ _ E1), (bind_ok _ _ _ _ _ E2), (bind_ok _ _ _ _ _ E3),
    (bind_ok _ _ _ _ _ E4), (bind_ok _ _ _ _ _ E5), (bind_ok _ _ _ _ _ E6).
  split; [reflexivity | ].
  split; [congruence | ].
  split; [rewrite T6, T5, T4, T3, T2, T1, <- !app_assoc; reflexivity | ].
  rewrite !runs_of_app, !reads_of_app, !saves_of_app, !length_app,
    R1, R2, R3, R4, R5, R6, D1, D2, D3, D4, D5, D6, S1, S2, S3, S4, S5, S6.
  repeat split; reflexivity.
Qed.

Lemma p02_main_plots_after_failed_runs_witness :
  exists w' t,
    P02.main cfg_all fl_mt3dms_fails world0 = P02.plot_results cfg_all fl_mt3dms_fails w'
    /\ trace w' = t
    /\ length (runs_of t) = 24%nat
    /\ reads_of t = [].
Proof.
  destruct (p02_main_plots_after_failed_runs cfg_all fl_mt3dms_fails world0
              eq_refl eq_refl (fun _ _ _ => eq_refl))
    as (w' & t & H1 & _ & H3 & H4 & H5 & _).
  exists w', t. repeat split; assumption.
Defined.

(** ** Paths *)

Lemma append_cons c s t : String c s +:+ t = String c (s +:+ t).
Proof. reflexivity. Qed.

Lemma append_nil_r s : s +:+ "" = s.
Proof.
  induction s as [|c s IH]; [reflexivity | ].
  rewrite append_cons. f_equal. exact IH.
Qed.

Lemma append_assoc s1 s2 s3 : (s1 +:+ s2) +:+ s3 = s1 +:+ (s2 +:+ s3).
Proof.
  induction s1 as [|c s1 IH]; [reflexivity | ].
  rewrite !append_cons. f_equal. exact IH.
Qed.

Lemma no_sep_split_last s : no_sep s = true -> split_last s = None.
Proof.
  induction s as [|c s IH]; [reflexivity | ]. cbn.
  destruct (Ascii.eqb c "/"); [discriminate | ]. cbn. intros H.
  now rewrite (IH H).
Qed.

Lemma no_sep_startswith s : no_sep s = true -> startswith_sep s = false.
Proof.
  destruct s as [|c s]; [reflexivity | ]. cbn.
  destruct (Ascii.eqb_spec c "/") as [->|Hc]; [discriminate | ].
  intros _. destruct c as [[] [] [] [] [] [] [] []]; try reflexivity.
  now destruct Hc.
Qed.

Lemma no_sep_endswith s : no_sep s = true -> endswith_sep s = false.
Proof.
  induction s as [|c s IH]; [reflexivity | ]. cbn.
  destruct (Ascii.eqb c "/"); [discriminate | ]. cbn. intros H.
  destruct s; [reflexivity | ]. now apply IH.
Qed.

Lemma split_last_append h t :
  no_sep t = true -> split_last (h +:+ "/" +:+ t) = Some (h, t).
Proof.
  intros Ht. induction h as [|c h IH].
  - change ("" +:+ "/" +:+ t) with (String "/" t). cbn [split_last].
    now rewrite (no_sep_split_last t Ht).
  - rewrite append_cons. cbn [split_last]. now rewrite IH.
Qed.

Lemma endswith_sep_append a c k :
  endswith_sep (a +:+ String c k) = endswith_sep (String c k).
Proof.
  induction a as [|d a IH]; [reflexivity | ].
  rewrite append_cons. cbn [endswith_sep].
  destruct (a +:+ String c k) eqn:E; [ | exact IH ].
  destruct a; discriminate E.
Qed.

Lemma endswith_sep_split s :
  endswith_sep s = true -> exists h, s = h +:+ "/".
Proof.
  induction s as [|c s IH]; [discriminate | ].
  destruct s as [|d s].
  - cbn. destruct (Ascii.eqb_spec c "/") as [->|]; [ | discriminate ].
    now exists "".
  - intros H. destruct (IH H) as [h ->]. now exists (String c h).
Qed.

(** Where [os.path.join] puts the next component. *)
Lemma join2_append p s :
  startswith_sep s = false ->
  exists pre, join2 p s = pre +:+ s
              /\ (pre = "" \/ exists h, pre = h +:+ "/")
              /\ (pre = p \/ pre = p +:+ "/").
Proof.
  intros Hs. unfold join2. rewrite Hs.
  destruct (String.eqb_spec p "") as [->|Hp].
  - exists "". auto.
  - cbn [orb]. destruct (endswith_sep p) eqn:E.
    + exists p. split; [reflexivity | ]. split; [ | now left].
      right. now apply endswith_sep_split.
    + exists (p +:+ "/"). split; [now rewrite append_assoc | ].
      split; [right; now exists p | now right].
Qed.

(** The last component of a joined path is the component joined. *)
Lemma path_basename_join2 p s :
  no_sep s = true -> path_basename (join2 p s) = s.
Proof.
  intros Hs.
  destruct (join2_append p s (no_sep_startswith s Hs))
    as (pre & -> & [->|[h ->]] & _); unfold path_basename, path_split.
  - change ("" +:+ s) with s. now rewrite (no_sep_split_last s Hs).
  - rewrite append_assoc. now rewrite (split_last_append h s Hs).
Qed.

Lemma all_sep_endswith s : all_sep s = true -> s <> "" -> endswith_sep s = true.
Proof.
  induction s as [|c s IH]; [congruence | ]. cbn [all_sep].
  intros [Hc Hs]%andb_prop _. destruct s as [|d s]; [exact Hc | ].
  cbn [endswith_sep]. now apply IH.
Qed.

Lemma all_sep_append s1 s2 : all_sep (s1 +:+ s2) = all_sep s1 && all_sep s2.
Proof.
  induction s1 as [|c s1 IH]; [reflexivity | ].
  rewrite append_cons. cbn [all_sep]. now rewrite IH, andb_assoc.
Qed.

Lemma rstrip_sep_append p :
  endswith_sep p = false -> rstrip_sep (p +:+ "/") = p.
Proof.
  induction p as [|c p IH]; [reflexivity | ].
  intros Hp. rewrite append_cons. cbn [rstrip_sep].
  destruct (all_sep (String c (p +:+ "/"))) eqn:E.
  - exfalso. rewrite <- append_cons, all_sep_append in E. apply andb_prop in E as [E _].
    apply all_sep_endswith in E; congruence.
  - f_equal. destruct p as [|d p]; [reflexivity | ]. now apply IH.
Qed.

(** Splitting a path [p/s] gives back [p] and [s], when [p] is not
    empty and does not end in a separator. *)
Lemma path_split_join2 p s :
  no_sep s = true -> p <> "" -> endswith_sep p = false ->
  path_split (join2 p s) = (p, s).
Proof.
  intros Hs Hp Ep. unfold join2.
  rewrite (no_sep_startswith s Hs), Ep.
  destruct (String.eqb_spec p ""); [contradiction | ]. cbn [orb].
  unfold path_split. rewrite (split_last_append p s Hs).
  destruct (all_sep (p +:+ "/")) eqn:E.
  - rewrite all_sep_append in E. apply andb_prop in E as [E _].
    apply all_sep_endswith in E; congruence.
  - now rewrite rstrip_sep_append.
Qed.

Lemma join2_component p s :
  no_sep s = true -> s <> "" ->
  join2 p s <> "" /\ endswith_sep (join2 p s) = false.
Proof.
  intros Hs Hne.
  destruct (join2_append p s (no_sep_startswith s Hs)) as (pre & -> & _).
  destruct s as [|c s]; [contradiction | ]. split.
  - destruct pre; discriminate.
  - rewrite endswith_sep_append. now apply no_sep_endswith.
Qed.

(** X12.  The name of the figure of a scenario of problem 2 is
    recovered from the workspace of its MT3DMS model: for a scenario
    name that is a single path component (not empty, no separator), the
    folder above the MT3DMS workspace is named as the scenario, and
    every figure [plot_results_ct] saves for the descriptions built
    under that name goes to [<ws>/../figures/<name>-ct<ext>]. *)
Theorem p02_figure_named_after_scenario cfg fl key kw w0 sims w1 idx :
  no_sep key = true -> key <> "" ->
  P02.build_model cfg key kw w0 = (Ok (Some sims), w1) ->
  path_basename (fst (path_split (arg_str "model_ws" (mt_args sims.2)))) = key
  /\ traces (fun e => is_save e = true ->
                      exists f, e = ESaveFig
                                      (path_join (base_ws cfg)
                                         [".."; "figures";
                                          key +:+ "-ct" +:+ figure_ext cfg]) f)
       (P02.plot_results_ct cfg fl (Some sims) idx kw).
Proof.
  intros Hk Hne Hbuild.
  destruct (p02_build_model_built _ _ _ _ _ _ Hbuild)
    as (gwf & gwt & mf & mt & t & -> & -> & _ & Hobs & _ & _ & _ & Hws).
  cbn [snd].
  assert (path_basename (fst (path_split (arg_str "model_ws" (mt_args mt)))) = key)
    as Hname.
  { rewrite Hws. cbn [path_join foldl].
    destruct (join2_component (base_ws cfg) key Hk Hne) as [Hp Ep].
    rewrite path_split_join2 by (try reflexivity; assumption).
    cbn [fst]. now apply path_basename_join2. }
  split; [exact Hname | ].
  unfold P02.plot_results_ct.
  destruct (plotModel cfg); [ | apply traces_ret ].
  cbv zeta. unfold P02.unpack4.
  apply traces_bind; [effects; discriminate | intros []].
  apply traces_bind_ret. cbv beta iota. rewrite Hname.
  effects; try discriminate.
  intros _. eexists. cbn [format]. rewrite append_nil_r. reflexivity.
Qed.

Lemma p02_figure_named_after_scenario_witness :
  exists sims w1,
    P02.build_model cfg_all "ex-gwt-mt3dms-p02d"
      (P02.Params None None None None None (Some 0.002%float)) world0
    = (Ok (Some sims), w1)
    /\ path_basename (fst (path_split (arg_str "model_ws" (mt_args sims.2))))
       = "ex-gwt-mt3dms-p02d".
Proof.
  eexists _, _. split; [reflexivity | ].
  refine (proj1 (p02_figure_named_after_scenario cfg_all fl_quiet
                   "ex-gwt-mt3dms-p02d"
                   (P02.Params None None None None None (Some 0.002%float))
                   world0 _ _ 0 eq_refl _ eq_refl)).
  discriminate.
Defined.

(** ** The workspaces of a scenario *)

Lemma join2_inj p s1 s2 :
  startswith_sep s1 = false -> startswith_sep s2 = false ->
  join2 p s1 = join2 p s2 -> s1 = s2.
Proof.
  intros H1 H2. unfold join2. rewrite H1, H2.
  destruct (String.eqb p "" || endswith_sep p); intros H.
  - now apply (inj (String.append p)) in H.
  - apply (inj (String.append p)) in H. now apply (inj (String.append "/")) in H.
Qed.

Lemma join2_neq p s :
  startswith_sep s = false -> s <> "" -> join2 p s <> p.
Proof.
  intros Hs Hne. unfold join2. rewrite Hs.
  destruct (String.eqb p "" || endswith_sep p); intros H.
  - rewrite <- (append_nil_r p) in H at 2. now apply (inj (String.append p)) in H.
  - rewrite <- (append_nil_r p) in H at 2.
    apply (inj (String.append p)) in H. discriminate H.
Qed.

(** X13.  Where the descriptions of a scenario live.  In problem 1
    MODFLOW-2005 and MT3DMS share one workspace, the folder [mt3d]
    inside the scenario folder, and the MODFLOW 6 simulation uses the
    scenario folder itself, a different path.  In problem 2 each of the
    four descriptions has a workspace of its own: the four paths are
    pairwise distinct, whatever the base workspace and the scenario
    name. *)
Theorem workspaces_of_a_scenario cfg fl key :
  (forall disp ret dec mixelm silent mf mt sim,
     P01.build_model cfg fl key disp ret dec mixelm silent = Ok (Some (mf, mt, sim)) ->
     arg_str "model_ws" (mf_args mf) = join2 (arg_str "sim_ws" (sim_args sim)) "mt3d"
     /\ arg_str "model_ws" (mt_args mt) = arg_str "model_ws" (mf_args mf)
     /\ arg_str "model_ws" (mt_args mt) <> arg_str "sim_ws" (sim_args sim))
  /\ (forall kw w gwf gwt mf mt w',
        P02.build_model cfg key kw w = (Ok (Some (gwf, gwt, mf, mt)), w') ->
        NoDup [ arg_str "sim_ws" (sim_args gwf); arg_str "sim_ws" (sim_args gwt);
                arg_str "model_ws" (mf_args mf); arg_str "model_ws" (mt_args mt) ]).
Proof.
  split.
  - intros disp ret dec mixelm silent mf mt sim.
    rewrite build_model_cases.
    destruct (buildModel cfg); [ | discriminate ].
    destruct (P01.select_scheme mixelm) as [scheme|e]; [ | discriminate ].
    intros H. injection H as <- <- <-.
    rewrite p01_build_mt_args.
    cbn [arg_str kwarg String.eqb Ascii.eqb Bool.eqb mf_args sim_args
         P01.build_mf P01.build_sim path_join foldl].
    repeat split. now apply join2_neq.
  - intros kw w gwf gwt mf mt w' Hbuild.
    destruct (p02_build_model_built _ _ _ _ _ _ Hbuild)
      as (gwf' & gwt' & mf' & mt' & t & [= <- <- <- <-] & _ & _ & _
          & -> & -> & -> & ->).
    cbn [path_join foldl].
    repeat constructor; rewrite ?not_elem_of_cons; repeat split;
      try apply not_elem_of_nil;
      intros H; apply join2_inj in H; try reflexivity; discriminate H.
Qed.

Lemma workspaces_of_a_scenario_witness :
  (exists mf mt sim,
     P01.build_model cfg_all fl_quiet "ex-gwt-mt3dms-p01a" 0.0 1.0 0.0 0 false
       = Ok (Some (mf, mt, sim))
     /\ arg_str "model_ws" (mt_args mt) = "../examples/ex-gwt-mt3dms-p01a/mt3d"
     /\ arg_str "model_ws" (mt_args mt) = arg_str "model_ws" (mf_args mf))
  /\ (exists gwf gwt mf mt w',
        P02.build_model cfg_all "ex-gwt-mt3dms-p02c"
          (P02.Params None None None None None (Some 0.0%float)) world0
        = (Ok (Some (gwf, gwt, mf, mt)), w')
        /\ arg_str "sim_ws" (sim_args gwf) <> arg_str "sim_ws" (sim_args gwt)).
Proof.
  pose proof (workspaces_of_a_scenario cfg_all fl_quiet "ex-gwt-mt3dms-p01a") as [H1 _].
  pose proof (workspaces_of_a_scenario cfg_all fl_quiet "ex-gwt-mt3dms-p02c") as [_ H2].
  split.
  - eexists _, _, _. split; [reflexivity | ]. split; [reflexivity | ].
    exact (proj1 (proj2 (H1 0.0%float 1.0%float 0.0%float 0 false _ _ _ eq_refl))).
  - eexists _, _, _, _, _. split; [reflexivity | ].
    specialize (H2 (P02.Params None None None None None (Some 0.0%float)) world0
                  _ _ _ _ _ eq_refl).
    apply NoDup_cons in H2 as [H2 _]. intros E. apply H2. rewrite E. left.
Defined.

(** ** How the transport models find the flow *)

Lemma split_last_append_component pre s :
  no_sep s = true ->
  split_last (pre +:+ s)
  = match split_last pre with
    | Some (h, t) => Some (h, t +:+ s)
    | None => None
    end.
Proof.
  intros Hs. induction pre as [|c pre IH].
  - change ("" +:+ s) with s. now rewrite (no_sep_split_last s Hs).
  - rewrite append_cons. cbn [split_last]. rewrite IH.
    destruct (split_last pre) as [[h t]|]; [reflexivity | ].
    now destruct (Ascii.eqb c "/").
Qed.

(** The folder a joined path lies in does not depend on the component
    joined last. *)
Lemma path_split_join2_folder p s1 s2 :
  no_sep s1 = true -> no_sep s2 = true ->
  fst (path_split (join2 p s1)) = fst (path_split (join2 p s2)).
Proof.
  intros H1 H2.
  assert (forall pre s, no_sep s = true ->
            fst (path_split (pre +:+ s))
            = match split_last pre with
              | Some (h, _) =>
                  if all_sep (h +:+ "/") then h +:+ "/" else rstrip_sep (h +:+ "/")
              | None => ""
              end) as Hsplit.
  { intros pre s Hs. unfold path_split.
    rewrite (split_last_append_component pre s Hs).
    now destruct (split_last pre) as [[h t]|]. }
  unfold join2.
  rewrite (no_sep_startswith s1 H1), (no_sep_startswith s2 H2).
  destruct (String.eqb p "" || endswith_sep p).
  - now rewrite !Hsplit.
  - rewrite <- !append_assoc. now rewrite !Hsplit.
Qed.

(** X14.  In problem 2 the transport descriptions are given the flow
    results by relative paths, and these agree with where the flow
    descriptions are built: the MODFLOW 6 transport workspace and the
    flow workspace lie in the same folder, and the head and budget files
    of the flow-model interface are [..], then the name of the flow
    workspace, then the file the flow model is told to save; likewise
    the MT3DMS and MODFLOW-2005 workspaces lie in the same folder and
    the flow-transport link file is looked for in [..], then the name
    of the MODFLOW-2005 workspace. *)
Theorem transport_finds_the_flow_output cfg key kw w gwf gwt mf mt w' :
  P02.build_model cfg key kw w = (Ok (Some (gwf, gwt, mf, mt)), w') ->
  (exists head budget,
     model_arg 0 "ModflowGwfoc" "head_filerecord" gwf = Some (PyStr head)
     /\ model_arg 0 "ModflowGwfoc" "budget_filerecord" gwf = Some (PyStr budget)
     /\ model_arg 0 "ModflowGwtfmi" "packagedata" gwt
        = Some (PyList
            [ PyTuple [ PyStr "GWFHEAD";
                        PyStr (path_join ".."
                                 [path_basename (arg_str "sim_ws" (sim_args gwf)); head]);
                        PyNone ];
              PyTuple [ PyStr "GWFBUDGET";
                        PyStr (path_join ".."
                                 [path_basename (arg_str "sim_ws" (sim_args gwf)); budget]);
                        PyNone ] ]))
  /\ fst (path_split (arg_str "sim_ws" (sim_args gwt)))
     = fst (path_split (arg_str "sim_ws" (sim_args gwf)))
  /\ fst (path_split (arg_str "ftlfilename" (mt_args mt)))
     = path_join ".." [path_basename (arg_str "model_ws" (mf_args mf))]
  /\ fst (path_split (arg_str "model_ws" (mt_args mt)))
     = fst (path_split (arg_str "model_ws" (mf_args mf))).
Proof.
  intros Hbuild.
  destruct (p02_build_model_built _ _ _ _ _ _ Hbuild)
    as (gwf' & gwt' & mf' & mt' & t & [= <- <- <- <-] & _ & _ & _
        & Hgwf & Hgwt & Hmf & Hmt).
  rewrite Hgwf, Hgwt, Hmf, Hmt. cbn [path_join foldl].
  rewrite !path_basename_join2 by reflexivity.
  revert Hbuild. unfold P02.build_model.
  destruct (buildModel cfg); [ | discriminate ].
  unfold P02.build_mt3dms.
  destruct (P02.select_isotherm (P02.Kf kw) (P02.a kw) (P02.Kl kw) (P02.S kw)
              (P02.beta kw)) as [[[isothm sp1] sp2]|]; [ | discriminate ].
  unfold P02.build_mf6gwf, P02.build_mf6gwt, P02.build_mf2005, bind, print, emit, ret.
  cbn [files figures trace]. intros H. injection H as <- <- <- <- _.
  split; [ | split; [ | split ] ].
  - exists "flow.hds", "flow.bud". unfold model_arg.
    cbn [sim_models lookup list_lookup].
    destruct (P02.beta kw) as [b|]; [destruct (float_gt b (float_of_Z 0)) | ];
      repeat split; reflexivity.
  - now apply path_split_join2_folder.
  - reflexivity.
  - now apply path_split_join2_folder.
Qed.

Lemma transport_finds_the_flow_output_witness :
  exists gwf gwt mf mt w',
    P02.build_model cfg_all "ex-gwt-mt3dms-p02c"
      (P02.Params None None None None None (Some 0.0%float)) world0
    = (Ok (Some (gwf, gwt, mf, mt)), w')
    /\ fst (path_split (arg_str "ftlfilename" (mt_args mt))) = "../mf2005"
    /\ fst (path_split (arg_str "sim_ws" (sim_args gwt)))
       = fst (path_split (arg_str "sim_ws" (sim_args gwf))).
Proof.
  eexists _, _, _, _, _. split; [reflexivity | ].
  pose proof (transport_finds_the_flow_output cfg_all "ex-gwt-mt3dms-p02c"
                (P02.Params None None None None None (Some 0.0%float)) world0
                _ _ _ _ _ eq_refl) as (_ & H1 & H2 & _).
  split; [exact H2 | exact H1].
Defined.

(** ** The output files the plots of problem 2 open *)

Lemma appends_traces {A} (P : event -> Prop) (Q : list event -> Prop) (m : M A) :
  traces P m -> (forall t, Forall P t -> Q t) -> appends Q m.
Proof.
  intros Hm HPQ w. destruct (Hm w) as (t & E & F). exists t. auto.
Qed.

Lemma appends_bind {A B} (P : event -> Prop) (Q : list event -> Prop)
    (m : M A) (k : A -> M B) :
  traces P m -> (forall a, appends Q (k a)) ->
  (forall t, Forall P t -> Q t) ->
  (forall t1 t2, Forall P t1 -> Q t2 -> Q (t1 ++ t2)) ->
  appends Q (bind m k).
Proof.
  intros Hm Hk HP HPQ w. unfold bind.
  destruct (Hm w) as (t1 & E1 & F1). destruct (m w) as [[a|e] w1].
  - destruct (Hk a w1) as (t2 & E2 & Q2). exists (t1 ++ t2).
    cbn [snd] in *. rewrite E2, E1, app_assoc. auto.
  - exists t1. auto.
Qed.

Lemma appends_bind_ret {A B} (Q : list event -> Prop) (a : A) (k : A -> M B) :
  appends Q (k a) -> appends Q (bind (ret a) k).
Proof. intros Hk w. rewrite bind_ret. apply Hk. Qed.

Lemma appends_bind_lift {A B} (Q : list event -> Prop) (r : result A)
    (k : A -> M B) a :
  r = Ok a -> appends Q (k a) -> appends Q (bind (lift r) k).
Proof. intros -> Hk w. rewrite bind_lift_ok. apply Hk. Qed.

Lemma appends_open_file {B} (Q Q' : list event -> Prop) path (k : string -> M B) :
  (forall c, appends Q' (k c)) -> Q' [] ->
  (forall t, Q' t -> Q (ERead path :: t)) ->
  appends Q (bind (open_file path) k).
Proof.
  intros Hk Hnil HQ w. unfold bind at 1, open_file, bind, emit. cbn.
  destruct (files w !! path) as [c|].
  - destruct (Hk c (World (files w) (figures w) (trace w ++ [ERead path])))
      as (t & E & Qt).
    exists (ERead path :: t). rewrite E. cbn. rewrite <- app_assoc. auto.
  - exists [ERead path]. auto.
Qed.

Lemma reads_of_cons_read path t : reads_of (ERead path :: t) = path :: reads_of t.
Proof. reflexivity. Qed.




(** ** What [write_model] leaves on disk *)

Lemma dict_get_app {A} k (d1 d2 : list (string * A)) :
  dict_get k (d1 ++ d2)
  = match dict_get k d1 with Some v => Some v | None => dict_get k d2 end.
Proof.
  induction d1 as [|[k' v] d1 IH]; [reflexivity | ].
  cbn. destruct (String.eqb k k'); [reflexivity | exact IH].
Qed.

Lemma store_lookup fs (m : gmap string string) path :
  store fs m !! path
  = match last_written path fs with Some c => Some c | None => m !! path end.
Proof.
  unfold last_written, store. revert m.
  induction fs as [|[k v] fs IH]; intros m; [reflexivity | ].
  cbn [foldl fst snd]. rewrite IH, reverse_cons, dict_get_app.
  destruct (dict_get path (reverse fs)); [reflexivity | ].
  cbn [dict_get]. destruct (String.eqb_spec path k) as [->|Hk].
  - apply lookup_insert_eq.
  - now apply lookup_insert_ne.
Qed.

(** X16.  [write_model] lets the writers of the scenario write one after
    the other into the same file system (MODFLOW-2005, MT3DMS, then
    MODFLOW 6 in problem 1; the two MODFLOW 6 simulations, MODFLOW-2005,
    then MT3DMS in problem 2).  A path that several of them write ends
    with the contents of the last one, and a path that none of them
    writes keeps what it had: nothing is removed. *)
Theorem write_model_last_writer_wins cfg fl silent w path :
  writeModel cfg = true ->
  (forall mf mt sim,
     files (snd (P01.write_model cfg fl mf mt sim silent w)) !! path
     = match last_written path
               (write_input_modflow fl mf ++ write_input_mt3dms fl mt
                ++ write_simulation fl sim silent) with
       | Some contents => Some contents
       | None => files w !! path
       end)
  /\ (forall gwf gwt mf mt,
        files (snd (P02.write_model cfg fl (Some (gwf, gwt, mf, mt)) silent w)) !! path
        = match last_written path
                  (write_simulation fl gwf silent ++ write_simulation fl gwt silent
                   ++ write_input_modflow fl mf ++ write_input_mt3dms fl mt) with
          | Some contents => Some contents
          | None => files w !! path
          end).
Proof.
  intros Hw. split.
  - intros mf mt sim. rewrite p01_write_model_outcome, Hw. cbn [snd files].
    now rewrite <- !store_app, store_lookup.
  - intros gwf gwt mf mt. unfold P02.write_model, P02.unpack4. rewrite Hw.
    rewrite bind_ret. unfold bind, write_files. cbn [snd files].
    now rewrite <- !store_app, store_lookup.
Qed.

Lemma write_model_last_writer_wins_witness :
  let mf := P01.build_mf cfg_all "s" in
  let mt := P01.build_mt cfg_all "s" mf 0.0 1.0 0.0 0 in
  let sim := P01.build_sim cfg_all fl_name_files "s"
               (P01.build_gwt 0.0 1.0 0.0 "UPSTREAM") in
  files (snd (P01.write_model cfg_all fl_name_files mf mt sim true world0))
    !! "model.nam" = Some "mt3dms"
  /\ files (snd (P01.write_model cfg_all fl_name_files mf mt sim true world0))
       !! "other" = None.
Proof.
  intros mf mt sim. split.
  - exact (proj1 (write_model_last_writer_wins cfg_all fl_name_files true world0
                    "model.nam" eq_refl) mf mt sim).
  - exact (proj1 (write_model_last_writer_wins cfg_all fl_name_files true world0
                    "other" eq_refl) mf mt sim).
Defined.

(** ** The files a scenario of problem 1 opens and the figure it saves *)

Lemma bind_assoc {A B C} (m : M A) (k1 : A -> M B) (k2 : B -> M C) w :
  bind (bind m k1) k2 w = bind m (fun x => bind (k1 x) k2) w.
Proof. unfold bind. destruct (m w) as [[a|e] w1]; reflexivity. Qed.

Lemma appends_bind_assoc {A B C} Q (m : M A) (k1 : A -> M B) (k2 : B -> M C) :
  appends Q (bind m (fun x => bind (k1 x) k2)) -> appends Q (bind (bind m k1) k2).
Proof. intros H w. rewrite bind_assoc. apply H. Qed.

Lemma appends_bind_raise {A B} (Q : list event -> Prop) e (k : A -> M B) :
  Q [] -> appends Q (bind (raise e) k).
Proof. intros Hnil w. exists []. split; [now rewrite app_nil_r | exact Hnil]. Qed.

Lemma not_plot_quiet t :
  Forall not_plot t -> reads_of t = [] /\ saves_of t = [].
Proof.
  induction 1 as [|e t He _ IH]; [now split | ].
  destruct e; try discriminate He; exact IH.
Qed.

Lemma appends_savefig (Q : list event -> Prop) fig path :
  Q [] -> (forall f, Q [ESaveFig path f]) -> appends Q (savefig fig path).
Proof.
  intros Hnil Hsave w. unfold savefig. destruct (figures w !! fig) as [f|].
  - exists [ESaveFig path f]. split; [reflexivity | apply Hsave].
  - exists []. split; [now rewrite app_nil_r | exact Hnil].
Qed.

(** X17.  A scenario of problem 1 opens at most two output files, the
    MT3DMS concentrations [<ws>/<name>/mt3d/MT3D001.UCN] and then the
    MODFLOW 6 concentrations [<ws>/<name>/gwt-p01-mf6.ucn], and saves at
    most one figure, [../figures/<name><ext>]; the figure is saved
    only when both files were opened. *)
Theorem p01_scenario_saves_after_reading cfg fl idx silent key p :
  py_index P01.parameters idx = Ok (key, p) ->
  appends (fun t =>
             reads_of t `prefix_of`
               [ path_join (base_ws cfg) [key; "mt3d"; "MT3D001.UCN"];
                 path_join (base_ws cfg) [key; "gwt-p01-mf6.ucn"] ]
             /\ saves_of t `prefix_of`
                  [ path_join ".." ["figures"; key +:+ figure_ext cfg] ]
             /\ (saves_of t = [ path_join ".." ["figures"; key +:+ figure_ext cfg] ] ->
                 reads_of t
                 = [ path_join (base_ws cfg) [key; "mt3d"; "MT3D001.UCN"];
                     path_join (base_ws cfg) [key; "gwt-p01-mf6.ucn"] ]))
    (P01.scenario cfg fl idx silent).
Proof.
  intros Hidx.
  set (A := path_join (base_ws cfg) [key; "mt3d"; "MT3D001.UCN"]).
  set (B := path_join (base_ws cfg) [key; "gwt-p01-mf6.ucn"]).
  set (F := path_join ".." ["figures"; key +:+ figure_ext cfg]).
  set (Q0 := fun t : list event =>
               reads_of t `prefix_of` [A; B] /\ saves_of t `prefix_of` [F]
               /\ (saves_of t = [F] -> reads_of t = [A; B])).
  set (Q1 := fun t : list event =>
               reads_of t `prefix_of` [B] /\ saves_of t `prefix_of` [F]
               /\ (saves_of t = [F] -> reads_of t = [B])).
  set (Q2 := fun t : list event => reads_of t = [] /\ saves_of t `prefix_of` [F]).
  assert (forall Q : list event -> Prop,
            Q [] ->
            (forall t1 t2, reads_of t1 = [] -> saves_of t1 = [] -> Q t2 -> Q (t1 ++ t2)) ->
            (forall t, Forall not_plot t -> Q t)
            /\ (forall t1 t2, Forall not_plot t1 -> Q t2 -> Q (t1 ++ t2))) as Hquiet.
  { intros Q Hnil Happ. split.
    - intros t' [R S]%not_plot_quiet. rewrite <- (app_nil_r t'). now apply Happ.
    - intros t1 t2 [R S]%not_plot_quiet. now apply Happ. }
  destruct (Hquiet Q0) as [HP0 HPQ0].
  { repeat split; [apply prefix_nil | apply prefix_nil | discriminate]. }
  { intros t1 t2 R S. unfold Q0. now rewrite reads_of_app, saves_of_app, R, S. }
  destruct (Hquiet Q1) as [HP1 HPQ1].
  { repeat split; [apply prefix_nil | apply prefix_nil | discriminate]. }
  { intros t1 t2 R S. unfold Q1. now rewrite reads_of_app, saves_of_app, R, S. }
  destruct (Hquiet Q2) as [HP2 HPQ2].
  { split; [reflexivity | apply prefix_nil]. }
  { intros t1 t2 R S. unfold Q2. now rewrite reads_of_app, saves_of_app, R, S. }
  clear Hquiet.
  unfold P01.scenario.
  eapply appends_bind_lift; [exact Hidx | ]. cbv beta iota.
  rewrite build_model_cases.
  destruct (buildModel cfg); cycle 1.
  { eapply appends_bind_lift; [reflexivity | ].
    apply appends_bind_raise. apply HP0. constructor. }
  cbn [P01.select_scheme Z.eqb].
  eapply appends_bind_lift; [reflexivity | ].
  unfold P01.unpack3. apply appends_bind_ret. cbv beta iota.
  eapply appends_bind;
    [apply p01_write_model_traces | intros [] | exact HP0 | exact HPQ0].
  eapply appends_bind;
    [apply p01_run_model_traces | intros success | exact HP0 | exact HPQ0].
  destruct success; [ | eapply appends_traces; [apply traces_ret | exact HP0] ].
  unfold P01.plot_results.
  destruct (plotModel cfg); [ | eapply appends_traces; [apply traces_ret | exact HP0] ].
  cbv zeta.
  generalize (linspace (float_of_Z 0) P01.l (Z.to_nat P01.ncol)). intros x.
  rewrite p01_build_mt_args.
  cbn [arg_str kwarg String.eqb Ascii.eqb Bool.eqb sim_args P01.build_sim].
  apply (appends_open_file _ Q1); cycle 1.
  { repeat split; [apply prefix_nil | apply prefix_nil | discriminate]. }
  { intros t (R & S & RS). unfold Q0.
    rewrite reads_of_cons_read. change (saves_of (ERead _ :: t)) with (saves_of t).
    split; [now apply (prefix_cons A) | ]. split; [exact S | ].
    intros E. now rewrite (RS E). }
  intros c_mt.
  eapply appends_bind_lift; [reflexivity | ].
  eapply appends_bind_lift; [apply p01_build_gwt_concentration_file | ].
  apply (appends_open_file _ Q2); cycle 1.
  { split; [reflexivity | apply prefix_nil]. }
  { intros t (R & S). unfold Q1.
    rewrite reads_of_cons_read. change (saves_of (ERead _ :: t)) with (saves_of t).
    rewrite R. split; [reflexivity | ]. split; [exact S | reflexivity]. }
  intros c_mf.
  apply appends_bind_assoc.
  eapply appends_bind; [effects | intros f | exact HP2 | exact HPQ2].
  apply appends_bind_ret. cbv beta iota.
  do 11 (eapply appends_bind; [effects | intros ? | exact HP2 | exact HPQ2]).
  destruct (plotSave cfg); [ | eapply appends_traces; [apply traces_ret | exact HP2] ].
  cbn [format]. rewrite append_nil_r.
  apply appends_savefig.
  - split; [reflexivity | apply prefix_nil].
  - intros fig. split; reflexivity.
Qed.

Lemma p01_scenario_saves_after_reading_witness :
  appends (fun t =>
             reads_of t `prefix_of`
               [ "../examples/ex-gwt-mt3dms-p01a/mt3d/MT3D001.UCN";
                 "../examples/ex-gwt-mt3dms-p01a/gwt-p01-mf6.ucn" ]
             /\ saves_of t `prefix_of` [ "../figures/ex-gwt-mt3dms-p01a.png" ]
             /\ (saves_of t = [ "../figures/ex-gwt-mt3dms-p01a.png" ] ->
                 reads_of t
                 = [ "../examples/ex-gwt-mt3dms-p01a/mt3d/MT3D001.UCN";
                     "../examples/ex-gwt-mt3dms-p01a/gwt-p01-mf6.ucn" ]))
    (P01.scenario cfg_all fl_profiles 0 true).
Proof.
  exact (p01_scenario_saves_after_reading cfg_all fl_profiles 0 true
           "ex-gwt-mt3dms-p01a" (P01.Params 0.0 1.0 0.0) eq_refl).
Defined.

(** ** Building every scenario of problem 2 *)

(** X8.  Every scenario of the parameter table of problem 2 can be
    built: each entry gives [build_mt3dms] one of [beta], [Kf] and
    [Kl], so [isothm] is bound when the reaction package is made.  With
    [buildModel] set and an index inside the table, [build_model]
    returns the four descriptions, with the MT3DMS model linked to the
    MODFLOW-2005 model returned with it; it has printed the four
    banners naming the scenario and left files and figures alone. *)
Theorem p02_every_scenario_builds cfg idx w :
  buildModel cfg = true -> -6 <= idx < 6 ->
  exists key kw gwf gwt mf mt isothm,
    py_index P02.parameters idx = Ok (key, kw)
    /\ P02.build_model cfg key kw w
       = (Ok (Some (gwf, gwt, mf, mt)),
          World (files w) (figures w)
            (trace w
             ++ [ EPrint (PyStr (format "Building mf6gwf model...{}" [key]));
                  EPrint (PyStr (format "Building mf6gwt model...{}" [key]));
                  EPrint (PyStr (format "Building mf2005 model...{}" [key]));
                  EPrint (PyStr (format "Building mt3dms model...{}" [key])) ]))
    /\ mt_modflowmodel mt = mf
    /\ rct_arg "isothm" mt = Some (PyInt isothm)
    /\ In isothm [2; 3; 4].
Proof.
  intros Hb Hidx.
  destruct (py_index_in_range P02.parameters idx) as [[key kw] Hk]; [exact Hidx | ].
  pose proof (py_index_Ok _ _ _ Hk) as [_ Hin].
  exists key, kw. unfold P02.build_model. rewrite Hb.
  cbn in Hin.
  repeat (destruct Hin as [[= <- <-]|Hin];
          [ eexists _, _, _, _, _; split; [exact Hk | ];
            split; [ unfold bind, P02.build_mf6gwf, P02.build_mf6gwt, P02.build_mf2005,
                       P02.build_mt3dms, bind, print, emit, ret;
                     cbn [files figures trace P02.select_isotherm
                          P02.Kf P02.a P02.Kl P02.S P02.beta];
                     rewrite <- !app_assoc; reflexivity | ];
            split; [reflexivity | ]; split; [reflexivity | cbn; tauto] | ]).
  destruct Hin.
Qed.

Lemma p02_every_scenario_builds_witness :
  exists key kw gwf gwt mf mt isothm,
    py_index P02.parameters (-1) = Ok (key, kw)
    /\ P02.build_model cfg_all key kw world0
       = (Ok (Some (gwf, gwt, mf, mt)),
          World ∅ []
            [ EPrint (PyStr (format "Building mf6gwf model...{}" [key]));
              EPrint (PyStr (format "Building mf6gwt model...{}" [key]));
              EPrint (PyStr (format "Building mf2005 model...{}" [key]));
              EPrint (PyStr (format "Building mt3dms model...{}" [key])) ])
    /\ mt_modflowmodel mt = mf
    /\ rct_arg "isothm" mt = Some (PyInt isothm)
    /\ In isothm [2; 3; 4].
Proof.
  apply (p02_every_scenario_builds cfg_all (-1) world0 eq_refl). lia.
Defined.

(** ** The plot of all results *)

Lemma column_found (ra : gmap string (list float)) name col :
  ra !! name = Some col -> column ra name = Ok col.
Proof. unfold column. now intros ->. Qed.

Lemma bind_run {A B} (m : M A) (k : A -> M B) w a w1 r :
  m w = (Ok a, w1) -> k a w1 = r -> bind m k w = r.
Proof. intros Hm Hk. now rewrite (bind_ok _ _ _ _ _ Hm). Qed.

(** One step of a run up to its outcome, when the leading computation
    succeeds; the world is kept in normal form. *)
Ltac exec_step :=
  eapply bind_run;
  [ first [ apply open_file_found; eassumption
          | apply lift_found; first [ apply column_found; eassumption | reflexivity ]
          | reflexivity ]
  | cbv beta iota; cbn [files figures trace]; rewrite ?alter_last;
    cbn [fig_specs fig_kw fig_axes] ].

(** One pass of the loop of [plot_results], on the figure made last. *)
Lemma p02_plot_case_run cfg fl name kw b icase color fs figs f t
    c_mf c_mt x008 totim time conc :
  dict_get name P02.parameters = Some kw ->
  P02.beta kw = Some b ->
  py_index P02.case_colors (Z.of_nat icase) = Ok color ->
  fs !! path_join (base_ws cfg) [name; "mf6gwt"; "trans.obs.csv"] = Some c_mf ->
  fs !! path_join (base_ws cfg) [name; "mt3d"; "MT3D001.OBS"] = Some c_mt ->
  mf6obs_data fl c_mf !! "X008" = Some x008 ->
  mf6obs_data fl c_mf !! "totim" = Some totim ->
  load_obs fl c_mt !! "time" = Some time ->
  load_obs fl c_mt !! "(1, 1, 51)" = Some conc ->
  P02.plot_case cfg fl (length figs) icase name (World fs (figs ++ [f]) t)
  = (Ok tt,
     World fs
       (figs ++
        [ Figure (fig_specs f) (fig_kw f)
            (fig_axes f ++
             [ AxPlot (slice_step 20 totim)
                      (slice_step 20 (array_div x008 P02.source_concentration)) None
                 [ ("markerfacecolor", PyStr "None"); ("markeredgecolor", PyStr "k");
                   ("marker", PyStr "o"); ("markersize", PyStr "3");
                   ("linestyle", PyStr "None") ];
               AxPlot time (array_div conc P02.source_concentration) None
                 [ ("color", PyStr color);
                   ("label", PyStr (format "beta {}" [str_float fl b])) ] ]) ])
       (t ++ [ ERead (path_join (base_ws cfg) [name; "mf6gwt"; "trans.obs.csv"]);
               ERead (path_join (base_ws cfg) [name; "mt3d"; "MT3D001.OBS"]) ])).
Proof.
  intros Hkw Hb Hc Hmf Hmt Hx Ht Htime Hconc.
  unfold P02.plot_case. rewrite Hkw, Hc. cbv zeta.
  rewrite bind_ret, Hb, bind_ret.
  repeat exec_step.
  unfold ax_call. cbn [files figures trace]. rewrite alter_last.
  cbn [fig_specs fig_kw fig_axes]. rewrite <- !app_assoc. reflexivity.
Qed.

(** X7.  The plot of all results of problem 2 loops over the scenarios
    of the parameter table from the third on.  Each of them has a
    [beta] and there are as many of them as case colors, so the
    lookups of the loop itself never fail: when the two observation
    files of each of these scenarios are there and hold the columns
    read, [plot_results] completes.  It has then opened these eight
    files in the order of the table, MODFLOW 6 before MT3DMS, left the
    files as they were, and made one figure with eight curves, for
    each scenario the MODFLOW 6 markers and then the MT3DMS line in the
    color of its rank, labelled with its [beta]; with [plotSave] the
    figure is saved once, as [../figures/ex-gwt-mt3dms-p02<ext>]. *)
Theorem p02_plot_results_completes cfg fl w :
  plotModel cfg = true ->
  (forall name, In name (drop 2 (map fst P02.parameters)) ->
     exists c_mf c_mt x008 totim time conc,
       files w !! path_join (base_ws cfg) [name; "mf6gwt"; "trans.obs.csv"] = Some c_mf
       /\ files w !! path_join (base_ws cfg) [name; "mt3d"; "MT3D001.OBS"] = Some c_mt
       /\ mf6obs_data fl c_mf !! "X008" = Some x008
       /\ mf6obs_data fl c_mf !! "totim" = Some totim
       /\ load_obs fl c_mt !! "time" = Some time
       /\ load_obs fl c_mt !! "(1, 1, 51)" = Some conc) ->
  let markers : kwargs :=
    [ ("markerfacecolor", PyStr "None"); ("markeredgecolor", PyStr "k");
      ("marker", PyStr "o"); ("markersize", PyStr "3");
      ("linestyle", PyStr "None") ] in
  let line (color : string) (b : float) : kwargs :=
    [ ("color", PyStr color);
      ("label", PyStr (format "beta {}" [str_float fl b])) ] in
  exists w' t f,
    P02.plot_results cfg fl w = (Ok tt, w')
    /\ files w' = files w
    /\ trace w' = trace w ++ t
    /\ reads_of t
       = flat_map (fun name =>
                     [ path_join (base_ws cfg) [name; "mf6gwt"; "trans.obs.csv"];
                       path_join (base_ws cfg) [name; "mt3d"; "MT3D001.OBS"] ])
           [ "ex-gwt-mt3dms-p02c"; "ex-gwt-mt3dms-p02d";
             "ex-gwt-mt3dms-p02e"; "ex-gwt-mt3dms-p02f" ]
    /\ saves_of t
       = (if plotSave cfg
          then [ path_join ".." ["figures"; "ex-gwt-mt3dms-p02" +:+ figure_ext cfg] ]
          else [])
    /\ figures w' = figures w ++ [f]
    /\ plot_kwargs f
       = [ markers; line "blue" 0.0%float; markers; line "green" 0.002%float;
           markers; line "red" 0.01%float; markers; line "yellow" 20.0%float ].
Proof.
  intros Hp Hfiles markers line.
  destruct (Hfiles "ex-gwt-mt3dms-p02c")
    as (c1 & d1 & x1 & t1 & u1 & y1 & Hc1 & Hd1 & Hx1 & Ht1 & Hu1 & Hy1);
    [cbn; tauto | ].
  destruct (Hfiles "ex-gwt-mt3dms-p02d")
    as (c2 & d2 & x2 & t2 & u2 & y2 & Hc2 & Hd2 & Hx2 & Ht2 & Hu2 & Hy2);
    [cbn; tauto | ].
  destruct (Hfiles "ex-gwt-mt3dms-p02e")
    as (c3 & d3 & x3 & t3 & u3 & y3 & Hc3 & Hd3 & Hx3 & Ht3 & Hu3 & Hy3);
    [cbn; tauto | ].
  destruct (Hfiles "ex-gwt-mt3dms-p02f")
    as (c4 & d4 & x4 & t4 & u4 & y4 & Hc4 & Hd4 & Hx4 & Ht4 & Hu4 & Hy4);
    [cbn; tauto | ].
  clear Hfiles.
  assert (forall k : unit -> M unit,
            bind (P02.for_each (P02.plot_case cfg fl (length (figures w))) 0
                    (drop 2 (map fst P02.parameters))) k
                 (World (files w) (figures w ++ [Figure P02.usgs_graph P02.subplots_kw []])
                    (trace w ++ [EPrint (PyStr "Plotting model results...")]))
            = k tt
                (World (files w)
                   (figures w ++
                    [ Figure P02.usgs_graph P02.subplots_kw
                        [ AxPlot (slice_step 20 t1)
                            (slice_step 20 (array_div x1 P02.source_concentration))
                            None markers;
                          AxPlot u1 (array_div y1 P02.source_concentration) None
                            (line "blue" 0.0%float);
                          AxPlot (slice_step 20 t2)
                            (slice_step 20 (array_div x2 P02.source_concentration))
                            None markers;
                          AxPlot u2 (array_div y2 P02.source_concentration) None
                            (line "green" 0.002%float);
                          AxPlot (slice_step 20 t3)
                            (slice_step 20 (array_div x3 P02.source_concentration))
                            None markers;
                          AxPlot u3 (array_div y3 P02.source_concentration) None
                            (line "red" 0.01%float);
                          AxPlot (slice_step 20 t4)
                            (slice_step 20 (array_div x4 P02.source_concentration))
                            None markers;
                          AxPlot u4 (array_div y4 P02.source_concentration) None
                            (line "yellow" 20.0%float) ] ])
                   (trace w
                    ++ EPrint (PyStr "Plotting model results...")
                    :: map ERead
                         (flat_map
                            (fun name =>
                               [ path_join (base_ws cfg) [name; "mf6gwt"; "trans.obs.csv"];
                                 path_join (base_ws cfg) [name; "mt3d"; "MT3D001.OBS"] ])
                            [ "ex-gwt-mt3dms-p02c"; "ex-gwt-mt3dms-p02d";
                              "ex-gwt-mt3dms-p02e"; "ex-gwt-mt3dms-p02f" ]))))
    as Hloop.
  { intros k. cbn [drop map fst P02.parameters P02.for_each].
    eapply bind_run.
    - eapply bind_run;
        [ eapply (p02_plot_case_run cfg fl "ex-gwt-mt3dms-p02c");
          first [ eassumption | reflexivity ] | cbv beta ].
      eapply bind_run;
        [ eapply (p02_plot_case_run cfg fl "ex-gwt-mt3dms-p02d");
          first [ eassumption | reflexivity ] | cbv beta ].
      eapply bind_run;
        [ eapply (p02_plot_case_run cfg fl "ex-gwt-mt3dms-p02e");
          first [ eassumption | reflexivity ] | cbv beta ].
      eapply bind_run;
        [ eapply (p02_plot_case_run cfg fl "ex-gwt-mt3dms-p02f");
          first [ eassumption | reflexivity ] | cbv beta ].
      reflexivity.
    - f_equal. cbn [fig_specs fig_kw fig_axes app]. f_equal.
      rewrite <- !app_assoc. reflexivity. }
  unfold P02.plot_results. rewrite Hp. cbv zeta.
  assert (forall (m : M unit) r,
            m (World (files w) (figures w)
                 (trace w ++ [EPrint (PyStr "Plotting model results...")]))
            = r ->
            bind (print (PyStr "Plotting model results...")) (fun _ => m) w = r)
    as Hprint.
  { intros m r <-. reflexivity. }
  destruct (plotSave cfg).
  - eexists _, _, _. split.
    { apply Hprint. exec_step. rewrite Hloop. repeat exec_step.
      unfold savefig. cbn [files figures trace].
      rewrite lookup_app_r, Nat.sub_diag by reflexivity.
      cbn [lookup list_lookup]. unfold emit. cbn [files figures trace].
      reflexivity. }
    cbn [files figures trace].
    split; [reflexivity | ].
    split; [rewrite <- !app_assoc; reflexivity | ].
    split; [reflexivity | ].
    split; [ | split; reflexivity ].
    unfold saves_of. rewrite omap_app. cbn [format].
    rewrite append_nil_r. reflexivity.
  - eexists _, _, _. split.
    { apply Hprint. exec_step. rewrite Hloop. repeat exec_step. reflexivity. }
    cbn [files figures trace].
    split; [reflexivity | ].
    split; [reflexivity | ].
    repeat split; reflexivity.
Qed.

Lemma p02_plot_results_completes_witness :
  exists w' t f,
    P02.plot_results cfg_all fl_observations world_p02_outputs = (Ok tt, w')
    /\ trace w' = t
    /\ length (reads_of t) = 8%nat
    /\ saves_of t = ["../figures/ex-gwt-mt3dms-p02.png"]
    /\ figures w' = [f]
    /\ length (plot_kwargs f) = 8%nat.
Proof.
  destruct (p02_plot_results_completes cfg_all fl_observations world_p02_outputs
              eq_refl)
    as (w' & t & f & H1 & _ & H3 & H4 & H5 & H6 & H7).
  { intros name Hin.
    exists "mf6", "mt3dms", [0.05; 0.025]%float, [1.0; 2.0]%float,
      [1.0; 2.0]%float, [0.05; 0.025]%float.
    cbn in Hin.
    destruct Hin as [<-|[<-|[<-|[<-|[]]]]]; repeat split; vm_compute; reflexivity. }
  exists w', t, f.
  split; [exact H1 | ]. split; [exact H3 | ].
  split; [now rewrite H4 | ]. split; [exact H5 | ].
  split; [exact H6 | now rewrite H7].
Defined.
